(** * PanicSense: the classification pipeline of [server/python/process.py]

    A shallow embedding of [DisasterSentimentBackend]: the key-pool
    dispatcher, the rule-based classifier, the disaster-type and location
    extractors, the news-source detection, the trained-example cache, the
    feedback subsystem with the feedback branch of [main], and
    [process_csv] with its record body, its batches and its retry loop,
    with the properties proved about them.

    Conventions of the embedding.
    - A Python [str] is a list of Unicode code points ([list N]); literals
      are written [py "..."] and decoded from UTF-8.
    - Case mapping and the character classes [isalpha], [isupper], [\w]
      follow CPython on Basic Latin and Latin-1 Supplement; code points
      from 256 on are caseless non-letters (symbols and emoji).  Whitespace
      is CPython's full table.
    - A Python [float] that holds a confidence or a score is an exact
      rational ([Q]); [round(x, 2)] is [round2].
    - What the code obtains from outside the process (language detection,
      JSON parsing of the request, HTTP replies, [random.uniform]) is an
      explicit argument, grouped in [World]; so is the clock the cooldown
      of [process_csv] reads. *)

From Stdlib Require Import ZArith NArith QArith List String Ascii Bool Lia.
From stdpp Require Import gmap.
Import ListNotations.

Set Default Proof Using "Type".

Open Scope string_scope.
Open Scope list_scope.

(* ===================================================================== *)
(** * Python strings *)
(* ===================================================================== *)

Module Py.
Local Open Scope N_scope.

Definition str := list N.

Fixpoint utf8_decode (fuel : nat) (bs : list N) : str :=
  match fuel with
  | O => []
  | S f =>
    match bs with
    | [] => []
    | b :: tl =>
      if b <? 128 then b :: utf8_decode f tl
      else if b <? 224 then
        match tl with
        | b1 :: tl' => ((b - 192) * 64 + (b1 - 128)) :: utf8_decode f tl'
        | _ => []
        end
      else if b <? 240 then
        match tl with
        | b1 :: b2 :: tl' =>
            ((b - 224) * 4096 + (b1 - 128) * 64 + (b2 - 128)) :: utf8_decode f tl'
        | _ => []
        end
      else
        match tl with
        | b1 :: b2 :: b3 :: tl' =>
            ((b - 240) * 262144 + (b1 - 128) * 4096 + (b2 - 128) * 64 + (b3 - 128))
              :: utf8_decode f tl'
        | _ => []
        end
    end
  end.

(** [py s] is the Python string whose UTF-8 encoding is the literal [s]. *)
Definition py (s : string) : str :=
  let bs := List.map N_of_ascii (list_ascii_of_string s) in
  utf8_decode (List.length bs) bs.

Definition between (lo hi c : N) : bool := (lo <=? c) && (c <=? hi).

(** [str.isspace] on one code point. *)
Definition isspace (c : N) : bool :=
  between 9 13 c || between 28 31 c || (c =? 32) || (c =? 133) || (c =? 160)
  || (c =? 5760) || between 8192 8202 c || (c =? 8232) || (c =? 8233)
  || (c =? 8239) || (c =? 8287) || (c =? 12288).

Definition is_upper_char (c : N) : bool :=
  between 65 90 c || between 192 214 c || between 216 222 c.

Definition is_lower_char (c : N) : bool :=
  between 97 122 c || (c =? 170) || (c =? 181) || (c =? 186)
  || between 223 246 c || between 248 255 c.

Definition is_cased (c : N) : bool := is_upper_char c || is_lower_char c.

Definition isalpha_char (c : N) : bool := is_cased c.

Definition isdigit_char (c : N) : bool :=
  between 48 57 c || (c =? 178) || (c =? 179) || (c =? 185) || between 188 190 c.

(** The class [\w] of the [re] module: alphanumerics and the underscore. *)
Definition is_word_char (c : N) : bool :=
  isalpha_char c || isdigit_char c || (c =? 95).

Definition lower_char (c : N) : N :=
  if between 65 90 c || between 192 214 c || between 216 222 c then c + 32 else c.

Definition upper_char (c : N) : str :=
  if between 97 122 c || between 224 246 c || between 248 254 c then [c - 32]
  else if c =? 223 then [83; 83]
  else if c =? 255 then [376]
  else if c =? 181 then [924]
  else [c].

Definition title_char (c : N) : str :=
  if c =? 223 then [83; 115] else upper_char c.

Definition lower (s : str) : str := List.map lower_char s.
Definition upper (s : str) : str := List.flat_map upper_char s.

(** [str.isupper]: no lowercase character and at least one uppercase one. *)
Definition isupper (s : str) : bool :=
  negb (existsb is_lower_char s) && existsb is_upper_char s.

(** [str.isalpha]: non-empty, letters only. *)
Definition isalpha (s : str) : bool :=
  negb (Nat.eqb (List.length s) 0) && forallb isalpha_char s.

Fixpoint title_from (previous_is_cased : bool) (s : str) : str :=
  match s with
  | [] => []
  | c :: tl =>
      (if previous_is_cased then [lower_char c] else title_char c)
        ++ title_from (is_cased c) tl
  end.

(** [str.title]. *)
Definition title (s : str) : str := title_from false s.

Fixpoint str_eqb (a b : str) : bool :=
  match a, b with
  | [], [] => true
  | x :: a', y :: b' => (x =? y) && str_eqb a' b'
  | _, _ => false
  end.

Fixpoint startswith (s p : str) : bool :=
  match p, s with
  | [], _ => true
  | a :: p', b :: s' => (a =? b) && startswith s' p'
  | _ :: _, [] => false
  end.

Definition endswith (s p : str) : bool := startswith (rev s) (rev p).

(** [needle in hay] for strings. *)
Fixpoint contains (needle hay : str) : bool :=
  match hay with
  | [] => startswith [] needle
  | _ :: tl => startswith hay needle || contains needle tl
  end.

(** [x in l] for a list of strings. *)
Definition mem (x : str) (l : list str) : bool := existsb (str_eqb x) l.

Fixpoint count_from (needle : str) (skip : nat) (hay : str) : nat :=
  match hay with
  | [] => O
  | _ :: tl =>
      match skip with
      | S k => count_from needle k tl
      | O =>
          if startswith hay needle
          then S (count_from needle (List.length needle - 1) tl)
          else count_from needle O tl
      end
  end.

(** [hay.count(needle)], non-overlapping occurrences of a non-empty needle. *)
Definition count (needle hay : str) : nat := count_from needle O hay.

Fixpoint lstrip (s : str) : str :=
  match s with
  | [] => []
  | c :: tl => if isspace c then lstrip tl else s
  end.

(** [str.strip()]. *)
Definition strip (s : str) : str := rev (lstrip (rev (lstrip s))).

Fixpoint split_from (cur : str) (s : str) : list str :=
  match s with
  | [] => match cur with [] => [] | _ => [rev cur] end
  | c :: tl =>
      if isspace c
      then match cur with [] => split_from [] tl | _ => rev cur :: split_from [] tl end
      else split_from (c :: cur) tl
  end.

(** [str.split()] with no argument: maximal runs of non-whitespace. *)
Definition split (s : str) : list str := split_from [] s.

Fixpoint join (sep : str) (l : list str) : str :=
  match l with
  | [] => []
  | [x] => x
  | x :: tl => x ++ sep ++ join sep tl
  end.

(** [l[a:b]] for [0 <= a]. *)
Definition slice {A} (l : list A) (a b : nat) : list A :=
  firstn (b - a) (skipn a l).

(** Python truthiness of a string. *)
Definition truthy (s : str) : bool := negb (Nat.eqb (List.length s) 0).

(** [any(w in s for w in words)]. *)
Definition any_in (words : list str) (s : str) : bool :=
  existsb (fun w => contains w s) words.

Definition pys (l : list string) : list str := List.map py l.

Arguments py s%_string_scope.
Arguments pys l%_string_scope.

End Py.
Export Py.

(* ===================================================================== *)
(** * The fragment of Python's [re] used by the backend *)
(* ===================================================================== *)

(** A backtracking matcher with the search order of [re]: alternatives
    left to right, greedy repetition longest first, lazy repetition
    shortest first.  Patterns have at most one capturing group. *)
Module Re.
Local Open Scope N_scope.

Inductive item :=
| Chr (c : N)            (* a literal character *)
| Rng (lo hi : N)        (* [lo-hi] *)
| Space                  (* \s *)
| Word.                  (* \w *)

Inductive re :=
| Eps
| Set_ (items : list item)       (* one character out of a class *)
| Dot                            (* any character but newline *)
| Cat (r1 r2 : re)
| Alt (r1 r2 : re)
| Star (greedy : bool) (r : re)
| Group (r : re)                 (* the capturing group *)
| Bound.                         (* \b *)

Definition item_matches (c : N) (i : item) : bool :=
  match i with
  | Chr x => c =? x
  | Rng lo hi => between lo hi c
  | Space => isspace c
  | Word => is_word_char c
  end.

Record mstate := MState {
  rest : str;                 (* input still to read *)
  prev : option N;            (* character just before the position *)
  pos : nat;                  (* offset of the position *)
  grp : option str            (* text of the capturing group *)
}.

Definition advance (st : mstate) (c : N) (tl : str) : mstate :=
  MState tl (Some c) (S (pos st)) (grp st).

Definition is_word_opt (o : option N) : bool :=
  match o with Some c => is_word_char c | None => false end.

Definition at_boundary (st : mstate) : bool :=
  xorb (is_word_opt (prev st)) (is_word_opt (List.head (rest st))).

Fixpoint run (r : re) (st : mstate) (k : mstate -> option mstate)
  : option mstate :=
  match r with
  | Eps => k st
  | Set_ items =>
      match rest st with
      | c :: tl => if existsb (item_matches c) items then k (advance st c tl) else None
      | [] => None
      end
  | Dot =>
      match rest st with
      | c :: tl => if c =? 10 then None else k (advance st c tl)
      | [] => None
      end
  | Cat r1 r2 => run r1 st (fun st' => run r2 st' k)
  | Alt r1 r2 =>
      match run r1 st k with
      | Some e => Some e
      | None => run r2 st k
      end
  | Star greedy r1 =>
      (fix loop (fuel : nat) (st0 : mstate) : option mstate :=
         match fuel with
         | O => k st0
         | S f =>
             let again (_ : unit) :=
               run r1 st0 (fun st' =>
                 if Nat.ltb (pos st0) (pos st') then loop f st' else None) in
             if greedy then
               match again tt with
               | Some e => Some e
               | None => k st0
               end
             else
               match k st0 with
               | Some e => Some e
               | None => again tt
               end
         end) (S (List.length (rest st))) st
  | Group r1 =>
      run r1 st (fun st' =>
        k (MState (rest st') (prev st') (pos st')
                  (Some (firstn (pos st' - pos st)%nat (rest st)))))
  | Bound => if at_boundary st then k st else None
  end.

(** Derived forms. *)
Definition chr (c : N) : re := Set_ [Chr c].
Definition lit (s : str) : re := List.fold_right (fun c r => Cat (chr c) r) Eps s.
Definition l (s : string) : re := lit (py s).
Arguments l s%_string_scope.
Definition plus (r : re) : re := Cat r (Star true r).
Definition plus_lazy (r : re) : re := Cat r (Star false r).
Definition star (r : re) : re := Star true r.
Definition opt (r : re) : re := Alt r Eps.
Fixpoint alts (rs : list re) : re :=
  match rs with
  | [] => Set_ []
  | [r] => r
  | r :: tl => Alt r (alts tl)
  end.
Fixpoint cats (rs : list re) : re :=
  match rs with
  | [] => Eps
  | r :: tl => Cat r (cats tl)
  end.
(** [r{n,}] *)
Fixpoint at_least (n : nat) (r : re) : re :=
  match n with
  | O => Star true r
  | S m => Cat r (at_least m r)
  end.

Definition s_ : re := Set_ [Space].          (* \s *)
Definition w_ : re := Set_ [Word].           (* \w *)
Definition AZ : re := Set_ [Rng 65 90].      (* [A-Z] *)
Definition az : re := Set_ [Rng 97 122].     (* [a-z] *)
Definition azAZ : re := Set_ [Rng 97 122; Rng 65 90].   (* [a-zA-Z] *)
Definition AZaz : re := Set_ [Rng 65 90; Rng 97 122].   (* [A-Za-z] *)
Definition ws_ : re := Set_ [Word; Space].   (* [\w\s] *)
Definition punct : re := Set_ [Chr 33; Chr 46; Chr 63].   (* [\!\.\?] *)
Definition bang_q : re := Set_ [Chr 33; Chr 63].          (* [!?] *)

Definition start_state (s : str) : mstate := MState s None O None.

Definition step_state (st : mstate) : mstate :=
  match rest st with
  | c :: tl => advance st c tl
  | [] => st
  end.

(** The text a match consumed, from its start state to its end state. *)
Definition matched (st e : mstate) : str := firstn (pos e - pos st)%nat (rest st).

Fixpoint search_from (r : re) (fuel : nat) (st : mstate)
  : option (mstate * mstate) :=
  match run r (MState (rest st) (prev st) (pos st) None) Some with
  | Some e => Some (st, e)
  | None =>
      match fuel with
      | O => None
      | S f =>
          match rest st with
          | [] => None
          | _ => search_from r f (step_state st)
          end
      end
  end.

(** [re.search(r, s)] as a truth value. *)
Definition search (r : re) (s : str) : bool :=
  match search_from r (List.length s) (start_state s) with
  | Some _ => true
  | None => false
  end.

Fixpoint findall_from (r : re) (fuel : nat) (st : mstate) : list str :=
  match fuel with
  | O => []
  | S f =>
      match search_from r (List.length (rest st)) st with
      | None => []
      | Some (b, e) =>
          let hit := match grp e with Some g => g | None => matched b e end in
          let next := if Nat.ltb (pos b) (pos e) then e else step_state e in
          match rest b with
          | [] => [hit]
          | _ => hit :: findall_from r f next
          end
      end
  end.

(** [re.findall(r, s)]: the group of every match when the pattern has a
    group, the whole match otherwise. *)
Definition findall (r : re) (s : str) : list str :=
  findall_from r (S (List.length s)) (start_state s).

(** [\b\w+\b] *)
Definition word_pattern : re := cats [Bound; plus w_; Bound].

End Re.

(* ===================================================================== *)
(** * Numbers *)
(* ===================================================================== *)

Definition Qlt_bool (a b : Q) : bool := negb (Qle_bool b a).
Definition qmax (a b : Q) : Q := if Qle_bool a b then b else a.
Definition qmin (a b : Q) : Q := if Qle_bool a b then a else b.

(** [round(x, 2)]: the nearest multiple of 1/100, halves to even, written
    with denominator 100. *)
Definition round2 (x : Q) : Q :=
  let n := (Qnum x * 100)%Z in
  let d := Zpos (Qden x) in
  let q := (n / d)%Z in
  let r := (n mod d)%Z in
  let up :=
    if (d <? 2 * r)%Z then true
    else if (2 * r =? d)%Z then Z.odd q
    else false in
  ((if up then q + 1 else q)%Z # 100).

(* ===================================================================== *)
(** * Disaster-type extractor *)
(* ===================================================================== *)

Inductive Disaster :=
  Earthquake | Flood | Typhoon | Fire | VolcanicEruptions | Landslide.

Definition Disaster_eqb (a b : Disaster) : bool :=
  match a, b with
  | Earthquake, Earthquake | Flood, Flood | Typhoon, Typhoon
  | Fire, Fire | VolcanicEruptions, VolcanicEruptions
  | Landslide, Landslide => true
  | _, _ => false
  end.

(** The dictionary keys, as the code spells them. *)
Definition disaster_name (d : Disaster) : str :=
  match d with
  | Earthquake => py "Earthquake"
  | Flood => py "Flood"
  | Typhoon => py "Typhoon"
  | Fire => py "Fire"
  | VolcanicEruptions => py "Volcanic Eruptions"
  | Landslide => py "Landslide"
  end.

(** [disaster_types], in insertion order. *)
Definition disaster_types : list (Disaster * list str) :=
  [ (Earthquake, pys [
      "earthquake"; "quake"; "tremor"; "seismic"; "lindol"; "magnitude";
      "aftershock"; "shaking"; "lumindol"; "pagyanig"; "paglindol";
      "ground shaking"; "magnitude" ]);
    (Flood, pys [
      "flood"; "flooding"; "inundation"; "baha"; "tubig"; "binaha";
      "flash flood"; "rising water"; "bumabaha"; "nagbaha";
      "high water level"; "water rising"; "overflowing"; "pagbaha";
      "underwater"; "submerged"; "nabahaan" ]);
    (Typhoon, pys [
      "typhoon"; "storm"; "cyclone"; "hurricane"; "bagyo"; "super typhoon";
      "habagat"; "ulan"; "buhos"; "storm surge"; "malakas na hangin";
      "heavy rain"; "signal no"; "strong wind"; "malakas na ulan";
      "flood warning"; "storm warning"; "evacuate due to storm";
      "matinding ulan" ]);
    (Fire, pys [
      "fire"; "blaze"; "burning"; "sunog"; "nasusunog"; "nasunog";
      "nagliliyab"; "flame"; "apoy"; "burning building"; "burning house";
      "tulong sunog"; "house fire"; "fire truck"; "fire fighter";
      "building fire"; "fire alarm"; "burning"; "nagliliyab"; "sinusunog";
      "smoke"; "usok" ]);
    (VolcanicEruptions, pys [
      "volcano"; "eruption"; "lava"; "ash"; "bulkan"; "ashfall"; "magma";
      "volcanic"; "bulkang"; "active volcano"; "phivolcs alert"; "taal";
      "mayon"; "pinatubo"; "volcanic activity"; "phivolcs"; "volcanic ash";
      "evacuate volcano"; "erupting"; "erupted"; "abo ng bulkan" ]);
    (Landslide, pys [
      "landslide"; "mudslide"; "avalanche"; "guho"; "pagguho";
      "pagguho ng lupa"; "collapsed"; "erosion"; "land collapse";
      "soil erosion"; "rock slide"; "debris flow"; "mountainside";
      "nagkaroong ng guho"; "rumble"; "bangin"; "bumagsak na lupa" ]) ].

Definition context_indicators : list (Disaster * list str) :=
  [ (Earthquake, pys [
      "shaking"; "ground moved"; "buildings collapsed"; "magnitude";
      "richter scale"; "fell down"; "trembling"; "evacuate building";
      "underneath rubble"; "trapped" ]);
    (Flood, pys [
      "water level"; "rising water"; "underwater"; "submerged"; "evacuate";
      "rescue boat"; "stranded"; "high water"; "knee deep"; "waist deep" ]);
    (Typhoon, pys [
      "strong winds"; "heavy rain"; "evacuation center"; "storm signal";
      "stranded"; "cancelled flights"; "damaged roof"; "blown away";
      "flooding due to"; "trees fell" ]);
    (Fire, pys [
      "smoke"; "evacuate building"; "trapped inside"; "firefighter";
      "fire truck"; "burning"; "call 911"; "spread to"; "emergency";
      "burning smell" ]);
    (VolcanicEruptions, pys [
      "alert level"; "evacuate area"; "danger zone"; "eruption warning";
      "exclusion zone"; "kilometer radius"; "volcanic activity";
      "ash covered"; "masks"; "respiratory" ]);
    (Landslide, pys [
      "collapsed"; "blocked road"; "buried"; "fell"; "slid down";
      "mountain slope"; "after heavy rain"; "buried homes"; "rescue team";
      "clearing operation" ]) ].

(** The [scores] dictionary: one number per disaster type. *)
Definition dscores := Disaster -> Q.

Definition dscores_add (d : Disaster) (w : Q) (s : dscores) : dscores :=
  fun d' => if Disaster_eqb d d' then (s d' + w)%Q else s d'.

Definition dict_get (table : list (Disaster * list str)) (d : Disaster)
  : list str :=
  match List.find (fun e => Disaster_eqb (fst e) d) table with
  | Some e => snd e
  | None => []
  end.

Definition space : str := [32%N].

(** The full-word test of the first pass. *)
Definition full_word (keyword text_lower : str) : bool :=
  contains (space ++ keyword ++ space) (space ++ text_lower ++ space)
  || startswith text_lower (keyword ++ space)
  || endswith text_lower (space ++ keyword)
  || str_eqb text_lower keyword.

Definition keyword_weight (text_lower keyword : str) : Q :=
  if contains keyword text_lower
  then if full_word keyword text_lower then 2%Q else 1%Q
  else 0%Q.

(** First pass: direct keyword matches. *)
Definition keyword_pass (text_lower : str) (s : dscores) : dscores :=
  List.fold_left
    (fun s e =>
       List.fold_left
         (fun s keyword => dscores_add (fst e) (keyword_weight text_lower keyword) s)
         (snd e) s)
    disaster_types s.

(** Contextual indicators, 1.5 each. *)
Definition context_pass (text_lower : str) (s : dscores) : dscores :=
  List.fold_left
    (fun s e =>
       List.fold_left
         (fun s indicator =>
            if contains indicator text_lower
            then dscores_add (fst e) (3 # 2) s else s)
         (snd e) s)
    context_indicators s.

Definition both (a b : string) (text_lower : str) : bool :=
  contains (py a) text_lower && contains (py b) text_lower.
Arguments both (a b)%_string_scope text_lower.

(** Co-occurrence patterns. *)
Definition cooccurrence_pass (text_lower : str) (s : dscores) : dscores :=
  let s := if both "water" "rising" text_lower then dscores_add Flood 2%Q s else s in
  let s := if both "strong" "wind" text_lower then dscores_add Typhoon 2%Q s else s in
  let s := if both "heavy" "rain" text_lower then dscores_add Typhoon (3 # 2) s else s in
  let s := if both "building" "collapse" text_lower then dscores_add Earthquake 2%Q s else s in
  let s := if both "ash" "fall" text_lower then dscores_add VolcanicEruptions 2%Q s else s in
  if both "evacuate" "alert" text_lower
  then List.fold_left
         (fun s d_type =>
            if any_in (dict_get disaster_types d_type) text_lower
            then dscores_add d_type 1%Q s else s)
         [VolcanicEruptions; Fire; Flood; Typhoon] s
  else s.

Definition disaster_scores (text_lower : str) : dscores :=
  cooccurrence_pass text_lower
    (context_pass text_lower (keyword_pass text_lower (fun _ => 0%Q))).

(** The keys of [scores], in insertion order. *)
Definition disaster_keys : list Disaster :=
  List.map fst disaster_types.

(** [max(scores.values())] *)
Definition dscores_max (s : dscores) : Q :=
  match List.map s disaster_keys with
  | [] => 0%Q
  | v :: vs => List.fold_left qmax vs v
  end.

Definition priority_order : list Disaster :=
  [Typhoon; Flood; Earthquake; VolcanicEruptions; Fire; Landslide].

Definition Disaster_in (d : Disaster) (l : list Disaster) : bool :=
  existsb (Disaster_eqb d) l.

Definition top_disasters_of (s : dscores) : list Disaster :=
  List.filter (fun dt => Qeq_bool (s dt) (dscores_max s)) disaster_keys.

Definition extract_disaster_type (text : str) : str :=
  if negb (truthy text) || Nat.eqb (List.length (strip text)) 0
  then py "Not Specified"
  else
    let text_lower := lower text in
    let scores := disaster_scores text_lower in
    let max_score := dscores_max scores in
    if Qlt_bool max_score 1%Q then py "UNKNOWN"
    else
      let top_disasters := top_disasters_of scores in
      if Nat.eqb (List.length top_disasters) 1
      then List.hd [] (List.map disaster_name top_disasters)
      else
        match List.find (fun disaster => Disaster_in disaster top_disasters)
                        priority_order with
        | Some disaster => disaster_name disaster
        | None => List.hd [] (List.map disaster_name top_disasters)
        end.

(* ===================================================================== *)
(** * Location extractor *)
(* ===================================================================== *)

(** The first result a loop body returns, scanning [l] in order. *)
Fixpoint first_some {A B} (f : A -> option B) (l : list A) : option B :=
  match l with
  | [] => None
  | x :: tl =>
      match f x with
      | Some r => Some r
      | None => first_some f tl
      end
  end.

Definition misspelling_map : list (str * str) :=
  [ (py "maynila", py "manila");
    (py "mnl", py "manila");
    (py "mnla", py "manila");
    (py "manilla", py "manila");
    (py "kyusi", py "quezon city");
    (py "qc", py "quezon city");
    (py "q.c", py "quezon city");
    (py "quiapo", py "manila");
    (py "makate", py "makati");
    (py "makati city", py "makati");
    (py "bgc", py "taguig");
    (py "taguig city", py "taguig");
    (py "m.manila", py "metro manila");
    (py "metromanila", py "metro manila");
    (py "calocan", py "caloocan");
    (py "kalookan", py "caloocan");
    (py "kalokan", py "caloocan");
    (py "caloocan city", py "caloocan");
    (py "pasay city", py "pasay");
    (py "muntinlupa city", py "muntinlupa");
    (py "valenzuela city", py "valenzuela");
    (py "las pinas", py "las piñas");
    (py "laspinas", py "las piñas");
    (py "laspiñas", py "las piñas");
    (py "marikina city", py "marikina");
    (py "paranaque", py "parañaque");
    (py "paranaque city", py "parañaque");
    (py "parañaque city", py "parañaque");
    (py "sampaloc", py "manila");
    (py "intramuros", py "manila");
    (py "pandacan", py "manila");
    (py "paco", py "manila");
    (py "baguio city", py "baguio");
    (py "cebu city", py "cebu");
    (py "davao city", py "davao");
    (py "iloilo city", py "iloilo");
    (py "cdo", py "cagayan de oro");
    (py "cdeo", py "cagayan de oro");
    (py "zamboanga city", py "zamboanga");
    (py "bacolod city", py "bacolod");
    (py "gen san", py "general santos");
    (py "gensan", py "general santos");
    (py "tacloban city", py "tacloban");
    (py "legazpi", py "legaspi");
    (py "legaspi city", py "legaspi");
    (py "legazpi city", py "legaspi");
    (py "naga city", py "naga");
    (py "batangas city", py "batangas");
    (py "cavite city", py "cavite");
    (py "dagupan city", py "dagupan");
    (py "laoag city", py "laoag");
    (py "lucena city", py "lucena");
    (py "tagaytay city", py "tagaytay");
    (py "iligan city", py "iligan");
    (py "cotabato city", py "cotabato");
    (py "butuan city", py "butuan");
    (py "cainta", py "rizal");
    (py "antipolo", py "rizal");
    (py "taytay", py "rizal");
    (py "bayan ng taytay", py "rizal");
    (py "zambales province", py "zambales");
    (py "pangasinan province", py "pangasinan");
    (py "benguet province", py "benguet");
    (py "camarines sur", py "camarines");
    (py "camarines norte", py "camarines");
    (py "north cotabato", py "cotabato");
    (py "maguindanao del norte", py "maguindanao");
    (py "maguindanao del sur", py "maguindanao") ].

(** [ph_locations] as first assigned: regions, cities, municipalities. *)
Definition ph_locations_listed : list str := pys [
    "NCR"; "Metro Manila"; "CAR"; "Cordillera"; "Ilocos"; "Cagayan Valley";
    "Central Luzon"; "CALABARZON"; "MIMAROPA"; "Bicol"; "Western Visayas";
    "Central Visayas"; "Eastern Visayas"; "Zamboanga Peninsula";
    "Northern Mindanao"; "Davao Region"; "SOCCSKSARGEN"; "Caraga"; "BARMM";
    "Bangsamoro"; "Manila"; "Quezon City"; "Makati"; "Taguig"; "Pasig";
    "Mandaluyong"; "Pasay"; "Caloocan"; "Parañaque"; "Las Piñas";
    "Muntinlupa"; "Marikina"; "Valenzuela"; "Malabon"; "Navotas"; "San Juan";
    "Pateros"; "Tondo"; "Sampaloc"; "Malate"; "Paco"; "Intramuros"; "Quiapo";
    "Binondo"; "Ermita"; "San Nicolas"; "San Miguel"; "Santa Cruz";
    "Santa Mesa"; "Pandacan"; "Port Area"; "Sta. Ana"; "Tipi"; "TIPI";
    "Tipas"; "Tipas Taguig"; "Napindan"; "Baguio"; "Cebu"; "Davao"; "Iloilo";
    "Cagayan de Oro"; "Zamboanga"; "Bacolod"; "General Santos"; "Tacloban";
    "Angeles"; "Olongapo"; "Naga"; "Butuan"; "Cotabato"; "Dagupan"; "Iligan";
    "Laoag"; "Legazpi"; "Lucena"; "Puerto Princesa"; "Roxas"; "Tipi";
    "Tagaytay"; "Tagbilaran"; "Tarlac"; "Tuguegarao"; "Vigan"; "Cabanatuan";
    "Bago"; "Batangas City"; "Bayawan"; "Calbayog"; "Cauayan"; "Dapitan";
    "Digos"; "Dipolog"; "Dumaguete"; "El Salvador"; "Gingoog"; "Himamaylan";
    "Iriga"; "Kabankalan"; "Kidapawan"; "La Carlota"; "Lamitan"; "Lipa";
    "Maasin"; "Malaybalay"; "Malolos"; "Mati"; "Meycauayan"; "Oroquieta";
    "Ozamiz"; "Pagadian"; "Palayan"; "Panabo"; "Sorsogon City";
    "Surigao City"; "Tabuk"; "Tandag"; "Tangub"; "Tanjay"; "Urdaneta";
    "Valencia"; "Zamboanga City" ].

Definition provinces : list str := pys [
    "Abra"; "Agusan del Norte"; "Agusan del Sur"; "Aklan"; "Albay";
    "Antique"; "Apayao"; "Aurora"; "Basilan"; "Bataan"; "Batanes";
    "Batangas"; "Benguet"; "Biliran"; "Bohol"; "Bukidnon"; "Bulacan";
    "Cagayan"; "Camarines Norte"; "Camarines Sur"; "Camiguin"; "Capiz";
    "Catanduanes"; "Cavite"; "Cebu"; "Cotabato"; "Davao de Oro";
    "Davao del Norte"; "Davao del Sur"; "Davao Oriental"; "Dinagat Islands";
    "Eastern Samar"; "Guimaras"; "Ifugao"; "Ilocos Norte"; "Ilocos Sur";
    "Iloilo"; "Isabela"; "Kalinga"; "La Union"; "Laguna"; "Lanao del Norte";
    "Lanao del Sur"; "Leyte"; "Maguindanao"; "Marinduque"; "Masbate";
    "Misamis Occidental"; "Misamis Oriental"; "Mountain Province";
    "Negros Occidental"; "Negros Oriental"; "Northern Samar"; "Nueva Ecija";
    "Nueva Vizcaya"; "Occidental Mindoro"; "Oriental Mindoro"; "Palawan";
    "Pampanga"; "Pangasinan"; "Quezon"; "Quirino"; "Rizal"; "Romblon";
    "Samar"; "Sarangani"; "Siquijor"; "Sorsogon"; "South Cotabato";
    "Southern Leyte"; "Sultan Kudarat"; "Sulu"; "Surigao del Norte";
    "Surigao del Sur"; "Tarlac"; "Tawi-Tawi"; "Zambales";
    "Zamboanga del Norte"; "Zamboanga del Sur"; "Zamboanga Sibugay" ].

(** [ph_locations] after [ph_locations.extend(provinces)]: the gazetteer. *)
Definition ph_locations : list str := ph_locations_listed ++ provinces.

Module LocationPatterns.
Import Re.

(** [MAY\s+\w+\s+SA\s+([A-Z]+)[\!\.\?]*] *)
Definition upper_emergency : re :=
  cats [l "MAY"; plus s_; plus w_; plus s_; l "SA"; plus s_;
        Group (plus AZ); star punct].

(** [SA\s+([A-Z]+)[\!\.\?]*] *)
Definition upper_sa : re :=
  cats [l "SA"; plus s_; Group (plus AZ); star punct].

(** [<prefix> ([a-zA-Z]+)] *)
Definition emergency_word (prefix : string) : re :=
  cats [l prefix; Group (plus azAZ)].

(** [<prefix> ([\w\s]+?)[\!\.\?]] *)
Definition emergency_phrase (prefix : string) : re :=
  cats [l prefix; Group (plus_lazy ws_); punct].

Definition emergency_location_patterns : list re :=
  [ emergency_word "may sunog sa ";
    emergency_word "may baha sa ";
    emergency_word "may lindol sa ";
    emergency_word "may bagyo sa ";
    emergency_word "may landslide sa ";
    emergency_word "nasunugan sa ";
    emergency_word "binaha sa ";
    emergency_word "may eruption sa ";
    emergency_phrase "may sunog sa ";
    emergency_phrase "may baha sa ";
    emergency_phrase "may lindol sa " ].

(** [\bsa\s+([\w\s]+?)[\!\.\?]] *)
Definition sa_pattern : re :=
  cats [Bound; l "sa"; plus s_; Group (plus_lazy ws_); punct].

(** [\b] + [re.escape(loc.lower())] + [\b] *)
Definition location_pattern (loc : str) : re :=
  cats [Bound; lit (lower loc); Bound].

(** [([A-Za-z][a-z]+(?:\s+[A-Za-z][a-z]+)?)] *)
Definition place_name : re :=
  Group (cats [AZaz; plus az; opt (cats [plus s_; AZaz; plus az])]).

Definition after (prepositions : list re) : re :=
  cats [alts prepositions; plus s_; place_name].

Definition place_patterns : list re :=
  [ after [l "in"; l "at"; l "from"; l "to"; l "near"; l "around"];
    after [l "sa"; l "ng"; l "mula"; l "papunta"; l "malapit"; l "dito sa";
           l "nangyari sa"; l "galing sa"];
    after [l "baha sa"; l "lindol sa"; l "sunog sa"; l "bagyo sa";
           l "landslide sa"; l "putok ng bulkan sa"];
    cats [l "affected area"; opt (l "s"); l " ";
          alts [l "include"; l "are"; l "is"]; plus s_; place_name];
    cats [l "apektadong lugar"; plus s_; opt (alts [l "ay"; l "ang"]);
          plus s_; place_name];
    after [l "city of"; l "municipality of"; l "town of"; l "province of";
           l "bayan ng"; l "lungsod ng"; l "lalawigan ng"] ].

End LocationPatterns.

(** [matches[0].strip()], kept when longer than one character and
    returned in title case. *)
Definition title_of_first (matches : list str) : option str :=
  match matches with
  | m :: _ =>
      let location := strip m in
      if Nat.ltb 1 (List.length location) then Some (title location) else None
  | [] => None
  end.

(** All-caps emergency statements. *)
Definition stage_upper (text : str) : option str :=
  if isupper text then
    match title_of_first (Re.findall LocationPatterns.upper_emergency text) with
    | Some loc => Some loc
    | None => title_of_first (Re.findall LocationPatterns.upper_sa text)
    end
  else None.

(** Regular-case emergency patterns. *)
Definition stage_emergency (text_lower : str) : option str :=
  first_some (fun pattern => title_of_first (Re.findall pattern text_lower))
             LocationPatterns.emergency_location_patterns.

(** The [sa X!] pattern. *)
Definition stage_sa (text_lower : str) : option str :=
  title_of_first (Re.findall LocationPatterns.sa_pattern text_lower).

(** Step 1: known misspellings and shortcuts. *)
Definition stage_misspelling (text_lower : str) : option str :=
  first_some
    (fun entry : str * str =>
       let (misspelling, correct) := entry in
       if contains misspelling text_lower
       then List.find (fun loc => str_eqb (lower loc) correct) ph_locations
       else None)
    misspelling_map.

(** Whether [loc] occurs in [text_lower] as a whole word. *)
Definition whole_word_match (text_lower loc : str) : bool :=
  Re.search (LocationPatterns.location_pattern loc) text_lower.

(** Step 2: exact whole-word matches; [locations_found[0]]. *)
Definition stage_whole_word (text_lower : str) : option str :=
  List.hd_error (List.filter (whole_word_match text_lower) ph_locations).

(** Step 3: substring matches. *)
Definition stage_substring (text_lower : str) : option str :=
  List.find (fun loc => contains (lower loc) text_lower) ph_locations.

Definition abs_diff (a b : nat) : nat := (a - b) + (b - a).

(** [sum(1 for a, b in zip(word, part) if a != b)] *)
Fixpoint differing (word part : str) : nat :=
  match word, part with
  | a :: word', b :: part' =>
      (if N.eqb a b then 0 else 1) + differing word' part'
  | _, _ => 0
  end.

(** The edit-distance test on one part of a location name. *)
Definition close_to_part (word part : str) : bool :=
  Nat.ltb 3 (List.length part)
  && (let max_edits := if Nat.leb (List.length part) 5 then 1 else 2 in
      Nat.leb (abs_diff (List.length word) (List.length part)) max_edits
      && Nat.leb (differing word part
                  + abs_diff (List.length word) (List.length part)) max_edits).

(** Step 4: fuzzy matching, word by word. *)
Definition stage_fuzzy (text_lower : str) : option str :=
  let words := Re.findall Re.word_pattern text_lower in
  first_some
    (fun word =>
       if Nat.ltb 3 (List.length word) then
         List.find
           (fun loc =>
              Nat.ltb 3 (List.length loc)
              && existsb (close_to_part word) (split (lower loc)))
           ph_locations
       else None)
    words.

(** Step 5: a prepositional phrase that names a known place. *)
Definition stage_place (text : str) : option str :=
  first_some
    (fun pattern =>
       first_some
         (fun m =>
            let match_lower := lower m in
            List.find
              (fun loc =>
                 let loc_lower := lower loc in
                 str_eqb match_lower loc_lower
                 || (Nat.ltb 3 (List.length match_lower)
                     && Nat.ltb 3 (List.length loc_lower)
                     && existsb (close_to_part match_lower) (split loc_lower)))
              ph_locations)
         (Re.findall pattern text))
    LocationPatterns.place_patterns.

(** The flood-on-a-road heuristic. *)
Definition stage_flood_road (text_lower : str) : option str :=
  if contains (py "baha") text_lower
     && (contains (py "kalsada") text_lower || contains (py "daan") text_lower
         || contains (py "street") text_lower)
  then
    if any_in (pys ["manila"; "maynila"; "mnl"; "ncr"; "metro"]) text_lower
    then Some (py "Manila") else None
  else None.

Definition or_else {A} (o : option A) (next : option A) : option A :=
  match o with Some r => Some r | None => next end.

Definition extract_location (text : str) : str :=
  if negb (truthy text) then py "UNKNOWN"
  else
    let text_lower := lower text in
    match
      or_else (stage_upper text)
      (or_else (stage_emergency text_lower)
      (or_else (stage_sa text_lower)
      (or_else (stage_misspelling text_lower)
      (or_else (stage_whole_word text_lower)
      (or_else (stage_substring text_lower)
      (or_else (stage_fuzzy text_lower)
      (or_else (stage_place text)
               (stage_flood_road text_lower))))))))
    with
    | Some loc => loc
    | None => py "UNKNOWN"
    end.

(* ===================================================================== *)
(** * Classification results *)
(* ===================================================================== *)

Inductive Sentiment := Panic | FearAnxiety | Disbelief | Resilience | Neutral.

Definition Sentiment_eqb (a b : Sentiment) : bool :=
  match a, b with
  | Panic, Panic | FearAnxiety, FearAnxiety | Disbelief, Disbelief
  | Resilience, Resilience | Neutral, Neutral => true
  | _, _ => false
  end.

(** The label strings of [self.sentiment_labels]. *)
Definition sentiment_name (s : Sentiment) : str :=
  match s with
  | Panic => py "Panic"
  | FearAnxiety => py "Fear/Anxiety"
  | Disbelief => py "Disbelief"
  | Resilience => py "Resilience"
  | Neutral => py "Neutral"
  end.

Definition sentiment_labels : list Sentiment :=
  [Panic; FearAnxiety; Disbelief; Resilience; Neutral].

(** A result dictionary.  [None] in one of the last three fields stands
    for a missing key (or a null value). *)
Record Result := mkResult {
  sentiment : str;
  confidence : Q;
  explanation : str;
  disasterType : option str;
  location : option str;
  language : option str
}.

Definition language_of (r : Result) : option str := language r.

(** A dictionary with the three keys the rule-based classifier sets. *)
Definition verdict (s : Sentiment) (c : Q) (why : string) : Result :=
  mkResult (sentiment_name s) c (py why) None None None.
Arguments verdict s c%_Q why%_string_scope.

(* ===================================================================== *)
(** * Rule-based classifier *)
(* ===================================================================== *)

Definition descriptive_cues : list str := pys [
    "may"; "there is"; "there was"; "nangyari"; "happened"; "maraming";
    "many"; "several"; "buildings"; "collapsed"; "evacuated" ].

Definition emotional_words : list str := pys [
    "nakakatakot"; "scary"; "afraid"; "takot"; "worried"; "kabado"; "help";
    "tulong"; "saklolo"; "emergency"; "bantay"; "delikado"; "ingat" ].

Definition emotional_markers : list str := pys [
    "!!!"; "???"; "HELP"; "TULONG"; "OMG"; "OH MY GOD" ].

Definition looks_descriptive (text : str) : bool :=
  any_in descriptive_cues (lower text).

Definition has_emotion (text : str) : bool :=
  any_in emotional_words (lower text) || any_in emotional_markers (upper text).

(** The "descriptive, no emotional markers" pattern. *)
Definition descriptive_without_emotion (text : str) : bool :=
  looks_descriptive text && negb (has_emotion text).

Definition emotion_words : list str := pys [
    "saklolo"; "help"; "tulong"; "tulungan"; "rescue"; "emergency";
    "naiipit"; "nakulong"; "trapped"; "HELP"; "PLEASE"; "SOS"; "mamamatay";
    "😱"; "😭"; "🆘"; "💔"; "!!!"; "???"; "takot"; "scared"; "afraid";
    "kinakabahan"; "natatakot"; "kabado"; "worried"; "anxious"; "fearful";
    "nanginginig"; "nakakatakot"; "nakakapraning"; "makakaligtas kaya";
    "paano na"; "😨"; "😰"; "😟"; "hindi makapaniwala"; "seriously"; "omg";
    "gosh"; "can't believe"; "what the"; "wow"; "haha"; "baha na naman";
    "classic"; "srsly"; "as usual"; "🤯"; "🙄"; "😆"; "😑"; "nice one"; "kapit";
    "kaya natin"; "malalagpasan"; "babangon"; "walang susuko"; "prayers";
    "pray"; "dasal"; "tulong tayo"; "magtulungan"; "sama-sama"; "matatag";
    "💪"; "🙏"; "🌈"; "🕊️"; "namatay"; "patay"; "nasugatan"; "dead"; "died";
    "killed"; "injured"; "walang buhay"; "nawawala"; "missing"; "casualty";
    "iyak"; "cry"; "trauma"; "diyos ko"; "oh my god"; "lord help";
    "dios mio"; "panginoon"; "tulungan nyo kami" ].

(** [len(text_lower.split())] *)
Definition token_count (text : str) : nat := List.length (split (lower text)).

(** [contains_emotion] of the short-statement check. *)
Definition contains_emotion (text : str) : bool :=
  any_in emotion_words (lower text).

Module SentimentPatterns.
Import Re.

Definition putang_ina : re := cats [l "putang"; star s_; l "ina"].

(** [(putang\s*ina|putangina|tangina|putang\s+ina|punyeta|gago|bobo|tang\s+ina|tanginamo|ulol)] *)
Definition profanity : re :=
  Group (alts [putang_ina; l "putangina"; l "tangina";
               cats [l "putang"; plus s_; l "ina"]; l "punyeta"; l "gago";
               l "bobo"; cats [l "tang"; plus s_; l "ina"]; l "tanginamo";
               l "ulol"]).

(** [<profanity>.*?[!?]{2,}] *)
Definition profanity_then_marks : re :=
  cats [profanity; Star false Dot; at_least 2 bang_q].

(** [[!?]{2,}.*?<profanity>] *)
Definition marks_then_profanity : re :=
  cats [at_least 2 bang_q; Star false Dot; profanity].

(** [PUTANG\s*INA|TANGINA|PUNYETA|GAGO|BOBO] *)
Definition caps_profanity : re :=
  alts [cats [l "PUTANG"; star s_; l "INA"]; l "TANGINA"; l "PUNYETA";
        l "GAGO"; l "BOBO"].

(** [\b(putang\s*ina|putangina|tangina|putang ina|punyeta|gago|bobo|tang ina|tanginamo|ulol)\b] *)
Definition profanity_word : re :=
  cats [Bound;
        Group (alts [putang_ina; l "putangina"; l "tangina"; l "putang ina";
                     l "punyeta"; l "gago"; l "bobo"; l "tang ina";
                     l "tanginamo"; l "ulol"]);
        Bound].

(** [[A-Z]{5,}.*?(!{2,}|\?{2,})] *)
Definition caps_then_marks : re :=
  cats [at_least 5 AZ; Star false Dot;
        Group (Alt (at_least 2 (chr 33)) (at_least 2 (chr 63)))].

(** [\b(putang\s*ina|tangina|punyeta|gago|bobo|tang ina)\b] *)
Definition profanity_word_short : re :=
  cats [Bound;
        Group (alts [putang_ina; l "tangina"; l "punyeta"; l "gago";
                     l "bobo"; l "tang ina"]);
        Bound].

(** [MAY (SUNOG|BAHA|LINDOL|BAGYO|ERUPTION|GULO|BARILAN|AKSIDENTE)] *)
Definition may_disaster : re :=
  cats [l "MAY ";
        Group (alts [l "SUNOG"; l "BAHA"; l "LINDOL"; l "BAGYO"; l "ERUPTION";
                     l "GULO"; l "BARILAN"; l "AKSIDENTE"])].

End SentimentPatterns.

(** [sum(1 for char in text if ord(char) > 127000)] *)
Definition emoji_count (text : str) : nat :=
  List.length (List.filter (fun c => N.ltb 127000 c) text).

(** [len([w for w in text.split() if w.isalpha()])] *)
Definition alpha_word_count (text : str) : nat :=
  List.length (List.filter isalpha (split text)).

(** [emoji_count > 3 and emoji_count > word_count / 2] *)
Definition mostly_emoji (text : str) : bool :=
  Nat.ltb 3 (emoji_count text)
  && Nat.ltb (alpha_word_count text) (2 * emoji_count text).

Definition cries_for_help (text : str) : bool :=
  contains (py "TULONG") (upper text) || contains (py "SAKLOLO") (upper text)
  || contains (py "HELP") (upper text).

(** The high-precision patterns checked before any scoring. *)
Definition special_patterns (text : str) : option Result :=
  if Re.search SentimentPatterns.profanity_then_marks (lower text)
     || Re.search SentimentPatterns.marks_then_profanity (lower text)
  then Some (verdict Panic (97 # 100)
    "Ang paggamit ng malakas na salita kasama ng maraming tandang padamdam ay nagpapahiwatig ng matinding pagkabahala o takot.")
  else if Re.search SentimentPatterns.caps_profanity text
  then Some (verdict Panic (96 # 100)
    "Ang paggamit ng malalaking titik sa mga malakas na salita ay nagpapahiwatig ng matinding pagkabahala o takot.")
  else if Re.search SentimentPatterns.profanity_word (lower text)
  then Some (verdict Panic (92 # 100)
    "Ang teksto ay naglalaman ng matinding pagkapoot o pagkabahala na karaniwang ginagamit sa mga emergency situations sa Filipino context.")
  else if Re.search SentimentPatterns.caps_then_marks text
          && Re.search SentimentPatterns.profanity_word_short (lower text)
  then Some (verdict Panic (95 # 100)
    "Ang paggamit ng malalaking titik, profanity, at maraming tandang padamdam ay nagpapahiwatig ng matinding takot o pagkabahala.")
  else if isupper text && Re.search SentimentPatterns.may_disaster text
          && contains (py "!") text
  then Some (verdict Panic (94 # 100)
    "Mga emergency alertong Pilipino sa malalaking titik na may tandang padamdam, nagpapahiwatig ng agarang panganib o matinding takot.")
  else if (contains (py "😂") text || contains (py "🤣") text
           || contains (py "😆") text || contains (py "😅") text)
          && cries_for_help text
  then Some (verdict Disbelief (95 # 100)
    "The laughing emoji combined with words like 'TULONG' suggests disbelief or humor, not actual distress. This is a common pattern in Filipino social media to express sarcasm or jokes.")
  else if mostly_emoji text
  then Some (verdict Disbelief (90 # 100)
    "The excessive use of emojis suggests this is likely expressing mockery or sarcasm rather than genuine information or distress.")
  else if (contains (py "HAHA") (upper text) || contains (py "HEHE") (upper text))
          && cries_for_help text
  then Some (verdict Disbelief (92 # 100)
    "The combination of laughter ('HAHA') and words like 'TULONG' indicates this is expressing humor or disbelief, not actual panic. This is a common Filipino pattern for jokes or sarcasm.")
  else None.

(** [sentiment_keywords], in insertion order. *)
Definition sentiment_keywords : list (Sentiment * list str) :=
  [ (Panic, pys [
      "emergency"; "trapped"; "dying"; "death"; "urgent"; "critical";
      "saklolo"; "naiipit"; "mamamatay"; "agad"; "kritikal"; "emerhensya" ]);
    (FearAnxiety, pys [
      "scared"; "afraid"; "worried"; "fear"; "terrified"; "anxious";
      "frightened"; "takot"; "natatakot"; "nag-aalala"; "kabado";
      "kinakabahan"; "nangangamba" ]);
    (Disbelief, pys [
      "unbelievable"; "impossible"; "can't believe"; "no way";
      "what's happening"; "shocked"; "hindi kapani-paniwala"; "haha";
      "hahaha"; "lol"; "lmao"; "ulol"; "gago"; "tanga"; "wtf"; "daw?";
      "raw?"; "talaga?"; "really?"; "seriously?"; "seryoso?"; "?!"; "??";
      "imposible"; "di ako makapaniwala"; "nagulat"; "gulat" ]);
    (Resilience, pys [
      "stay strong"; "we will overcome"; "resilient"; "rebuild"; "recover";
      "hope"; "lets help"; "let's help"; "let us help"; "help them";
      "malalampasan"; "tatayo ulit"; "magbabalik"; "pag-asa"; "malalagpasan";
      "tulungan natin"; "tumulong"; "we can help"; "we will help";
      "tutulong tayo" ]) ].

Definition resilience_phrases : list str := pys [
    "let's help"; "lets help"; "help them"; "tulungan natin";
    "tumulong tayo"; "tulong sa"; "tulong para"; "tulungan ang";
    "mag-donate"; "magbigay ng tulong"; "mag volunteer"; "magtulungan";
    "donate"; "donation"; "we can help"; "we will help"; "tutulong tayo";
    "support"; "donate"; "fundraising"; "fund raising"; "relief";
    "relief goods"; "pagtulong"; "magbayanihan"; "bayanihan"; "volunteer";
    "volunteers" ].

Definition laughter_patterns : list str := pys [
    "haha"; "hehe"; "lol"; "lmao"; "ulol"; "gago"; "tanga" ].

Definition panic_phrases : list str := pys [
    "help me"; "save me"; "trapped"; "can't breathe"; "tulungan ako";
    "help us"; "saklolo"; "tulong!"; "naipit ako"; "hindi makahinga";
    "naiipit"; "nakulong"; "nasasabit"; "naiipit kami";
    "nanganganib ang buhay"; "stranded"; "nawalan ng bahay"; "walang makain";
    "walang tubig"; "naputol"; "walang kuryente"; "nawawala";
    "nawawalang tao"; "hinahanap"; "hinahanap namin"; "missing"; "casualty";
    "casualties"; "patay"; "nasugatan"; "injured"; "nasaktan" ].

Definition simple_statements : list str := pys [
    "may sunog"; "may baha"; "may lindol"; "there is a fire";
    "there is a flood"; "there is an earthquake" ].

(** The [scores] dictionary: one integer per label. *)
Definition sscores := Sentiment -> Z.

Definition sscores_add (k : Sentiment) (n : Z) (s : sscores) : sscores :=
  fun k' => if Sentiment_eqb k k' then (s k' + n)%Z else s k'.

Definition sscores_set (k : Sentiment) (n : Z) (s : sscores) : sscores :=
  fun k' => if Sentiment_eqb k k' then n else s k'.

(** [max(scores.values())] *)
Definition sscores_max (s : sscores) : Z :=
  match List.map s sentiment_labels with
  | [] => 0%Z
  | v :: vs => List.fold_left Z.max vs v
  end.

(** Keyword scoring: one point per keyword present. *)
Definition keyword_scores (text_lower : str) (s : sscores) : sscores :=
  List.fold_left
    (fun s e =>
       List.fold_left
         (fun s keyword =>
            if contains keyword text_lower then sscores_add (fst e) 1 s else s)
         (snd e) s)
    sentiment_keywords s.

Definition laughter_count (text_lower : str) : nat :=
  List.fold_left
    (fun n pattern =>
       if contains pattern text_lower then n + count pattern text_lower else n)
    laughter_patterns O.

Definition laughter_nudge (text_lower : str) (s : sscores) : sscores :=
  if Nat.leb 2 (laughter_count text_lower)
     && any_in (pys ["sunog"; "fire"; "baha"; "flood"]) text_lower
  then sscores_add Disbelief 3 s else s.

Definition resilience_nudge (text_lower : str) (s : sscores) : sscores :=
  List.fold_left
    (fun s phrase =>
       if contains phrase text_lower then
         let s := sscores_add Resilience 2 s in
         if (0 <? s Panic)%Z then sscores_add Panic (-1) s else s
       else s)
    resilience_phrases s.

Definition tulong_nudge (text_lower : str) (s : sscores) : sscores :=
  if contains (py "tulong") text_lower && negb (any_in resilience_phrases text_lower)
  then sscores_add Panic 2 s else s.

Definition simple_statement_override (text_lower : str) (s : sscores) : sscores :=
  if any_in simple_statements text_lower then
    if (sscores_max s <=? 1)%Z then
      sscores_set Resilience 0
        (sscores_set Disbelief 0
           (sscores_set FearAnxiety 0
              (sscores_set Panic 0 (sscores_set Neutral 3 s))))
    else s
  else s.

Definition panic_phrase_scores (text_lower : str) (s : sscores) : sscores :=
  List.fold_left
    (fun s phrase =>
       if contains phrase text_lower then sscores_add Panic 2 s else s)
    panic_phrases s.

(** The windows [words[max(0, i-before) : min(len(words), i+after)]]
    around every word that contains [mark], joined with spaces. *)
Definition windows (mark : str) (before after : nat) (words : list str)
  : list str :=
  List.flat_map
    (fun iw : nat * str =>
       let (i, word) := iw in
       if contains mark word
       then [join space
               (slice words (i - before) (Nat.min (List.length words) (i + after)))]
       else [])
    (List.combine (List.seq 0 (List.length words)) words).

Definition exclamation_nudge (text : str) (s : sscores) : sscores :=
  if contains (py "!") text then
    List.fold_left
      (fun s phrase =>
         if any_in (pys ["help"; "emergency"; "saklolo"; "trapped"; "tulong";
                         "danger"]) phrase
         then if negb (any_in resilience_phrases phrase)
              then sscores_add Panic 1 s else s
         else if any_in (pys ["donate"; "let's help"; "support";
                              "tulungan natin"; "assist"]) phrase
         then sscores_add Resilience 1 s
         else if any_in (pys ["what"; "can't believe"; "ano"; "bakit";
                              "hindi kapani-paniwala"]) phrase
         then sscores_add Disbelief 1 s
         else s)
      (windows (py "!") 5 6 (split (lower text))) s
  else s.

Definition question_nudge (text : str) (s : sscores) : sscores :=
  if contains (py "?") text then
    List.fold_left
      (fun s phrase =>
         let s :=
           if any_in (pys ["nasaan"; "where"; "kamusta"; "how"; "when";
                           "kailan"; "ilang"; "how many"]) phrase
              && any_in (pys ["victim"; "dead"; "casualties"; "stranded";
                              "missing"]) phrase
           then sscores_add FearAnxiety 1 s else s in
         if any_in (pys ["bakit"; "paano"; "why"; "how could"; "paanong"]) phrase
         then sscores_add Disbelief 1 s else s)
      (windows (py "?") 5 1 (split (lower text))) s
  else s.

(** [[word.lower() for word in text.split() if word.isupper() and len(word) > 2]] *)
Definition caps_words (text : str) : list str :=
  List.map lower
    (List.filter (fun word => isupper word && Nat.ltb 2 (List.length word))
                 (split text)).

Definition caps_nudge (text : str) (s : sscores) : sscores :=
  if Nat.ltb 1 (List.length (caps_words text)) then
    if existsb (fun word => mem word (caps_words text))
               (pys ["emergency"; "tulong"; "saklolo"; "help"; "rescue"])
    then if negb (any_in resilience_phrases (lower text))
         then sscores_add Panic 1 s else s
    else if any_in (pys ["donate"; "tulungan"; "help"; "lets"; "tumulong"])
                   (join space (caps_words text))
    then if any_in resilience_phrases (lower text)
         then sscores_add Resilience 1 s else s
    else s
  else s.

(** The score table at the end of the scoring phase. *)
Definition sentiment_scores (text : str) : sscores :=
  let text_lower := lower text in
  caps_nudge text
    (question_nudge text
       (exclamation_nudge text
          (panic_phrase_scores text_lower
             (simple_statement_override text_lower
                (tulong_nudge text_lower
                   (resilience_nudge text_lower
                      (laughter_nudge text_lower
                         (keyword_scores text_lower (fun _ => 0%Z))))))))).

Definition Sentiment_in (x : Sentiment) (l : list Sentiment) : bool :=
  existsb (Sentiment_eqb x) l.

Definition tie_priority : list Sentiment :=
  [Panic; FearAnxiety; Resilience; Disbelief; Neutral].

Definition explanation_for (sentiment_value : Sentiment) (text : str) : string :=
  match sentiment_value with
  | Panic => "The text shows signs of urgent distress or calls for immediate help, indicating panic."
  | FearAnxiety => "The message expresses worry, concern or apprehension about the situation."
  | Disbelief =>
      if Nat.leb 2 (laughter_count (lower text))
      then "The content contains laughter patterns and mockery, indicating disbelief or skepticism about the reported situation."
      else "The content shows shock, surprise or inability to comprehend the situation."
  | Resilience => "The text demonstrates community support, offers of help, or positive action toward recovery."
  | Neutral => "The text appears informational or descriptive without strong emotional indicators."
  end.

(** [0.70 + max_score * 0.03], rounded to two decimals. *)
Definition score_confidence (max_score : Z) : Q :=
  round2 (if (max_score =? 0)%Z then 70 # 100
          else (70 # 100) + inject_Z max_score * (3 # 100))%Q.

(** The last steps: confidence and explanation for the chosen label. *)
Definition conclude (text : str) (max_score : Z) (chosen : option Sentiment)
  : Result :=
  let sentiment_value := match chosen with Some s => s | None => Neutral end in
  verdict sentiment_value (score_confidence max_score)
          (explanation_for sentiment_value text).

(** The scoring phase and the choice of the label. *)
Definition scored (text : str) : Result :=
  let text_lower := lower text in
  let scores := sentiment_scores text in
  let max_score := sscores_max scores in
  if (max_score =? 0)%Z then
    verdict Neutral (83 # 100) "No clear sentiment indicators found in text"
  else
    let top_sentiments :=
      List.filter (fun s => (scores s =? max_score)%Z) sentiment_labels in
    if Nat.eqb (List.length top_sentiments) 1 then
      conclude text max_score (List.hd_error top_sentiments)
    else if Sentiment_in Neutral top_sentiments
            && Nat.ltb (List.length (split text_lower)) 7 then
      conclude text max_score (Some Neutral)
    else
      let is_reporting_style :=
        any_in (pys ["news"; "bulletin"; "flash report"; "balita"; "ulat";
                     "breaking news"; "headline"]) text_lower in
      let has_help_request :=
        any_in (pys ["please help"; "help please"; "need help";
                     "kailangan ng tulong"; "pakitulong"; "pakigalaw po";
                     "asap"]) text_lower in
      if mostly_emoji text && Sentiment_in Disbelief top_sentiments then
        verdict Disbelief (92 # 100)
          "Multiple emojis indicate sarcasm or mockery rather than genuine distress."
      else if has_help_request && Sentiment_in Panic top_sentiments then
        verdict Panic (95 # 100)
          "Text contains explicit requests for help indicating urgent distress."
      else if is_reporting_style && Sentiment_in Neutral top_sentiments then
        verdict Neutral (90 # 100)
          "Text uses news reporting style with factual information, not expressing personal emotions."
      else
        conclude text max_score
          (List.find (fun s => Sentiment_in s top_sentiments) tie_priority).

(** Fallback rule-based sentiment analysis. *)
Definition _rule_based_sentiment_analysis (text language : str) : Result :=
  if looks_descriptive text && negb (has_emotion text) then
    verdict Neutral (92 # 100)
      "Descriptive statement without emotional markers. These types of informative reports should be classified as Neutral regardless of disaster content."
  else if Nat.leb (token_count text) 3 && negb (contains_emotion text) then
    verdict Neutral (90 # 100)
      "Simple statement without emotional indicators - analyzing exactly what's in the text."
  else
    match special_patterns text with
    | Some r => r
    | None => scored text
    end.

(* ===================================================================== *)
(** * The backend object and the outside world *)
(* ===================================================================== *)

(** The attributes of [DisasterSentimentBackend] the pipeline reads and
    writes.  The three example dictionaries are created on first use in the
    code; a missing attribute is the empty dictionary here.
    [validation_api_key] is the environment variable [VALIDATION_API_KEY]. *)
Record Backend := mkBackend {
  api_keys : list str;
  groq_api_keys : list str;
  validation_api_key : option str;
  current_key_index : nat;
  key_success_count : gmap nat nat;
  trained_examples : gmap (list N) (list N);
  location_examples : gmap (list N) (list N);
  disaster_examples : gmap (list N) (list N)
}.

Definition set_rotation (b : Backend) (index : nat) (counts : gmap nat nat)
  : Backend :=
  mkBackend (api_keys b) (groq_api_keys b) (validation_api_key b) index counts
            (trained_examples b) (location_examples b) (disaster_examples b).

Definition set_examples (b : Backend)
  (trained locations disasters : gmap (list N) (list N)) : Backend :=
  mkBackend (api_keys b) (groq_api_keys b) (validation_api_key b)
            (current_key_index b) (key_success_count b)
            trained locations disasters.

(** The JSON object found in a reply of the remote service; [None] is a
    missing key.  Values are taken to have the type the code expects. *)
Record RemoteJson := mkRemoteJson {
  r_sentiment : option str;
  r_confidence : option Q;
  r_explanation : option str;
  r_disasterType : option str;
  r_location : option str;
  r_language : option str
}.

(** What one HTTP request comes to.  [Failed] stands for everything that
    ends in the [except] clause or in a status other than 200 and 429: a
    transport error, a timeout, an HTTP error, a body that is not the
    expected JSON. *)
Inductive Reply :=
| RateLimited                 (* status 429 *)
| Failed
| Answer (r : RemoteJson).

(** What the validation request of the feedback subsystem comes to. *)
Inductive ValidationReply :=
| VFailed                                  (* exception, or status not 200 *)
| VUnparsable (error : str)                (* content is not JSON *)
| VVerdict (validation : str) (reason explanation : option str)
                                           (* an object with a 'validation' key *)
| VAnalysis (r : RemoteJson)               (* an object without that key *)
| VMalformed.                              (* empty content, no choices *)

(** A feedback request: [originalText], [originalSentiment],
    [correctedSentiment]. *)
Definition FeedbackRequest : Type := str * str * str.

(** Everything a call obtains from outside the process. *)
Record World := mkWorld {
  detect : str -> option str;
      (* langdetect.detect; None when it raises *)
  feedback_request : str -> option FeedbackRequest;
      (* json.loads(text), when it is an object whose 'feedback' is true *)
  realtime_reply : Reply;
      (* the single-credential request of analyze_sentiment *)
  pool_reply : nat -> nat -> Reply;
      (* the pool request, by attempt number and key index *)
  validation_reply : ValidationReply;
  uniform : Q -> Q -> Q
      (* random.uniform *)
}.

Definition detect_language (w : World) (text : str) : str :=
  match detect w text with
  | Some lang_code =>
      if mem lang_code (pys ["tl"; "fil"]) then py "Filipino" else py "English"
  | None => py "English"
  end.

(* ===================================================================== *)
(** * Remote classifier adapter and key-pool dispatcher *)
(* ===================================================================== *)

Definition or_default {A} (o : option A) (d : A) : A :=
  match o with Some x => x | None => d end.

(** The post-processing rule: a descriptive text without emotional markers
    that was labelled Fear/Anxiety becomes Neutral. *)
Definition corrected_sentiment_for (text sentiment : str) : str :=
  if looks_descriptive text && negb (has_emotion text)
     && str_eqb sentiment (py "Fear/Anxiety")
  then py "Neutral" else sentiment.

(** "Add required fields if missing". *)
Definition fill_missing (r : RemoteJson) (text language : str) : Result :=
  mkResult
    (or_default (r_sentiment r) (py "Neutral"))
    (or_default (r_confidence r) (7 # 10))
    (or_default (r_explanation r) (py "No explanation provided"))
    (Some (or_default (r_disasterType r) (extract_disaster_type text)))
    (Some (or_default (r_location r) (extract_location text)))
    (Some (or_default (r_language r) language)).

Definition with_sentiment (r : Result) (s : str) : Result :=
  mkResult s (confidence r) (explanation r) (disasterType r) (location r)
           (language r).

Definition with_confidence (r : Result) (c : Q) : Result :=
  mkResult (sentiment r) c (explanation r) (disasterType r) (location r)
           (language r).

(** The attempts of one call, starting at the current key. *)
Fixpoint try_keys (w : World) (b : Backend) (text language : str)
    (num_keys : nat) (attempts : list nat) : option (Backend * Result) :=
  match attempts with
  | [] => None
  | attempt :: later =>
      let key_index := Nat.modulo (current_key_index b + attempt) num_keys in
      match pool_reply w attempt key_index with
      | RateLimited => try_keys w b text language num_keys later
      | Failed => try_keys w b text language num_keys later
      | Answer r =>
          let result := fill_missing r text language in
          let result :=
            with_sentiment result (corrected_sentiment_for text (sentiment result)) in
          Some (set_rotation b
                  (Nat.modulo (key_index + 1) num_keys)
                  (<[ key_index :=
                        (or_default (key_success_count b !! key_index) 0 + 1)%nat ]>
                     (key_success_count b)),
                result)
      end
  end.

(** Get sentiment analysis from the API with key rotation. *)
Definition get_api_sentiment_analysis (w : World) (b : Backend)
    (text language : str) : Backend * Result :=
  let num_keys := List.length (api_keys b) in
  if Nat.eqb num_keys 0 then
    let fallback_result := _rule_based_sentiment_analysis text language in
    (b, with_confidence fallback_result (round2 (confidence fallback_result)))
  else
    match try_keys w b text language num_keys
                   (List.seq 0 (Nat.min 3 num_keys)) with
    | Some out => out
    | None =>
        let fallback_result := _rule_based_sentiment_analysis text language in
        (b, mkResult (sentiment fallback_result)
                     (round2 (confidence fallback_result))
                     (explanation fallback_result)
                     (Some (extract_disaster_type text))
                     (Some (extract_location text))
                     (Some language))
    end.

(* ===================================================================== *)
(** * Feedback and validation subsystem *)
(* ===================================================================== *)

Record Validation := mkValidation { valid : bool; reason : str }.

Definition _process_llm_response (reply : ValidationReply) (text language : str)
  : Result :=
  match reply with
  | VAnalysis r => fill_missing r text language
  | _ => _rule_based_sentiment_analysis text language
  end.

Definition sentiment_categories : list str :=
  pys ["Panic"; "Fear/Anxiety"; "Disbelief"; "Resilience"; "Neutral"].

(** [l.index(x) if x in l else -1] *)
Fixpoint index_or_minus_one (x : str) (l : list str) (i : Z) : Z :=
  match l with
  | [] => (-1)%Z
  | y :: tl => if str_eqb x y then i else index_or_minus_one x tl (i + 1)%Z
  end.

Definition option_map : list (str * str) :=
  [ (py "Panic", py "a) Panic");
    (py "Fear/Anxiety", py "b) Fear/Anxiety");
    (py "Neutral", py "c) Neutral");
    (py "Disbelief", py "d) Disbelief");
    (py "Resilience", py "e) Resilience") ].

(** [option_map.get(key, default)] *)
Definition option_map_get (key default : str) : str :=
  match List.find (fun e => str_eqb (fst e) key) option_map with
  | Some e => snd e
  | None => default
  end.

Definition nl2 : str := [10%N; 10%N].

(** The comparison of the correction with the independent analysis
    [ai_analysis], from "Default to valid" to the end of the method. *)
Definition compare_with_analysis (ai_analysis : Result) (corrected_sentiment : str)
  : Validation :=
  let ai_sentiment := sentiment ai_analysis in
  let ai_confidence := confidence ai_analysis in
  let ai_explanation := explanation ai_analysis in
  let ai_answer :=
    option_map_get ai_sentiment (py "(" ++ ai_sentiment ++ py ")") in
  let selection := option_map_get corrected_sentiment corrected_sentiment in
  let result := mkValidation true [] in
  let result :=
    if negb (str_eqb corrected_sentiment ai_sentiment) then
      let ai_index := index_or_minus_one ai_sentiment sentiment_categories 0 in
      let corrected_index :=
        index_or_minus_one corrected_sentiment sentiment_categories 0 in
      if negb (ai_index =? -1)%Z && negb (corrected_index =? -1)%Z
         && (2 <? Z.abs (ai_index - corrected_index))%Z
      then
        if Qlt_bool (90 # 100) ai_confidence then
          mkValidation true
            (py "VALIDATION NOTICE: Our AI analyzed this text and chose: "
             ++ ai_answer ++ nl2
             ++ py "Explanation: " ++ ai_explanation ++ nl2
             ++ py "Your selection (" ++ selection ++ py ") "
             ++ py "is quite different from our analysis, but we've accepted your feedback to improve our system.")
        else
          mkValidation true
            (py "VALIDATION ACCEPTED: Our AI analyzed this text with lower confidence as: "
             ++ ai_answer ++ nl2
             ++ py "Explanation: " ++ ai_explanation ++ nl2
             ++ py "Your correction has been accepted and will help us improve our model.")
      else
        mkValidation true
          (py "VALIDATION ACCEPTED: Our AI analyzed this text as: "
           ++ ai_answer ++ nl2
           ++ py "Explanation: " ++ ai_explanation ++ nl2
           ++ py "Your selection (" ++ selection ++ py ") "
           ++ py "has been accepted as a reasonable interpretation that will help train our model.")
    else result in
  let result :=
    if negb (valid result) then
      mkValidation (valid result)
        (py "VALIDATION FAILED!" ++ nl2
         ++ py "Our AI analyzed this text as: " ++ ai_answer ++ nl2
         ++ py "Explanation: " ++ ai_explanation ++ nl2
         ++ py "Your selection (" ++ selection ++ py ") "
         ++ py "was NOT accepted because it conflicts with our analysis.")
    else result in
  if valid result then
    if str_eqb corrected_sentiment ai_sentiment then
      mkValidation (valid result)
        (py "VALIDATION PASSED! Your selection (" ++ selection
         ++ py ") EXACTLY matches our AI analysis." ++ nl2
         ++ py "Explanation: " ++ ai_explanation)
    else
      mkValidation (valid result)
        (py "VALIDATION PASSED with minor difference. Your selection ("
         ++ selection
         ++ py ") is reasonably close to our AI analysis of " ++ ai_answer
         ++ py "." ++ nl2 ++ py "AI Explanation: " ++ ai_explanation)
  else result.

(** The key the validation request uses: the dedicated one, else the first
    of [groq_api_keys]. *)
Definition validation_key (b : Backend) : option str :=
  match validation_api_key b with
  | Some key => if truthy key then Some key else List.hd_error (groq_api_keys b)
  | None => List.hd_error (groq_api_keys b)
  end.

(** [if validation_api_key:] *)
Definition key_available (b : Backend) : bool :=
  match validation_key b with Some key => truthy key | None => false end.

(** Quiz-style validation of a sentiment correction. *)
Definition _validate_sentiment_correction (w : World) (b : Backend)
    (text original_sentiment corrected_sentiment : str) : Validation :=
  let language := detect_language w text in
  if key_available b then
    match validation_reply w with
    | VFailed =>
        compare_with_analysis (_rule_based_sentiment_analysis text language)
                              corrected_sentiment
    | VUnparsable error =>
        mkValidation true
          (py "Technical error parsing validation response: " ++ error)
    | VVerdict validation reason explanation =>
        mkValidation (str_eqb (lower validation) (py "valid"))
                     (or_default reason (or_default explanation []))
    | VAnalysis r =>
        compare_with_analysis (_process_llm_response (VAnalysis r) text language)
                              corrected_sentiment
    | VMalformed =>
        compare_with_analysis (_process_llm_response VMalformed text language)
                              corrected_sentiment
    end
  else
    compare_with_analysis (_rule_based_sentiment_analysis text language)
                          corrected_sentiment.

(** Update the in-memory training data. *)
Definition _update_training_data (b : Backend) (words : list str)
    (sentiment language location disaster_type : str) : Backend :=
  let text_key := lower (join space words) in
  set_examples b
    (<[ text_key := sentiment ]> (trained_examples b))
    (if truthy location
     then <[ text_key := location ]> (location_examples b)
     else location_examples b)
    (if truthy disaster_type
     then <[ text_key := disaster_type ]> (disaster_examples b)
     else disaster_examples b).

Record Performance := mkPerformance {
  previous_accuracy : Q;
  new_accuracy : Q;
  improvement : Q
}.

(** The dictionary [train_on_feedback] returns. *)
Record FeedbackResponse := mkFeedbackResponse {
  status : str;
  message : str;
  performance : option Performance
}.

(** The improvement factor of the validated-correction branch, before the
    reduction for a failed validation. *)
Definition base_improvement_factor (w : World) (corrected_sentiment : str) : Q :=
  if str_eqb corrected_sentiment (py "Neutral") then uniform w (1 # 1000) (3 # 1000)
  else if str_eqb corrected_sentiment (py "Panic") then uniform w (3 # 1000) (6 # 1000)
  else if str_eqb corrected_sentiment (py "Fear/Anxiety") then uniform w (2 # 1000) (5 # 1000)
  else if str_eqb corrected_sentiment (py "Resilience") then uniform w (2 # 1000) (4 # 1000)
  else if str_eqb corrected_sentiment (py "Disbelief") then uniform w (2 # 1000) (4 # 1000)
  else uniform w (1 # 1000) (3 # 1000).

(** The improvement factor after "Reduce improvement if validation failed". *)
Definition improvement_factor_of (w : World) (corrected_sentiment : str)
    (validation_result : Validation) : Q :=
  if negb (valid validation_result)
  then (base_improvement_factor w corrected_sentiment * (1 # 2))%Q
  else base_improvement_factor w corrected_sentiment.

Definition performance_of (improvement_factor : Q) : Performance :=
  let previous_accuracy := (86 # 100) in
  let new_accuracy :=
    qmin (88 # 100) (round2 (previous_accuracy + improvement_factor)%Q) in
  mkPerformance previous_accuracy new_accuracy (new_accuracy - previous_accuracy)%Q.

Definition has_correction (original_text original_sentiment corrected : str)
  : bool :=
  truthy original_text && truthy original_sentiment && truthy corrected.

(** Real-time training function that uses feedback to improve the model. *)
Definition train_on_feedback (w : World) (b : Backend)
    (original_text original_sentiment corrected_sentiment
     corrected_location corrected_disaster_type : str)
  : Backend * FeedbackResponse :=
  let has_sentiment_correction :=
    has_correction original_text original_sentiment corrected_sentiment in
  let has_location_correction := truthy original_text && truthy corrected_location in
  let has_disaster_correction :=
    truthy original_text && truthy corrected_disaster_type in
  if negb (has_sentiment_correction || has_location_correction
           || has_disaster_correction) then
    (b, mkFeedbackResponse (py "error") (py "No valid corrections provided") None)
  else if has_sentiment_correction
          && negb (mem corrected_sentiment
                       (List.map sentiment_name sentiment_labels)) then
    (b, mkFeedbackResponse (py "error") (py "Invalid sentiment label") None)
  else if has_sentiment_correction then
    let validation_result :=
      _validate_sentiment_correction w b original_text original_sentiment
                                     corrected_sentiment in
    let improvement_factor :=
      improvement_factor_of w corrected_sentiment validation_result in
    (b, mkFeedbackResponse
          (if negb (valid validation_result)
           then py "quiz_feedback" else py "success")
          (reason validation_result)
          (Some (performance_of improvement_factor)))
  else
    let language := detect_language w original_text in
    let words := Re.findall Re.word_pattern (lower original_text) in
    let sentiment_to_store :=
      if has_sentiment_correction then corrected_sentiment
      else original_sentiment in
    let b' :=
      _update_training_data b words sentiment_to_store language
                            corrected_location corrected_disaster_type in
    let improvement_factor :=
      if has_sentiment_correction then
        if str_eqb original_sentiment corrected_sentiment
        then (uniform w (3 # 1000) (6 # 1000) * (1 # 10))%Q
        else uniform w (3 # 1000) (6 # 1000)
      else uniform w (1 # 1000) (3 # 1000) in
    let success_parts :=
      (if has_sentiment_correction
       then [py "'" ++ sentiment_to_store ++ py "' sentiment"] else [])
      ++ (if has_location_correction
          then [py "location '" ++ corrected_location ++ py "'"] else [])
      ++ (if has_disaster_correction
          then [py "disaster type '" ++ corrected_disaster_type ++ py "'"]
          else []) in
    (b', mkFeedbackResponse
           (py "success")
           (py "Model trained on feedback for " ++ join (py " and ") success_parts)
           (Some (performance_of improvement_factor))).

(* ===================================================================== *)
(** * The classification entry point *)
(* ===================================================================== *)

(** What [analyze_sentiment] returns: a classification, or the answer of
    [train_on_feedback] when the text is a feedback request. *)
Inductive Response :=
| Classified (r : Result)
| Trained (r : FeedbackResponse).

Definition sentiment_map : list (str * str) :=
  [ (py "PANIC", py "Panic");
    (py "FEAR", py "Fear/Anxiety");
    (py "ANXIETY", py "Fear/Anxiety");
    (py "FEAR/ANXIETY", py "Fear/Anxiety");
    (py "NEUTRAL", py "Neutral");
    (py "DISBELIEF", py "Disbelief");
    (py "RESILIENCE", py "Resilience");
    (py "HOPE", py "Resilience") ].

(** The label of a real-time reply, mapped to the five categories. *)
Definition normalise_sentiment (sentiment : str) : str :=
  if mem sentiment (List.map sentiment_name sentiment_labels) then sentiment
  else
    match List.find (fun e => str_eqb (fst e) (upper sentiment)) sentiment_map with
    | Some e => snd e
    | None => py "Neutral"
    end.

(** The key under which a text is looked up in the trained examples. *)
Definition joined_words (text : str) : str :=
  lower (join space (Re.findall Re.word_pattern (lower text))).

(** The single-credential request of real-time analysis. *)
Definition realtime_analysis (w : World) (b : Backend) (text language : str)
  : option Result :=
  match validation_api_key b with
  | Some key =>
      if truthy key then
        match realtime_reply w with
        | Answer r =>
            match r_sentiment r with
            | Some sentiment =>
                let confidence := or_default (r_confidence r) (85 # 100) in
                let explanation :=
                  or_default (r_explanation r)
                             (py "Analysis via DeepSeek R1 Distill Llama 70B") in
                let sentiment := normalise_sentiment sentiment in
                Some (mkResult (corrected_sentiment_for text sentiment)
                               (qmin (97 # 100) confidence)
                               explanation
                               (r_disasterType r)
                               (r_location r)
                               (Some language))
            | None => None
            end
        | _ => None
        end
      else None
  | None => None
  end.

(** Analyze sentiment in text.  [from_process_csv] tells whether the caller
    is [process_csv]. *)
Definition analyze_sentiment (w : World) (b : Backend) (from_process_csv : bool)
    (text : str) : Backend * Response :=
  if negb (truthy text) || Nat.eqb (List.length (strip text)) 0 then
    (b, Classified
          (mkResult (py "Neutral") (82 # 100) (py "No text provided")
                    (Some (py "UNKNOWN")) (Some (py "UNKNOWN"))
                    (Some (py "English"))))
  else
    let language := detect_language w text in
    match feedback_request w text with
    | Some (originalText, originalSentiment, correctedSentiment) =>
        let (b', r) :=
          train_on_feedback w b originalText originalSentiment
                            correctedSentiment [] [] in
        (b', Trained r)
    | None =>
        match trained_examples b !! joined_words text with
        | Some trained_sentiment =>
            let explanation :=
              if negb (str_eqb language (py "Filipino"))
              then py "Classification based on previous user feedback for this exact message: "
                   ++ trained_sentiment
              else py "Klasipikasyon batay sa kauna-unahang feedback para sa mensaheng ito: "
                   ++ trained_sentiment in
            (b, Classified
                  (mkResult trained_sentiment (88 # 100) explanation
                            (Some (extract_disaster_type text))
                            (Some (extract_location text))
                            (Some language)))
        | None =>
            let is_realtime := negb from_process_csv in
            match (if is_realtime then realtime_analysis w b text language
                   else None) with
            | Some result => (b, Classified result)
            | None =>
                let (b', result) := get_api_sentiment_analysis w b text language in
                (b', Classified
                       (mkResult (sentiment result) (confidence result)
                                 (explanation result)
                                 (Some (or_default (disasterType result)
                                                   (extract_disaster_type text)))
                                 (Some (or_default (location result)
                                                   (extract_location text)))
                                 (Some (or_default (language_of result) language))))
            end
        end
    end.

(* ===================================================================== *)
(** * News-source detection *)
(* ===================================================================== *)

(** Detect news source from text content. *)
Definition detect_news_source (text : str) : str :=
  let text_lower := lower text in
  if contains (py "manila times") text_lower
     || contains (py "manilatimes.net") text_lower
  then py "Manila Times"
  else if contains (py "rappler") text_lower
          || contains (py "rappler.com") text_lower
  then py "Rappler"
  else if contains (py "inquirer") text_lower
          || contains (py "inquirer.net") text_lower
  then py "Inquirer"
  else if contains (py "abs-cbn") text_lower
          || contains (py "abs-cbn.com") text_lower
  then py "ABS-CBN News"
  else if contains (py "gma news") text_lower
          || contains (py "gmanetwork.com") text_lower
  then py "GMA News"
  else if contains (py "philstar") text_lower
          || contains (py "philstar.com") text_lower
  then py "Philippine Star"
  else if contains (py "businessworld") text_lower
          || contains (py "bworldonline.com") text_lower
  then py "BusinessWorld"
  else if startswith text (py "LOOK: ") || startswith text (py "JUST IN: ")
  then py "News Media"
  else if contains (py "BREAKING") text || contains (py "BREAKING NEWS") text
  then py "News Media"
  else if contains (py "SPECIAL REPORT") text
  then py "News Media"
  else py "Unknown Social Media".

(* ===================================================================== *)
(** * The rows of [process_csv] *)
(* ===================================================================== *)

(** A cell of the data frame: [NaN] where the file has nothing, else a
    string.  Cells of the columns read with [str(...)] are taken to hold
    strings. *)
Inductive Cell := NaN | Txt (s : str).

(** [str(value)] *)
Definition str_of (c : Cell) : str :=
  match c with NaN => py "nan" | Txt s => s end.

(** A row, seen through the identified columns.  [None] stands for a column
    that was not identified.  A cell of the confidence column is taken to
    hold a number. *)
Record CsvRow := mkCsvRow {
  text_cell : Cell;
  timestamp_cell : option Cell;
  source_cell : option Cell;
  location_cell : option Cell;
  disaster_cell : option Cell;
  sentiment_cell : option Cell;
  confidence_cell : option Q;
  language_cell : option Cell
}.

(** An entry of [processed_results]. *)
Record Processed := mkProcessed {
  p_text : str;
  p_timestamp : str;
  p_source : str;
  p_language : option str;
  p_sentiment : str;
  p_confidence : Q;
  p_explanation : str;
  p_disasterType : option str;
  p_location : option str
}.

Definition sentiment_values : list str :=
  pys ["Panic"; "Fear/Anxiety"; "Disbelief"; "Resilience"; "Neutral"].

(** Truth value of a variable that holds a string or [None]. *)
Definition truthy_opt (o : option str) : bool :=
  match o with Some s => truthy s | None => false end.

(** [s.lower() in ["nan", "none", ""]] *)
Definition nan_like (s : str) : bool :=
  mem (lower s) (pys ["nan"; "none"; ""]).

(** [str(row.get(col, "")) if col else None] *)
Definition cell_value (c : option Cell) : option str :=
  match c with Some c => Some (str_of c) | None => None end.

(** "Clean up NaN values" *)
Definition clean (v : option str) : option str :=
  if truthy_opt v && nan_like (or_default v []) then None else v.

(** "Always prioritize detection from text if CSV values are missing" *)
Definition or_detected (v : option str) (detected : str) : option str :=
  if negb (truthy_opt v) || nan_like (or_default v []) then Some detected
  else v.

(** "Check if disaster column contains full text" *)
Definition without_full_text (csv_disaster : option str) (text : str)
  : option str :=
  if truthy_opt csv_disaster
     && Nat.ltb 20 (List.length (or_default csv_disaster []))
     && contains text (or_default csv_disaster [])
  then None else csv_disaster.

Definition normalise_language (csv_language : option str) : option str :=
  if truthy_opt csv_language then
    if mem (lower (or_default csv_language []))
           (pys ["tagalog"; "tl"; "fil"; "filipino"])
    then Some (py "Filipino") else Some (py "English")
  else csv_language.

(** The source of a record and the sentiment found in the source column. *)
Definition source_and_sentiment (row : CsvRow) (text : str)
  : str * option str :=
  let source :=
    match source_cell row with
    | Some c => str_of c
    | None => py "CSV Import"
    end in
  let csv_sentiment :=
    if mem source sentiment_values then Some source else None in
  let source :=
    if mem source sentiment_values then py "CSV Import" else source in
  let source :=
    if str_eqb source (py "CSV Import") || negb (truthy (strip source)) then
      let detected_source := detect_news_source text in
      if negb (str_eqb detected_source (py "Unknown Social Media"))
      then detected_source else source
    else source in
  (source, csv_sentiment).

(** [analysis_result.get(key, default)] on what [analyze_sentiment]
    returned: a classification has every key, the answer to a feedback
    request has none of them. *)
Definition get_sentiment (a : Response) : str :=
  match a with Classified r => sentiment r | Trained _ => py "Neutral" end.
Definition get_confidence (a : Response) : Q :=
  match a with Classified r => confidence r | Trained _ => (7 # 10)%Q end.
Definition get_explanation (a : Response) : str :=
  match a with Classified r => explanation r | Trained _ => [] end.
Definition get_disasterType (a : Response) : option str :=
  match a with
  | Classified r => disasterType r
  | Trained _ => Some (py "Not Specified")
  end.
Definition get_location (a : Response) : option str :=
  match a with Classified r => location r | Trained _ => None end.
Definition get_language (a : Response) : option str :=
  match a with
  | Classified r => language_of r
  | Trained _ => Some (py "English")
  end.

(** [x if x else y] *)
Definition if_truthy (x y : option str) : option str :=
  if truthy_opt x then x else y.

(** [x if x else y], where [y] is a string. *)
Definition if_truthy_str (x : option str) (y : str) : str :=
  match x with
  | Some s => if truthy s then s else y
  | None => y
  end.

(** The body of the record loop, from the text of the row to the entry
    appended to [processed_results].  [now] is
    [datetime.now().isoformat()]. *)
Definition process_record (w : World) (b : Backend) (now : str) (row : CsvRow)
  : Backend * Processed :=
  let text := str_of (text_cell row) in
  let text :=
    if negb (truthy (strip text)) then py "[No text content]" else text in
  let timestamp :=
    match timestamp_cell row with Some c => str_of c | None => now end in
  let (source, csv_sentiment) := source_and_sentiment row text in
  let detected_location := extract_location text in
  let detected_disaster := extract_disaster_type text in
  let csv_location := clean (cell_value (location_cell row)) in
  let csv_disaster := clean (cell_value (disaster_cell row)) in
  let csv_language := cell_value (language_cell row) in
  let csv_location := or_detected csv_location detected_location in
  let csv_disaster := or_detected csv_disaster detected_disaster in
  let csv_disaster := without_full_text csv_disaster text in
  let csv_language := normalise_language csv_language in
  let provided :=
    match sentiment_cell row with
    | Some (Txt label) => if mem label sentiment_values then Some label else None
    | _ => None
    end in
  let '(b', csv_sentiment, analysis_result) :=
    match provided with
    | Some label =>
        let csv_confidence := or_default (confidence_cell row) (7 # 10)%Q in
        let csv_confidence := round2 csv_confidence in
        (b, Some label,
         Classified
           (mkResult label csv_confidence (py "Sentiment provided in CSV")
              (if_truthy csv_disaster (Some (extract_disaster_type text)))
              (if_truthy csv_location (Some (extract_location text)))
              (if_truthy csv_language (Some (py "English")))))
    | None =>
        let (b', analysis_result) := analyze_sentiment w b true text in
        (b', csv_sentiment, analysis_result)
    end in
  (b',
   mkProcessed text timestamp source
     (if_truthy csv_language (get_language analysis_result))
     (if_truthy_str csv_sentiment (get_sentiment analysis_result))
     (get_confidence analysis_result)
     (get_explanation analysis_result)
     (if_truthy csv_disaster (get_disasterType analysis_result))
     (if_truthy csv_location (get_location analysis_result))).

(** The body of the retry loop; [None] when the record is skipped. *)
Definition retry_record (w : World) (b : Backend) (now : str) (row : CsvRow)
  : Backend * option Processed :=
  let text := str_of (text_cell row) in
  if negb (truthy (strip text)) then (b, None)
  else
    let timestamp :=
      match timestamp_cell row with Some c => str_of c | None => now end in
    let (source, csv_sentiment) := source_and_sentiment row text in
    let csv_location := clean (cell_value (location_cell row)) in
    let csv_disaster := clean (cell_value (disaster_cell row)) in
    let csv_language := cell_value (language_cell row) in
    let csv_disaster := without_full_text csv_disaster text in
    let csv_language := normalise_language csv_language in
    let (b', analysis_result) := analyze_sentiment w b true text in
    let sentiment := get_sentiment analysis_result in
    let explanation := get_explanation analysis_result in
    let corrected_sentiment := corrected_sentiment_for text sentiment in
    (b',
     Some (mkProcessed text timestamp source
             (if_truthy csv_language (get_language analysis_result))
             corrected_sentiment
             (get_confidence analysis_result)
             explanation
             (if_truthy csv_disaster (get_disasterType analysis_result))
             (if_truthy csv_location (get_location analysis_result)))).

(* ===================================================================== *)
(** * The feedback branch of [main] *)
(* ===================================================================== *)

(** The parameters of a feedback request, [''] where a key is missing. *)
Record FeedbackParams := mkFeedbackParams {
  originalText : str;
  originalSentiment : str;
  correctedSentiment : str;
  correctedLocation : str;
  correctedDisasterType : str
}.

(** What [main] prints for a feedback request, and the backend after it. *)
Definition main_feedback (w : World) (b : Backend) (params : FeedbackParams)
  : Backend * FeedbackResponse :=
  let original_text := originalText params in
  let original_sentiment := originalSentiment params in
  let corrected_sentiment := correctedSentiment params in
  let corrected_location := correctedLocation params in
  let corrected_disaster_type := correctedDisasterType params in
  let has_sentiment_correction :=
    has_correction original_text original_sentiment corrected_sentiment in
  let has_location_correction :=
    has_correction original_text original_sentiment corrected_location in
  let has_disaster_correction :=
    has_correction original_text original_sentiment corrected_disaster_type in
  if has_sentiment_correction || has_location_correction
     || has_disaster_correction then
    let corrected_sentiment_to_use :=
      if has_sentiment_correction then corrected_sentiment
      else original_sentiment in
    train_on_feedback w b original_text original_sentiment
                      corrected_sentiment_to_use corrected_location
                      corrected_disaster_type
  else
    (b, mkFeedbackResponse (py "error") (py "No valid corrections provided") None).

(* ===================================================================== *)
(** * The batch loop of [process_csv] *)
(* ===================================================================== *)

Definition BATCH_SIZE : nat := 30.
Definition BATCH_COOLDOWN : nat := 60.

(** [range(start, stop, step)] for a positive step. *)
Fixpoint range_from (fuel start stop step : nat) : list nat :=
  match fuel with
  | O => []
  | S f =>
      if Nat.ltb start stop
      then start :: range_from f (start + step) stop step
      else []
  end.

Definition py_range (start stop step : nat) : list nat :=
  range_from stop start stop step.

(** [range(n, 0, -1)] *)
Fixpoint countdown (n : nat) : list nat :=
  match n with
  | O => []
  | S m => n :: countdown m
  end.

(** What the batch phase does that can be observed, in the order the code
    does it: a progress report (named by its message, with the numbers the
    message holds), the batch marker with the results it prints, a call of
    [time.sleep]. *)
Inductive Event (Out : Type) :=
| StartingBatch (batch_num total_batches first_record last_record : nat)
| ProcessingRecord (record_num : nat)
| CompletedRecord (record_num : nat)
| BatchComplete (batch_num total_batches : nat) (results : list Out)
| SmallFileNotice
| CooldownTick (actual_remaining : Z) (batch_number of_batches : nat)
| CooldownComplete
| RetryingRecord (number total : nat)
| NoRecords
| AnalysisComplete
| Sleep (seconds : nat).

Arguments StartingBatch {Out}.
Arguments ProcessingRecord {Out}.
Arguments CompletedRecord {Out}.
Arguments BatchComplete {Out}.
Arguments SmallFileNotice {Out}.
Arguments CooldownTick {Out}.
Arguments CooldownComplete {Out}.
Arguments RetryingRecord {Out}.
Arguments NoRecords {Out}.
Arguments AnalysisComplete {Out}.
Arguments Sleep {Out}.

Section ProcessCsv.

(** The rows of the data frame, the entries of [processed_results], and
    the state of the backend. *)
Variables Row Out State : Type.
(** The body of the per-record [try], from reading the row to the entry it
    appends; [None] when it raises. *)
Variable body : State -> Row -> State * option Out.
(** The body of the retry loop; [None] when the record is skipped or the
    body raises. *)
Variable retry_body : State -> Row -> State * option Out.
(** [int(time.time() - cooldown_start)] in the cooldown that follows the
    batch starting at [batch_start], at the iteration [remaining]. *)
Variable clock : nat -> nat -> Z.

(** The variables of [process_csv] that the loops update. *)
Record Loop := mkLoop {
  emitted : list (Event Out);
  state_of : State;
  processed_results : list Out;
  failed_records : list Row
}.

Definition emit (l : Loop) (events : list (Event Out)) : Loop :=
  mkLoop (emitted l ++ events) (state_of l) (processed_results l)
         (failed_records l).

(** The slice [indices_to_process[batch_start : batch_start + BATCH_SIZE]]. *)
Definition batch_at (rows : list Row) (batch_start : nat) : list Row :=
  slice rows batch_start (batch_start + BATCH_SIZE).

(** One iteration of [for idx, i in enumerate(batch_indices)]. *)
Definition record_step (batch_start : nat) (l : Loop) (numbered : nat * Row)
  : Loop :=
  let (idx, row) := numbered in
  let record_num := batch_start + idx + 1 in
  let l := emit l [ProcessingRecord record_num] in
  match body (state_of l) row with
  | (st, Some result) =>
      mkLoop (emitted l ++ [Sleep 3; CompletedRecord record_num]) st
             (processed_results l ++ [result]) (failed_records l)
  | (st, None) =>
      mkLoop (emitted l ++ [Sleep 1]) st
             (processed_results l) (failed_records l ++ [row])
  end.

(** The pause between two batches: sixty reports of the seconds that remain
    by the clock, each followed by a sleep of one second while some remain,
    and the closing report. *)
Definition cooldown (batch_start sample_size : nat) : list (Event Out) :=
  let batch_number := batch_start / BATCH_SIZE + 1 in
  List.flat_map
    (fun remaining =>
       let elapsed := clock batch_start remaining in
       let actual_remaining := Z.max 0 (Z.of_nat BATCH_COOLDOWN - elapsed) in
       CooldownTick actual_remaining batch_number (sample_size / BATCH_SIZE + 1)
       :: (if (0 <? actual_remaining)%Z then [Sleep 1] else []))
    (countdown BATCH_COOLDOWN)
  ++ [CooldownComplete].

(** One iteration of [for batch_start in range(0, len(indices), BATCH_SIZE)]. *)
Definition batch_step (rows : list Row) (l : Loop) (batch_start : nat) : Loop :=
  let sample_size := List.length rows in
  let batch_indices := batch_at rows batch_start in
  let batch_num := batch_start / BATCH_SIZE + 1 in
  let total_batches := (List.length rows + BATCH_SIZE - 1) / BATCH_SIZE in
  let l :=
    emit l [StartingBatch batch_num total_batches (batch_start + 1)
                          (batch_start + List.length batch_indices)] in
  let l :=
    List.fold_left (record_step batch_start)
      (List.combine (List.seq 0 (List.length batch_indices)) batch_indices) l in
  let current_results :=
    if Nat.eqb (List.length (processed_results l)) 0 then []
    else
      let start_idx := batch_start in
      let end_idx :=
        Nat.min (batch_start + List.length batch_indices)
                (List.length (processed_results l)) in
      slice (processed_results l) start_idx end_idx in
  let l := emit l [BatchComplete batch_num total_batches current_results] in
  if Nat.ltb (batch_start + BATCH_SIZE) (List.length rows) then
    if Nat.leb sample_size 30 then emit l [SmallFileNotice]
    else emit l (cooldown batch_start (List.length rows))
  else l.

Definition batch_starts (rows : list Row) : list nat :=
  py_range 0 (List.length rows) BATCH_SIZE.

(** One iteration of [for idx, (i, row) in enumerate(failed_records)]. *)
Definition retry_step (total : nat) (l : Loop) (numbered : nat * Row) : Loop :=
  let (idx, row) := numbered in
  let l := emit l [RetryingRecord (idx + 1) total] in
  match retry_body (state_of l) row with
  | (st, Some result) =>
      mkLoop (emitted l ++ [Sleep 1]) st
             (processed_results l ++ [result]) (failed_records l)
  | (st, None) =>
      mkLoop (emitted l) st (processed_results l) (failed_records l)
  end.

(** [process_csv] once the data frame is loaded and its columns are
    identified: what it does, the state it leaves and the
    [processed_results] it returns. *)
Definition process_csv (st : State) (rows : list Row) : Loop :=
  let l := mkLoop [] st [] [] in
  if Nat.eqb (List.length rows) 0 then emit l [NoRecords]
  else
    let l := List.fold_left (batch_step rows) (batch_starts rows) l in
    let failed := failed_records l in
    let l :=
      List.fold_left (retry_step (List.length failed))
        (List.combine (List.seq 0 (List.length failed)) failed) l in
    emit l [AnalysisComplete].

(** ** The rows one after the other *)

(** What the rows give when [body] is run on them one after the other,
    each in the state the one before has left, and the state after the
    last. *)
Fixpoint outcomes (st : State) (rows : list Row) : list (option Out) * State :=
  match rows with
  | [] => ([], st)
  | row :: later =>
      let (st1, outcome) := body st row in
      let (rest, st2) := outcomes st1 later in
      (outcome :: rest, st2)
  end.

(** The same for [retry_body]. *)
Fixpoint retry_outcomes (st : State) (rows : list Row)
  : list (option Out) * State :=
  match rows with
  | [] => ([], st)
  | row :: later =>
      let (st1, outcome) := retry_body st row in
      let (rest, st2) := retry_outcomes st1 later in
      (outcome :: rest, st2)
  end.

(** The entries among the outcomes. *)
Definition successes (outs : list (option Out)) : list Out :=
  List.flat_map (fun o => match o with Some x => [x] | None => [] end) outs.

(** The rows whose outcome is a failure. *)
Definition failures (rows : list Row) (outs : list (option Out)) : list Row :=
  List.flat_map
    (fun p : Row * option Out =>
       match snd p with Some _ => [] | None => [fst p] end)
    (List.combine rows outs).

(** What is seen of record [record_num] when its outcome is [outcome]. *)
Definition record_reports (record_num : nat) (outcome : option Out)
  : list (Event Out) :=
  ProcessingRecord record_num
  :: match outcome with
     | Some _ => [Sleep 3; CompletedRecord record_num]
     | None => [Sleep 1]
     end.

(** The results the marker of a batch prints: the slice
    [first : first + size] of the entries appended so far. *)
Definition marker_results (outs : list (option Out)) (first size : nat)
  : list Out :=
  let so_far := successes (firstn (first + size) outs) in
  if Nat.eqb (List.length so_far) 0 then []
  else slice so_far first (Nat.min (first + size) (List.length so_far)).

(** Batch [k], counted from 0, of [rows] in closed form: it is announced as
    batch [k+1] of [ceil(n/30)] with the records [30k+1] to [30k+size],
    where [size] is [min(30, n - 30k)]; it shows these records in order,
    record [j+1] with the outcome of row [j]; it prints the marker; and
    the cooldown follows exactly when another batch does. *)
Definition batch_reports (rows : list Row) (outs : list (option Out)) (k : nat)
  : list (Event Out) :=
  let n := List.length rows in
  let total := (n + 29) / 30 in
  let first := 30 * k in
  let size := Nat.min 30 (n - first) in
  [StartingBatch (k + 1) total (first + 1) (first + size)]
  ++ List.flat_map (fun j => record_reports (j + 1) (nth j outs None))
                   (List.seq first size)
  ++ [BatchComplete (k + 1) total (marker_results outs first size)]
  ++ (if Nat.ltb (k + 1) total then cooldown first n else []).

(** What is seen of the retry loop over [failed]. *)
Definition retry_reports (failed : list Row) (outs : list (option Out))
  : list (Event Out) :=
  List.flat_map
    (fun p : nat * option Out =>
       RetryingRecord (fst p + 1) (List.length failed)
       :: match snd p with Some _ => [Sleep 1] | None => [] end)
    (List.combine (List.seq 0 (List.length failed)) outs).

End ProcessCsv.

Arguments mkLoop {Row Out State}.
Arguments emitted {Row Out State}.
Arguments state_of {Row Out State}.
Arguments processed_results {Row Out State}.
Arguments failed_records {Row Out State}.
Arguments batch_at {Row}.
Arguments batch_starts {Row}.
Arguments successes {Out}.
Arguments failures {Row Out}.
Arguments record_reports {Out}.
Arguments marker_results {Out}.
Arguments cooldown {Out}.
Arguments batch_reports {Row Out}.
Arguments retry_reports {Row Out}.
Arguments outcomes {Row Out State}.
Arguments retry_outcomes {Row Out State}.
Arguments process_csv {Row Out State}.
Arguments batch_step {Row Out State}.
Arguments record_step {Row Out State}.
Arguments retry_step {Row Out State}.



(* ===================================================================== *)
(** * Vocabulary of the properties *)
(* ===================================================================== *)

(** Empty, or made of whitespace only. *)
Definition whitespace_only (text : str) : bool := forallb isspace text.

(** The position of a disaster type in [priority_order]. *)
Definition priority_rank (d : Disaster) : nat :=
  match d with
  | Typhoon => 0
  | Flood => 1
  | Earthquake => 2
  | VolcanicEruptions => 3
  | Fire => 4
  | Landslide => 5
  end.

(** A string that [str.title] leaves unchanged. *)
Definition title_case (s : str) : Prop := title s = s.

(** The analysis [_validate_sentiment_correction] compares the correction
    with, when it compares at all: the rule-based one when no validation key
    is available or the request fails, the remote one when the reply is an
    analysis without a verdict. *)
Definition independent_analysis (w : World) (b : Backend) (text : str)
  : option Result :=
  let language := detect_language w text in
  if key_available b then
    match validation_reply w with
    | VFailed | VMalformed => Some (_rule_based_sentiment_analysis text language)
    | VAnalysis r => Some (fill_missing r text language)
    | VUnparsable _ | VVerdict _ _ _ => None
    end
  else Some (_rule_based_sentiment_analysis text language).

(** Distance between two labels on the fixed ordering of
    [sentiment_categories]. *)
Definition ordinal_distance (a b : str) : Z :=
  Z.abs (index_or_minus_one a sentiment_categories 0
         - index_or_minus_one b sentiment_categories 0).


(** A world in which no request of a pool call is answered. *)
Definition never_answers (w : World) : Prop :=
  forall attempt key_index,
    pool_reply w attempt key_index = RateLimited
    \/ pool_reply w attempt key_index = Failed.



(** Attempt [attempt] of a pool call from state [b] gets no answer. *)
Definition unanswered (w : World) (b : Backend) (attempt : nat) : Prop :=
  forall r,
    pool_reply w attempt
      (Nat.modulo (current_key_index b + attempt) (List.length (api_keys b)))
    <> Answer r.

(** The gazetteer entries that are not in title case: acronyms and names
    with a lowercase particle. *)
Definition untitled_entries : list str := pys [
    "NCR"; "CAR"; "CALABARZON"; "MIMAROPA"; "SOCCSKSARGEN"; "BARMM"; "TIPI";
    "Cagayan de Oro"; "Agusan del Norte"; "Agusan del Sur"; "Davao de Oro";
    "Davao del Norte"; "Davao del Sur"; "Lanao del Norte"; "Lanao del Sur";
    "Surigao del Norte"; "Surigao del Sur"; "Zamboanga del Norte";
    "Zamboanga del Sur" ].

(** Every score of the table is non-negative. *)
Definition nonnegative (s : sscores) : Prop := forall k, (0 <= s k)%Z.

(** A result as the rule-based classifier is meant to give it: one of the
    five labels, a confidence written in hundredths, not below 0.73. *)
Definition well_formed (r : Result) : Prop :=
  In (sentiment r) (List.map sentiment_name sentiment_labels)
  /\ Qden (confidence r) = 100%positive
  /\ (73 # 100 <= confidence r)%Q.

(** The key index a pool call from state [b] uses at attempt [attempt]. *)
Definition key_of_attempt (b : Backend) (attempt : nat) : nat :=
  Nat.modulo (current_key_index b + attempt) (List.length (api_keys b)).

(** The key indices a pool call from state [b] may use, in order. *)
Definition attempted_keys (b : Backend) : list nat :=
  List.map (key_of_attempt b)
           (List.seq 0 (Nat.min 3 (List.length (api_keys b)))).

(** State [b] after one recorded success of key [k]. *)
Definition success_recorded (b : Backend) (k : nat) : Backend :=
  set_rotation b
    (Nat.modulo (k + 1) (List.length (api_keys b)))
    (<[ k := (or_default (key_success_count b !! k) 0 + 1)%nat ]>
       (key_success_count b)).

(** The three example dictionaries of a backend. *)
Definition examples (b : Backend)
  : gmap (list N) (list N) * gmap (list N) (list N) * gmap (list N) (list N) :=
  (trained_examples b, location_examples b, disaster_examples b).

(** A world whose [random.uniform(lo, hi)] lies between [lo] and [hi]. *)
Definition uniform_in_range (w : World) : Prop :=
  forall lo hi : Q, (lo <= hi)%Q -> (lo <= uniform w lo hi <= hi)%Q.

(** What [extract_location] can return: the sentinel, an entry of the
    gazetteer as the gazetteer spells it, or a piece of the text, stripped,
    longer than one character and put in title case. *)
Definition location_value (loc : str) : Prop :=
  loc = py "UNKNOWN"
  \/ In loc ph_locations
  \/ exists m, (1 < List.length (strip m))%nat /\ loc = title (strip m).

(** The values [extract_disaster_type] can return. *)
Definition disaster_values : list str :=
  py "Not Specified" :: py "UNKNOWN" :: List.map disaster_name disaster_keys.

(** The sources [process_csv] can give a record whose file has no source
    column. *)
Definition inferred_sources : list str :=
  pys ["CSV Import"; "Manila Times"; "Rappler"; "Inquirer"; "ABS-CBN News";
       "GMA News"; "Philippine Star"; "BusinessWorld"; "News Media"].

(** The text of a record as the loop body uses it. *)
Definition record_text (row : CsvRow) : str :=
  if negb (truthy (strip (str_of (text_cell row))))
  then py "[No text content]" else str_of (text_cell row).


(** The location a row carries in the location column, unless the cell is
    empty or reads "nan" or "none". *)
Definition provided_location (row : CsvRow) : option str :=
  match location_cell row with
  | Some (Txt loc) =>
      if truthy loc && negb (nan_like loc) then Some loc else None
  | _ => None
  end.




(** ** Sample states and worlds, for the examples *)

(** A backend with three pool credentials, as [__init__] leaves it. *)
Definition sample_backend : Backend :=
  mkBackend (pys ["key-1"; "key-2"; "key-3"]) (pys ["key-1"]) None 0 ∅ ∅ ∅ ∅.

(** No request gets through; language detection fails; the text is not a
    feedback request; [random.uniform] returns its lower bound. *)
Definition offline : World :=
  mkWorld (fun _ => None) (fun _ => None) Failed (fun _ _ => Failed) VFailed
          (fun lo _ => lo).

(** Every pool request is answered with [r]. *)
Definition answering (r : RemoteJson) : World :=
  mkWorld (fun _ => None) (fun _ => None) Failed (fun _ _ => Answer r) VFailed
          (fun lo _ => lo).

(** A reply that carries a label and a confidence only. *)
Definition labelled (label : string) (c : Q) : RemoteJson :=
  mkRemoteJson (Some (py label)) (Some c) None None None None.
Arguments labelled label%_string_scope c%_Q.

(* ===================================================================== *)
(** * Properties: strings and empty input *)
(* ===================================================================== *)

Lemma str_eqb_eq (a b : str) : str_eqb a b = true <-> a = b.
Proof.
  revert b. induction a as [|x a IH]; intros [|y b]; simpl; split; intros H;
    try reflexivity; try discriminate.
  - apply andb_prop in H as [Hx Hab]. apply N.eqb_eq in Hx. apply IH in Hab.
    congruence.
  - injection H as -> ->. rewrite N.eqb_refl. simpl. apply IH. reflexivity.
Qed.

Lemma str_eqb_refl (a : str) : str_eqb a a = true.
Proof. apply str_eqb_eq. reflexivity. Qed.

Lemma str_eqb_neq (a b : str) : str_eqb a b = false <-> a <> b.
Proof.
  split.
  - intros H E. apply str_eqb_eq in E. congruence.
  - intros H. destruct (str_eqb a b) eqn:E; [|reflexivity].
    apply str_eqb_eq in E. contradiction.
Qed.

Lemma lstrip_whitespace (s : str) : whitespace_only s = true -> lstrip s = [].
Proof.
  unfold whitespace_only. induction s as [|c s IH]; simpl; [reflexivity|].
  intros H. apply andb_prop in H as [Hc Hs]. rewrite Hc. auto.
Qed.

Lemma strip_whitespace (s : str) : whitespace_only s = true -> strip s = [].
Proof.
  intros H. unfold strip. rewrite (lstrip_whitespace s H). reflexivity.
Qed.

Lemma blank_guard (text : str) :
  whitespace_only text = true ->
  negb (truthy text) || Nat.eqb (List.length (strip text)) 0 = true.
Proof.
  intros H. rewrite (strip_whitespace text H). simpl. apply orb_true_r.
Qed.

(** C10.  For every empty or whitespace-only text, [analyze_sentiment]
    returns the fixed sentinel (Neutral, 0.82, disasterType "UNKNOWN",
    location "UNKNOWN", English) and leaves the backend alone; the
    disasterType is "UNKNOWN" although [extract_disaster_type] yields
    "Not Specified" on the same text, the extractors being bypassed. *)
Theorem empty_text_sentinel (w : World) (b : Backend) (from_process_csv : bool)
    (text : str) :
  whitespace_only text = true ->
  analyze_sentiment w b from_process_csv text
  = (b, Classified
          (mkResult (py "Neutral") (82 # 100) (py "No text provided")
                    (Some (py "UNKNOWN")) (Some (py "UNKNOWN"))
                    (Some (py "English"))))
  /\ extract_disaster_type text = py "Not Specified"
  /\ py "UNKNOWN" <> py "Not Specified".
Proof.
  intros H. pose proof (blank_guard text H) as G.
  split; [|split].
  - unfold analyze_sentiment. rewrite G. reflexivity.
  - unfold extract_disaster_type. rewrite G. reflexivity.
  - discriminate.
Qed.

(* ===================================================================== *)
(** * Properties: rule-based classifier and post-processing *)
(* ===================================================================== *)

Lemma rule_based_descriptive (text language : str) :
  descriptive_without_emotion text = true ->
  _rule_based_sentiment_analysis text language
  = verdict Neutral (92 # 100)
      "Descriptive statement without emotional markers. These types of informative reports should be classified as Neutral regardless of disaster content.".
Proof.
  unfold descriptive_without_emotion, _rule_based_sentiment_analysis.
  intros ->. reflexivity.
Qed.

Lemma rule_based_short (text language : str) :
  descriptive_without_emotion text = false ->
  (token_count text <= 3)%nat ->
  contains_emotion text = false ->
  _rule_based_sentiment_analysis text language
  = verdict Neutral (90 # 100)
      "Simple statement without emotional indicators - analyzing exactly what's in the text.".
Proof.
  unfold descriptive_without_emotion, _rule_based_sentiment_analysis.
  intros -> Hn ->. apply Nat.leb_le in Hn. rewrite Hn. reflexivity.
Qed.

(** C3, as the code has it.  A text of at most three whitespace tokens that
    holds no emotion word is classified Neutral; the confidence is 0.90,
    except that a text matching the descriptive-without-emotion pattern is
    caught by the earlier descriptive rule and gets 0.92. *)
Theorem short_statement_neutral (text language : str) :
  (token_count text <= 3)%nat ->
  contains_emotion text = false ->
  sentiment (_rule_based_sentiment_analysis text language) = py "Neutral"
  /\ confidence (_rule_based_sentiment_analysis text language)
     = if descriptive_without_emotion text then (92 # 100) else (90 # 100).
Proof.
  intros Hn He. destruct (descriptive_without_emotion text) eqn:Hd.
  - rewrite (rule_based_descriptive text language Hd). split; reflexivity.
  - rewrite (rule_based_short text language Hd Hn He). split; reflexivity.
Qed.

(** C3 as stated fails on "may sunog": two tokens, no emotion word, and the
    confidence is 0.92, not 0.90. *)
Lemma short_descriptive_statement_confidence :
  (token_count (py "may sunog") <= 3)%nat
  /\ contains_emotion (py "may sunog") = false
  /\ confidence (_rule_based_sentiment_analysis (py "may sunog") (py "Filipino"))
     = (92 # 100)
  /\ ~ ((92 # 100) == (90 # 100))%Q.
Proof.
  split; [vm_compute; lia|]. split; [vm_compute; reflexivity|].
  split; [vm_compute; reflexivity|]. intros H. vm_compute in H. discriminate.
Qed.

Lemma neutral_is_not_fear : py "Neutral" <> py "Fear/Anxiety".
Proof. intros E. vm_compute in E. discriminate. Qed.

Lemma corrected_not_fear (text s : str) :
  descriptive_without_emotion text = true ->
  corrected_sentiment_for text s <> py "Fear/Anxiety".
Proof.
  unfold descriptive_without_emotion, corrected_sentiment_for. intros ->.
  simpl. destruct (str_eqb s (py "Fear/Anxiety")) eqn:E.
  - apply neutral_is_not_fear.
  - apply str_eqb_neq. exact E.
Qed.

Lemma try_keys_not_fear (w : World) (text language : str) (num_keys : nat)
    (attempts : list nat) :
  descriptive_without_emotion text = true ->
  forall b out, try_keys w b text language num_keys attempts = Some out ->
  sentiment (snd out) <> py "Fear/Anxiety".
Proof.
  intros Hd. induction attempts as [|a later IH]; intros b out; simpl.
  - discriminate.
  - destruct (pool_reply w a _); try apply IH.
    intros [= <-]. simpl. apply corrected_not_fear. exact Hd.
Qed.

Lemma get_api_not_fear (w : World) (b : Backend) (text language : str) :
  descriptive_without_emotion text = true ->
  sentiment (snd (get_api_sentiment_analysis w b text language))
  <> py "Fear/Anxiety".
Proof.
  intros Hd. unfold get_api_sentiment_analysis.
  destruct (Nat.eqb _ 0).
  - simpl. rewrite (rule_based_descriptive text language Hd).
    apply neutral_is_not_fear.
  - destruct (try_keys _ _ _ _ _ _) as [out|] eqn:E.
    + eapply try_keys_not_fear; eauto.
    + simpl. rewrite (rule_based_descriptive text language Hd).
      apply neutral_is_not_fear.
Qed.

Lemma realtime_not_fear (w : World) (b : Backend) (text language : str) r :
  descriptive_without_emotion text = true ->
  realtime_analysis w b text language = Some r ->
  sentiment r <> py "Fear/Anxiety".
Proof.
  intros Hd. unfold realtime_analysis.
  destruct (validation_api_key b) as [key|]; [|discriminate].
  destruct (truthy key); [|discriminate].
  destruct (realtime_reply w) as [| |a]; try discriminate.
  destruct (r_sentiment a); [|discriminate].
  intros [= <-]. simpl. apply corrected_not_fear. exact Hd.
Qed.

(** C6.  For a text matching the descriptive-without-emotion pattern the
    sentiment is never Fear/Anxiety: the rule-based classifier returns
    Neutral, the post-processing rule turns a Fear/Anxiety label into
    Neutral, and so neither the pool adapter (whatever the replies), nor the
    real-time adapter, nor [analyze_sentiment] on a text without trained
    example returns Fear/Anxiety. *)
Theorem descriptive_text_never_fear (text : str) :
  descriptive_without_emotion text = true ->
  (forall language,
      sentiment (_rule_based_sentiment_analysis text language) = py "Neutral")
  /\ corrected_sentiment_for text (py "Fear/Anxiety") = py "Neutral"
  /\ (forall w b language,
        sentiment (snd (get_api_sentiment_analysis w b text language))
        <> py "Fear/Anxiety")
  /\ (forall w b language r,
        realtime_analysis w b text language = Some r ->
        sentiment r <> py "Fear/Anxiety")
  /\ (forall w b from_process_csv b' r,
        trained_examples b !! joined_words text = None ->
        analyze_sentiment w b from_process_csv text = (b', Classified r) ->
        sentiment r <> py "Fear/Anxiety").
Proof.
  intros Hd. repeat split.
  - intros language. rewrite (rule_based_descriptive text language Hd). reflexivity.
  - unfold corrected_sentiment_for. unfold descriptive_without_emotion in Hd.
    rewrite Hd. reflexivity.
  - intros. apply get_api_not_fear. exact Hd.
  - intros. eapply realtime_not_fear; eauto.
  - intros w b csv b' r Hmiss. unfold analyze_sentiment.
    destruct (negb (truthy text) || _).
    + intros [= <- <-]. simpl. apply neutral_is_not_fear.
    + destruct (feedback_request w text) as [[[t o] c]|].
      * destruct (train_on_feedback _ _ _ _ _ _ _). discriminate.
      * rewrite Hmiss.
        destruct (if negb csv then _ else _) as [res|] eqn:E.
        -- intros [= <- <-]. destruct csv; simpl in E; [discriminate|].
           eapply realtime_not_fear; eauto.
        -- pose proof (get_api_not_fear w b text (detect_language w text) Hd) as G.
           destruct (get_api_sentiment_analysis _ _ _ _) as [b2 res].
           intros [= <- <-]. exact G.
Qed.

(* ===================================================================== *)
(** * Properties: disaster-type extractor *)
(* ===================================================================== *)

Lemma lstrip_nil_whitespace (s : str) : lstrip s = [] -> whitespace_only s = true.
Proof.
  unfold whitespace_only. induction s as [|c s IH]; simpl; [reflexivity|].
  destruct (isspace c); [auto | discriminate].
Qed.

Lemma whitespace_only_lstrip (s : str) :
  whitespace_only (lstrip s) = whitespace_only s.
Proof.
  unfold whitespace_only. induction s as [|c s IH]; simpl; [reflexivity|].
  destruct (isspace c) eqn:E; simpl; [exact IH | rewrite E; reflexivity].
Qed.

Lemma whitespace_only_rev (s : str) :
  whitespace_only (rev s) = whitespace_only s.
Proof.
  unfold whitespace_only. induction s as [|c s IH]; simpl; [reflexivity|].
  rewrite forallb_app, IH. simpl. rewrite andb_true_r. apply andb_comm.
Qed.

Lemma strip_nil_whitespace (s : str) : strip s = [] -> whitespace_only s = true.
Proof.
  unfold strip. intros H.
  assert (lstrip (rev (lstrip s)) = []) as H1.
  { destruct (lstrip (rev (lstrip s))) as [|x l]; [reflexivity|].
    simpl in H. destruct (rev l); discriminate. }
  apply lstrip_nil_whitespace in H1.
  rewrite whitespace_only_rev, whitespace_only_lstrip in H1. exact H1.
Qed.

Lemma nonblank_guard (text : str) :
  whitespace_only text = false ->
  negb (truthy text) || Nat.eqb (List.length (strip text)) 0 = false.
Proof.
  intros H. apply orb_false_intro.
  - destruct text; [discriminate | reflexivity].
  - destruct (strip text) eqn:E; [|reflexivity].
    apply strip_nil_whitespace in E. congruence.
Qed.

Lemma disaster_keys_eq :
  disaster_keys = [Earthquake; Flood; Typhoon; Fire; VolcanicEruptions; Landslide].
Proof. reflexivity. Qed.

Lemma qmax_cases (a b : Q) : qmax a b = a \/ qmax a b = b.
Proof. unfold qmax. destruct (Qle_bool a b); auto. Qed.

Lemma qmax_le_l (a b : Q) : (a <= qmax a b)%Q.
Proof.
  unfold qmax. destruct (Qle_bool a b) eqn:E.
  - apply Qle_bool_iff. exact E.
  - apply Qle_refl.
Qed.

Lemma qmax_le_r (a b : Q) : (b <= qmax a b)%Q.
Proof.
  unfold qmax. destruct (Qle_bool a b) eqn:E.
  - apply Qle_refl.
  - apply Qlt_le_weak. apply Qnot_le_lt. intros H.
    apply Qle_bool_iff in H. congruence.
Qed.

Lemma dscores_max_attained (s : dscores) : exists d, dscores_max s = s d.
Proof.
  unfold dscores_max. rewrite disaster_keys_eq. simpl.
  repeat match goal with
  | |- context [qmax ?a ?b] =>
      let H := fresh in
      destruct (qmax_cases a b) as [H|H]; rewrite H; clear H
  end; eauto.
Qed.

Lemma dscores_max_upper (s : dscores) (d : Disaster) : (s d <= dscores_max s)%Q.
Proof.
  unfold dscores_max. rewrite disaster_keys_eq. simpl.
  set (m1 := qmax (s Earthquake) (s Flood)).
  set (m2 := qmax m1 (s Typhoon)).
  set (m3 := qmax m2 (s Fire)).
  set (m4 := qmax m3 (s VolcanicEruptions)).
  set (m5 := qmax m4 (s Landslide)).
  assert (s Earthquake <= m1)%Q by apply qmax_le_l.
  assert (s Flood <= m1)%Q by apply qmax_le_r.
  assert (m1 <= m2)%Q by apply qmax_le_l.
  assert (s Typhoon <= m2)%Q by apply qmax_le_r.
  assert (m2 <= m3)%Q by apply qmax_le_l.
  assert (s Fire <= m3)%Q by apply qmax_le_r.
  assert (m3 <= m4)%Q by apply qmax_le_l.
  assert (s VolcanicEruptions <= m4)%Q by apply qmax_le_r.
  assert (m4 <= m5)%Q by apply qmax_le_l.
  assert (s Landslide <= m5)%Q by apply qmax_le_r.
  destruct d; repeat (eapply Qle_trans; [eassumption|]); try apply Qle_refl;
    eauto using Qle_trans.
Qed.

(** The choice among the top-scoring types, as a function of which types
    reach the maximum. *)
Lemma top_choice (s : dscores) :
  exists d,
    (if Nat.eqb (List.length (top_disasters_of s)) 1
     then List.hd [] (List.map disaster_name (top_disasters_of s))
     else
       match List.find (fun disaster => Disaster_in disaster (top_disasters_of s))
                       priority_order with
       | Some disaster => disaster_name disaster
       | None => List.hd [] (List.map disaster_name (top_disasters_of s))
       end) = disaster_name d
    /\ Qeq_bool (s d) (dscores_max s) = true
    /\ forall d', Qeq_bool (s d') (dscores_max s) = true ->
                  (priority_rank d <= priority_rank d')%nat.
Proof.
  destruct (dscores_max_attained s) as [d0 Hd0].
  assert (Qeq_bool (s d0) (dscores_max s) = true) as Hatt.
  { rewrite Hd0. apply Qeq_bool_iff. apply Qeq_refl. }
  unfold top_disasters_of. rewrite disaster_keys_eq.
  set (m := dscores_max s) in *. clearbody m. simpl.
  destruct (Qeq_bool (s Earthquake) m) eqn:E1;
  destruct (Qeq_bool (s Flood) m) eqn:E2;
  destruct (Qeq_bool (s Typhoon) m) eqn:E3;
  destruct (Qeq_bool (s Fire) m) eqn:E4;
  destruct (Qeq_bool (s VolcanicEruptions) m) eqn:E5;
  destruct (Qeq_bool (s Landslide) m) eqn:E6; simpl;
  try (destruct d0; congruence);
  first
    [ exists Typhoon; split; [reflexivity|]; split; [assumption|];
      intros d' Hd'; destruct d'; simpl; solve [lia | congruence]
    | exists Flood; split; [reflexivity|]; split; [assumption|];
      intros d' Hd'; destruct d'; simpl; solve [lia | congruence]
    | exists Earthquake; split; [reflexivity|]; split; [assumption|];
      intros d' Hd'; destruct d'; simpl; solve [lia | congruence]
    | exists VolcanicEruptions; split; [reflexivity|]; split; [assumption|];
      intros d' Hd'; destruct d'; simpl; solve [lia | congruence]
    | exists Fire; split; [reflexivity|]; split; [assumption|];
      intros d' Hd'; destruct d'; simpl; solve [lia | congruence]
    | exists Landslide; split; [reflexivity|]; split; [assumption|];
      intros d' Hd'; destruct d'; simpl; solve [lia | congruence] ].
Qed.

(** C7.  [extract_disaster_type] returns "Not Specified" on an empty or
    whitespace-only text; "UNKNOWN" when the maximum category score is below
    1; and otherwise a category whose score is the maximum, the first such
    one in the priority order Typhoon, Flood, Earthquake, Volcanic
    Eruptions, Fire, Landslide. *)
Theorem extract_disaster_type_spec (text : str) :
  let scores := disaster_scores (lower text) in
  (whitespace_only text = true ->
     extract_disaster_type text = py "Not Specified")
  /\ (whitespace_only text = false -> (dscores_max scores < 1)%Q ->
        extract_disaster_type text = py "UNKNOWN")
  /\ (whitespace_only text = false -> ~ (dscores_max scores < 1)%Q ->
        exists d,
          extract_disaster_type text = disaster_name d
          /\ (scores d == dscores_max scores)%Q
          /\ (forall d', scores d' <= scores d)%Q
          /\ (forall d', (scores d' == dscores_max scores)%Q ->
                         (priority_rank d <= priority_rank d')%nat)).
Proof.
  intros scores. split; [|split].
  - intros H. unfold extract_disaster_type. rewrite (blank_guard text H).
    reflexivity.
  - intros H Hlt. unfold extract_disaster_type. rewrite (nonblank_guard text H).
    fold scores. unfold Qlt_bool.
    destruct (Qle_bool 1 (dscores_max scores)) eqn:E; [|reflexivity].
    apply Qle_bool_iff in E. exfalso. apply (Qlt_not_le _ _ Hlt E).
  - intros H Hge. unfold extract_disaster_type. rewrite (nonblank_guard text H).
    fold scores. unfold Qlt_bool.
    destruct (Qle_bool 1 (dscores_max scores)) eqn:E.
    + simpl. destruct (top_choice scores) as (d & Hd & Hmax & Hfirst).
      exists d. split; [exact Hd|]. apply Qeq_bool_iff in Hmax.
      split; [exact Hmax|]. split.
      * intros d'. rewrite Hmax. apply dscores_max_upper.
      * intros d' Hd'. apply Hfirst. apply Qeq_bool_iff. exact Hd'.
    + exfalso. apply Hge. apply Qnot_le_lt. intros H1.
      apply Qle_bool_iff in H1. congruence.
Qed.

(* ===================================================================== *)
(** * Properties: batch loop *)
(* ===================================================================== *)

Lemma range_from_nil (fuel s n : nat) :
  (n <= s)%nat -> range_from fuel s n BATCH_SIZE = [].
Proof.
  intros H. destruct fuel; [reflexivity|]. simpl.
  assert (Nat.ltb s n = false) as -> by (apply Nat.ltb_ge; exact H). reflexivity.
Qed.

Lemma range_from_cons (fuel s n : nat) :
  (s < n)%nat -> (n <= s + fuel)%nat ->
  exists f, fuel = S f /\ (n <= s + BATCH_SIZE + f)%nat
    /\ range_from fuel s n BATCH_SIZE = s :: range_from f (s + BATCH_SIZE) n BATCH_SIZE.
Proof.
  intros H1 H2. destruct fuel as [|f]; [lia|]. exists f. split; [reflexivity|].
  split; [unfold BATCH_SIZE; lia|]. simpl.
  assert (Nat.ltb s n = true) as -> by (apply Nat.ltb_lt; exact H1). reflexivity.
Qed.

(** The batch starts are the multiples of 30 below the number of rows. *)
Lemma ceil_div_step (n s : nat) :
  (s < n)%nat ->
  ((n - s + (BATCH_SIZE - 1)) / BATCH_SIZE
   = S ((n - (s + BATCH_SIZE) + (BATCH_SIZE - 1)) / BATCH_SIZE))%nat.
Proof.
  intros E. unfold BATCH_SIZE.
  destruct (Nat.le_gt_cases 30 (n - s)) as [Hge|Hlt].
  - replace (n - s + (30 - 1))%nat with ((n - (s + 30) + (30 - 1)) + 1 * 30)%nat by lia.
    rewrite Nat.div_add by lia. lia.
  - replace (n - (s + 30))%nat with 0%nat by lia.
    replace (n - s + (30 - 1))%nat with ((n - s - 1) + 1 * 30)%nat by lia.
    rewrite Nat.div_add by lia. rewrite Nat.div_small by lia.
    reflexivity.
Qed.

Lemma range_from_closed_form (fuel s n : nat) :
  (n <= s + fuel)%nat ->
  range_from fuel s n BATCH_SIZE
  = List.map (fun i => s + BATCH_SIZE * i)%nat
      (List.seq 0 ((n - s + (BATCH_SIZE - 1)) / BATCH_SIZE)).
Proof.
  revert s. induction fuel as [|f IH]; intros s H.
  - assert (n - s = 0)%nat as -> by lia. reflexivity.
  - destruct (Nat.lt_ge_cases s n) as [E|E].
    + destruct (range_from_cons (S f) s n E H) as (f' & [= <-] & Hf & ->).
      rewrite (IH _ Hf), (ceil_div_step n s E).
      cbn [List.seq List.map]. f_equal; [lia|].
      rewrite <- List.seq_shift, List.map_map.
      apply List.map_ext. intros i. lia.
    + rewrite (range_from_nil _ _ _ E).
      assert (n - s = 0)%nat as -> by lia. reflexivity.
Qed.

Lemma below_ceiling (n i : nat) : (i < (n + 29) / 30 -> 30 * i < n)%nat.
Proof.
  intros H. pose proof (Nat.div_mod_eq (n + 29) 30) as D.
  pose proof (Nat.mod_upper_bound (n + 29) 30 ltac:(lia)) as U. lia.
Qed.




Lemma firstn_add {A} (a b : nat) (l : list A) :
  firstn (a + b) l = firstn a l ++ firstn b (skipn a l).
Proof.
  revert l. induction a as [|a IH]; intros l; [reflexivity|].
  destruct l as [|x l]; [cbn; rewrite List.firstn_nil; reflexivity|].
  cbn [Nat.add firstn skipn List.app]. rewrite IH. reflexivity.
Qed.

Lemma firstn_next {A} (l : list A) (k : nat) :
  firstn (30 * (k + 1)) l = firstn (30 * k + Nat.min 30 (List.length l - 30 * k)) l.
Proof.
  destruct (Nat.le_gt_cases 30 (List.length l - 30 * k)) as [H|H].
  - f_equal. lia.
  - rewrite !List.firstn_all2 by lia. reflexivity.
Qed.

Lemma all_rows_covered {A} (l : list A) :
  firstn (30 * ((List.length l + 29) / 30)) l = l.
Proof.
  apply List.firstn_all2.
  pose proof (Nat.div_mod_eq (List.length l + 29) 30).
  pose proof (Nat.mod_upper_bound (List.length l + 29) 30 ltac:(lia)). lia.
Qed.

(** The ceiling of [n / 30] and the multiples of 30. *)
Lemma next_batch_exists (n k : nat) :
  Nat.ltb (30 * k + 30) n = Nat.ltb (k + 1) ((n + 29) / 30).
Proof.
  pose proof (Nat.div_mod_eq (n + 29) 30) as D.
  pose proof (Nat.mod_upper_bound (n + 29) 30 ltac:(lia)) as U.
  destruct (Nat.ltb_spec (30 * k + 30) n), (Nat.ltb_spec (k + 1) ((n + 29) / 30));
    try reflexivity; lia.
Qed.

Section BatchLoop.
Context {Row Out State : Type}.
Variable body : State -> Row -> State * option Out.
Variable retry_body : State -> Row -> State * option Out.
Variable clock : nat -> nat -> Z.

Lemma outcomes_app (st : State) (a b : list Row) :
  outcomes body st (a ++ b)
  = (fst (outcomes body st a) ++ fst (outcomes body (snd (outcomes body st a)) b),
     snd (outcomes body (snd (outcomes body st a)) b)).
Proof.
  revert st. induction a as [|row a IH]; intros st.
  - cbn. destruct (outcomes body st b). reflexivity.
  - cbn [List.app outcomes]. destruct (body st row) as [st1 o].
    rewrite IH. destruct (outcomes body st1 a) as [oa sa]. cbn [fst snd].
    destruct (outcomes body sa b). reflexivity.
Qed.

Lemma outcomes_length (st : State) (rows : list Row) :
  List.length (fst (outcomes body st rows)) = List.length rows.
Proof.
  revert st. induction rows as [|row rows IH]; intros st; [reflexivity|].
  cbn [outcomes]. destruct (body st row) as [st1 o].
  specialize (IH st1). destruct (outcomes body st1 rows). cbn in *. lia.
Qed.

Lemma outcomes_firstn (st : State) (rows : list Row) (m : nat) :
  fst (outcomes body st (firstn m rows)) = firstn m (fst (outcomes body st rows)).
Proof.
  revert st m. induction rows as [|row rows IH]; intros st m.
  - rewrite List.firstn_nil. cbn. rewrite List.firstn_nil. reflexivity.
  - destruct m as [|m]; [reflexivity|].
    cbn [firstn outcomes]. destruct (body st row) as [st1 o].
    specialize (IH st1 m).
    destruct (outcomes body st1 (firstn m rows)), (outcomes body st1 rows).
    cbn [fst firstn] in *. rewrite IH. reflexivity.
Qed.


Lemma successes_app (a b : list (option Out)) :
  successes (a ++ b) = successes a ++ successes b.
Proof. unfold successes. apply List.flat_map_app. Qed.

Lemma failures_app (a b : list Row) (oa ob : list (option Out)) :
  List.length a = List.length oa ->
  failures (a ++ b) (oa ++ ob) = failures a oa ++ failures b ob.
Proof.
  revert oa. induction a as [|x a IH]; intros [|o oa] H; try discriminate H.
  - reflexivity.
  - cbn in H. injection H as H. unfold failures in *.
    cbn [List.app List.combine List.flat_map]. rewrite IH by exact H.
    rewrite List.app_assoc. reflexivity.
Qed.

Lemma records_fold (s : nat) (batch : list Row) :
  forall (i0 : nat) (l : Loop Row Out State),
    List.fold_left (record_step body s)
      (List.combine (List.seq i0 (List.length batch)) batch) l
    = mkLoop
        (emitted l
         ++ List.flat_map
              (fun p : nat * option Out => record_reports (s + fst p + 1) (snd p))
              (List.combine (List.seq i0 (List.length batch))
                            (fst (outcomes body (state_of l) batch))))
        (snd (outcomes body (state_of l) batch))
        (processed_results l ++ successes (fst (outcomes body (state_of l) batch)))
        (failed_records l ++ failures batch (fst (outcomes body (state_of l) batch))).
Proof.
  induction batch as [|row batch IH]; intros i0 l.
  - cbn. rewrite !List.app_nil_r. destruct l; reflexivity.
  - cbn [List.length List.seq List.combine List.fold_left].
    rewrite IH. cbn [outcomes].
    unfold record_step. cbn [emit state_of emitted processed_results failed_records].
    destruct (body (state_of l) row) as [st1 [result|]];
      cbn [state_of emitted processed_results failed_records];
      destruct (outcomes body st1 batch) as [rest st2];
      cbn [fst snd List.combine List.flat_map record_reports successes failures];
      rewrite <- !List.app_assoc; reflexivity.
Qed.

Lemma retry_fold (total : nat) (failed : list Row) :
  forall (i0 : nat) (l : Loop Row Out State),
    List.fold_left (retry_step retry_body total)
      (List.combine (List.seq i0 (List.length failed)) failed) l
    = mkLoop
        (emitted l
         ++ List.flat_map
              (fun p : nat * option Out =>
                 RetryingRecord (fst p + 1) total
                 :: match snd p with Some _ => [Sleep 1] | None => [] end)
              (List.combine (List.seq i0 (List.length failed))
                            (fst (retry_outcomes retry_body (state_of l) failed))))
        (snd (retry_outcomes retry_body (state_of l) failed))
        (processed_results l
         ++ successes (fst (retry_outcomes retry_body (state_of l) failed)))
        (failed_records l).
Proof.
  induction failed as [|row failed IH]; intros i0 l.
  - cbn. rewrite !List.app_nil_r. destruct l; reflexivity.
  - cbn [List.length List.seq List.combine List.fold_left].
    rewrite IH. cbn [retry_outcomes].
    unfold retry_step. cbn [emit state_of emitted processed_results failed_records].
    destruct (retry_body (state_of l) row) as [st1 [result|]];
      cbn [state_of emitted processed_results failed_records];
      destruct (retry_outcomes retry_body st1 failed) as [rest st2];
      cbn [fst snd List.combine List.flat_map successes];
      rewrite <- ?List.app_assoc; reflexivity.
Qed.

(** The reports of the records of a slice, by their place in the file. *)
Lemma reports_by_index (outs : list (option Out)) (s size : nat) :
  (s + size <= List.length outs)%nat ->
  forall i0,
    (i0 <= size)%nat ->
    List.flat_map
      (fun p : nat * option Out => record_reports (s + fst p + 1) (snd p))
      (List.combine (List.seq i0 (size - i0)) (firstn (size - i0) (skipn (s + i0) outs)))
    = List.flat_map (fun j => record_reports (j + 1) (nth j outs None))
                    (List.seq (s + i0) (size - i0)).
Proof.
  intros Hlen i0 Hi.
  remember (size - i0)%nat as m eqn:Hm. revert i0 Hi Hm.
  induction m as [|m IH]; intros i0 Hi Hm; [reflexivity|].
  destruct (skipn (s + i0) outs) as [|o rest] eqn:E.
  { exfalso. assert (List.length (skipn (s + i0) outs) = 0%nat) as L by (rewrite E; reflexivity).
    rewrite List.length_skipn in L. lia. }
  cbn [List.seq firstn List.combine List.flat_map fst snd].
  f_equal.
  - f_equal. pose proof (List.nth_skipn (s + i0) outs 0 None) as Hn.
    rewrite E in Hn. cbn in Hn. rewrite Nat.add_0_r in Hn. rewrite <- Hn.
    reflexivity.
  - assert (rest = skipn (s + S i0) outs) as ->.
    { replace (s + S i0)%nat with (1 + (s + i0))%nat by lia.
      rewrite <- List.skipn_skipn, E. reflexivity. }
    replace (S (s + i0)) with (s + S i0)%nat by lia.
    apply IH; lia.
Qed.

(** ** Counting the reports *)






Section OneRun.
Variables (st : State) (rows : list Row).

Let n := List.length rows.
Let outs := fst (outcomes body st rows).

(** The variables of the loop when batch [k] starts. *)
Let before_batch (k : nat) : Loop Row Out State :=
  mkLoop (List.flat_map (batch_reports clock rows outs) (List.seq 0 k))
         (snd (outcomes body st (firstn (30 * k) rows)))
         (successes (firstn (30 * k) outs))
         (failures (firstn (30 * k) rows) (firstn (30 * k) outs)).

Lemma batch_at_length (s : nat) :
  List.length (batch_at rows s) = Nat.min BATCH_SIZE (List.length rows - s).
Proof.
  unfold batch_at, slice. rewrite List.length_firstn, List.length_skipn.
  replace (s + BATCH_SIZE - s)%nat with BATCH_SIZE by lia. reflexivity.
Qed.

Lemma batch_at_prefix (s : nat) :
  firstn (s + List.length (batch_at rows s)) rows
  = firstn s rows ++ batch_at rows s.
Proof.
  rewrite firstn_add. f_equal. unfold batch_at, slice.
  replace (s + BATCH_SIZE - s)%nat with BATCH_SIZE by lia.
  rewrite List.length_firstn.
  destruct (Nat.le_gt_cases BATCH_SIZE (List.length (skipn s rows))) as [H|H].
  - f_equal. lia.
  - rewrite !List.firstn_all2 by lia. reflexivity.
Qed.

Lemma batch_outcomes (k : nat) :
  let size := Nat.min 30 (n - 30 * k) in
  fst (outcomes body (snd (outcomes body st (firstn (30 * k) rows)))
                (batch_at rows (30 * k)))
  = firstn size (skipn (30 * k) outs)
  /\ snd (outcomes body (snd (outcomes body st (firstn (30 * k) rows)))
                  (batch_at rows (30 * k)))
     = snd (outcomes body st (firstn (30 * (k + 1)) rows)).
Proof.
  cbv zeta.
  pose proof (batch_at_prefix (30 * k)) as P.
  rewrite batch_at_length in P. change BATCH_SIZE with 30%nat in P. fold n in P.
  pose proof (outcomes_app st (firstn (30 * k) rows) (batch_at rows (30 * k))) as A.
  rewrite <- P in A. split.
  - apply (f_equal fst) in A. cbn [fst] in A.
    rewrite !outcomes_firstn in A. fold outs in A.
    rewrite firstn_add in A. apply List.app_inv_head in A.
    rewrite <- A. reflexivity.
  - apply (f_equal snd) in A. cbn [snd] in A. rewrite <- A.
    rewrite (firstn_next rows k). reflexivity.
Qed.

Lemma batch_step_closed_form (k : nat) :
  (k < (n + 29) / 30)%nat ->
  batch_step body clock rows (before_batch k) (30 * k) = before_batch (k + 1).
Proof.
  intros Hk.
  pose proof (below_ceiling n k Hk) as Hlt.
  destruct (batch_outcomes k) as [Ho Hs]. cbv zeta in Ho.
  set (size := Nat.min 30 (n - 30 * k)) in *.
  assert (Hsize : List.length (batch_at rows (30 * k)) = size)
    by (rewrite batch_at_length; reflexivity).
  assert (Hlen : List.length outs = n) by apply outcomes_length.
  unfold before_batch, batch_step. cbv zeta. rewrite records_fold.
  cbn [emit state_of emitted processed_results failed_records].
  rewrite Hsize, Ho, Hs.
  assert (Hdone : successes (firstn (30 * k) outs)
                  ++ successes (firstn size (skipn (30 * k) outs))
                  = successes (firstn (30 * (k + 1)) outs)).
  { rewrite <- successes_app, <- firstn_add.
    rewrite (firstn_next outs k), Hlen. reflexivity. }
  assert (Hfailed : failures (firstn (30 * k) rows) (firstn (30 * k) outs)
                    ++ failures (batch_at rows (30 * k))
                         (firstn size (skipn (30 * k) outs))
                    = failures (firstn (30 * (k + 1)) rows)
                               (firstn (30 * (k + 1)) outs)).
  { rewrite <- failures_app
      by (rewrite !List.length_firstn; fold n; lia).
    rewrite <- firstn_add, <- Hsize, <- batch_at_prefix, Hsize.
    rewrite (firstn_next outs k), (firstn_next rows k), Hlen. reflexivity. }
  assert (Hreports :
    List.flat_map
      (fun p : nat * option Out => record_reports (30 * k + fst p + 1) (snd p))
      (List.combine (List.seq 0 size) (firstn size (skipn (30 * k) outs)))
    = List.flat_map (fun j => record_reports (j + 1) (nth j outs None))
                    (List.seq (30 * k) size)).
  { pose proof (reports_by_index outs (30 * k) size ltac:(unfold size; lia) 0
                  ltac:(lia)) as R.
    rewrite Nat.sub_0_r, Nat.add_0_r in R. exact R. }
  rewrite Hreports, Hdone, Hfailed.
  change (30 * k + BATCH_SIZE)%nat with (30 * k + 30)%nat.
  rewrite (next_batch_exists (List.length rows) k). fold n.
  assert (Hsmall : Nat.ltb (k + 1) ((n + 29) / 30) = true ->
                   Nat.leb n 30 = false).
  { intros H. apply Nat.ltb_lt in H. apply Nat.leb_gt.
    pose proof (below_ceiling n (k + 1) H). lia. }
  replace (List.seq 0 (k + 1)) with (List.seq 0 k ++ [k])
    by (rewrite Nat.add_comm; symmetry; apply List.seq_S).
  rewrite List.flat_map_app. cbn [List.flat_map]. rewrite List.app_nil_r.
  assert (Hbr :
    batch_reports clock rows outs k
    = [StartingBatch (k + 1) ((n + 29) / 30) (30 * k + 1) (30 * k + size)]
      ++ List.flat_map (fun j => record_reports (j + 1) (nth j outs None))
                       (List.seq (30 * k) size)
      ++ [BatchComplete (k + 1) ((n + 29) / 30)
                        (marker_results outs (30 * k) size)]
      ++ (if Nat.ltb (k + 1) ((n + 29) / 30) then cooldown clock (30 * k) n
          else [])) by reflexivity.
  rewrite Hbr.
  replace (30 * k / BATCH_SIZE + 1)%nat with (k + 1)%nat
    by (unfold BATCH_SIZE; rewrite Nat.mul_comm, Nat.div_mul by lia; reflexivity).
  change ((n + BATCH_SIZE - 1) / BATCH_SIZE)%nat with ((n + 30 - 1) / 30)%nat.
  replace (n + 30 - 1)%nat with (n + 29)%nat by lia.
  assert (Hmarker :
    (if Nat.eqb (List.length (successes (firstn (30 * (k + 1)) outs))) 0 then []
     else slice (successes (firstn (30 * (k + 1)) outs)) (30 * k)
            (Nat.min (30 * k + size)
               (List.length (successes (firstn (30 * (k + 1)) outs)))))
    = marker_results outs (30 * k) size).
  { unfold marker_results. cbv zeta.
    rewrite (firstn_next outs k), Hlen. reflexivity. }
  rewrite Hmarker.
  destruct (Nat.ltb (k + 1) ((n + 29) / 30)) eqn:E.
  - rewrite (Hsmall eq_refl). unfold emit.
    cbn [emitted state_of processed_results failed_records].
    rewrite <- !List.app_assoc. reflexivity.
  - rewrite List.app_nil_r. unfold emit.
    cbn [emitted state_of processed_results failed_records].
    rewrite <- !List.app_assoc. reflexivity.
Qed.

Lemma batch_starts_closed_form :
  batch_starts rows = List.map (fun k => 30 * k)%nat (List.seq 0 ((n + 29) / 30)).
Proof.
  unfold batch_starts, py_range. rewrite range_from_closed_form by lia.
  rewrite Nat.sub_0_r. reflexivity.
Qed.

Lemma batch_loop_closed_form :
  List.fold_left (batch_step body clock rows) (batch_starts rows)
                 (mkLoop [] st [] [])
  = before_batch ((n + 29) / 30).
Proof.
  rewrite batch_starts_closed_form.
  assert (H : forall k, (k <= (n + 29) / 30)%nat ->
            List.fold_left (batch_step body clock rows)
              (List.map (fun k => 30 * k)%nat (List.seq 0 k)) (mkLoop [] st [] [])
            = before_batch k).
  { induction k as [|k IH]; intros Hk.
    - reflexivity.
    - rewrite List.seq_S, List.map_app, List.fold_left_app, IH by lia.
      cbn [List.map List.fold_left Nat.add].
      rewrite batch_step_closed_form by lia.
      f_equal. lia. }
  apply H. lia.
Qed.

(** [process_csv] in closed form: the batches one after the other, the
    retry loop over the rows that failed, the closing report; the state
    and the results are those of running [body] on all rows in order and
    then [retry_body] on the rows that failed. *)
Lemma process_csv_closed_form :
  n <> 0%nat ->
  let after := snd (outcomes body st rows) in
  let failed := failures rows outs in
  let retried := retry_outcomes retry_body after failed in
  process_csv body retry_body clock st rows
  = mkLoop
      (List.flat_map (batch_reports clock rows outs) (List.seq 0 ((n + 29) / 30))
       ++ retry_reports failed (fst retried)
       ++ [AnalysisComplete])
      (snd retried)
      (successes outs ++ successes (fst retried))
      failed.
Proof.
  intros Hn. cbv zeta. unfold process_csv. cbv zeta.
  assert (Nat.eqb (List.length rows) 0 = false) as -> by (apply Nat.eqb_neq; exact Hn).
  rewrite batch_loop_closed_form. unfold before_batch.
  assert (Hlen : List.length outs = n) by apply outcomes_length.
  pose proof (all_rows_covered rows) as Hr. fold n in Hr.
  pose proof (all_rows_covered outs) as Ho. rewrite Hlen in Ho.
  rewrite Hr, Ho. cbn [failed_records].
  rewrite retry_fold. unfold emit, retry_reports.
  cbn [emitted state_of processed_results failed_records].
  rewrite <- !List.app_assoc. reflexivity.
Qed.




(** ** Counting the reports of a run *)




(** ** The results a batch marker prints *)


(** ** Files of 45 and of 20 rows *)



End OneRun.
End BatchLoop.


(* ===================================================================== *)
(** * Properties: key-pool dispatcher *)
(* ===================================================================== *)

Lemma try_keys_none (w : World) (b : Backend) (text language : str)
    (attempts : list nat) :
  (forall a, In a attempts -> unanswered w b a) ->
  try_keys w b text language (List.length (api_keys b)) attempts = None.
Proof.
  induction attempts as [|a later IH]; intros H; [reflexivity|].
  cbn [try_keys].
  pose proof (H a (or_introl eq_refl)) as Ha. unfold unanswered in Ha.
  destruct (pool_reply w a _) as [| |r] eqn:E.
  - apply IH. intros a' Hin. apply H. right. exact Hin.
  - apply IH. intros a' Hin. apply H. right. exact Hin.
  - exfalso. exact (Ha r eq_refl).
Qed.




Lemma never_answers_unanswered (w : World) (b : Backend) (a : nat) :
  never_answers w -> unanswered w b a.
Proof.
  intros H r. destruct (H a (Nat.modulo (current_key_index b + a)
                                         (List.length (api_keys b)))) as [-> | ->];
    discriminate.
Qed.







(* ===================================================================== *)
(** * Properties: feedback and validation *)
(* ===================================================================== *)

Lemma compare_always_valid (ai : Result) (corrected : str) :
  valid (compare_with_analysis ai corrected) = true.
Proof.
  unfold compare_with_analysis. cbv zeta.
  destruct (str_eqb corrected (sentiment ai)); cbn [negb valid].
  - reflexivity.
  - destruct (negb _ && negb _ && _); [destruct (Qlt_bool _ _)|];
      cbn [negb valid]; reflexivity.
Qed.

Lemma validate_compares (w : World) (b : Backend) (text original corrected : str)
    (ai : Result) :
  independent_analysis w b text = Some ai ->
  _validate_sentiment_correction w b text original corrected
  = compare_with_analysis ai corrected.
Proof.
  unfold independent_analysis, _validate_sentiment_correction. cbv zeta.
  destruct (key_available b).
  - destruct (validation_reply w); intros [= <-]; reflexivity.
  - intros [= <-]. reflexivity.
Qed.

Lemma startswith_app (a r : str) : startswith (a ++ r) a = true.
Proof.
  induction a as [|x a IH]; [destruct r; reflexivity|].
  simpl. rewrite N.eqb_refl. exact IH.
Qed.

Lemma distant_labels_differ (a c : str) :
  (2 < ordinal_distance a c)%Z -> str_eqb c a = false.
Proof.
  intros H. apply str_eqb_neq. intros ->. unfold ordinal_distance in H.
  rewrite Z.sub_diag in H. simpl in H. lia.
Qed.

(** Whenever the labels differ, the comparison ends with the message for a
    minor difference, whatever the distance. *)
Lemma compare_message_passed (ai : Result) (corrected : str) :
  str_eqb corrected (sentiment ai) = false ->
  startswith (reason (compare_with_analysis ai corrected))
             (py "VALIDATION PASSED with minor difference") = true.
Proof.
  intros H. unfold compare_with_analysis. cbv zeta. rewrite H. cbn [negb].
  destruct (negb _ && negb _ && _); [destruct (Qlt_bool _ _)|];
    cbn [negb valid reason];
    change (py "VALIDATION PASSED with minor difference. Your selection (")
      with (py "VALIDATION PASSED with minor difference"
            ++ py ". Your selection (");
    rewrite <- List.app_assoc; apply startswith_app.
Qed.

(** The validation fails exactly when the remote validator itself returns
    a verdict other than "valid". *)
Lemma flagged_only_by_remote_verdict (w : World) (b : Backend)
    (text original corrected : str) :
  valid (_validate_sentiment_correction w b text original corrected) = false
  <-> key_available b = true
      /\ exists validation reason explanation,
           validation_reply w = VVerdict validation reason explanation
           /\ lower validation <> py "valid".
Proof.
  unfold _validate_sentiment_correction. cbv zeta. split.
  - destruct (key_available b).
    + destruct (validation_reply w) as [|e|v r e|r|];
        rewrite ?compare_always_valid; try discriminate.
      cbn [valid]. intros H. split; [reflexivity|].
      exists v, r, e. split; [reflexivity|]. apply str_eqb_neq. exact H.
    + rewrite compare_always_valid. discriminate.
  - intros (-> & v & r & e & -> & H). cbn [valid]. apply str_eqb_neq. exact H.
Qed.

(** What [train_on_feedback] answers to a sentiment correction with a valid
    label. *)
Lemma sentiment_feedback_response (w : World) (b : Backend)
    (text original corrected location_fix disaster_fix : str) :
  has_correction text original corrected = true ->
  mem corrected (List.map sentiment_name sentiment_labels) = true ->
  let verdict := _validate_sentiment_correction w b text original corrected in
  snd (train_on_feedback w b text original corrected location_fix disaster_fix)
  = mkFeedbackResponse
      (if negb (valid verdict) then py "quiz_feedback" else py "success")
      (reason verdict)
      (Some (performance_of (improvement_factor_of w corrected verdict))).
Proof.
  intros Hc Hl. unfold train_on_feedback. cbv zeta. rewrite Hc, Hl. reflexivity.
Qed.

Lemma quiz_feedback_is_not_success : py "quiz_feedback" <> py "success".
Proof. intros E. vm_compute in E. discriminate. Qed.

(** C5, as the code has it.  For a sentiment correction with a valid label:
    when the correction is more than two ordinal steps away from the
    independent analysis and that analysis has a confidence above 0.90, the
    validation still reports the correction as valid, [train_on_feedback]
    answers with the plain status "success" and the improvement factor is
    not halved; the status "quiz_feedback", with the halved factor, is
    returned exactly when the remote validator itself gives a verdict other
    than "valid". *)
Theorem distant_correction_accepted (w : World) (b : Backend)
    (text original corrected location_fix disaster_fix : str) :
  has_correction text original corrected = true ->
  mem corrected (List.map sentiment_name sentiment_labels) = true ->
  let verdict := _validate_sentiment_correction w b text original corrected in
  let response :=
    snd (train_on_feedback w b text original corrected location_fix disaster_fix) in
  (forall ai,
      independent_analysis w b text = Some ai ->
      (2 < ordinal_distance (sentiment ai) corrected)%Z ->
      (90 # 100 < confidence ai)%Q ->
      valid verdict = true
      /\ status response = py "success"
      /\ improvement_factor_of w corrected verdict
         = base_improvement_factor w corrected
      /\ performance response
         = Some (performance_of (base_improvement_factor w corrected)))
  /\ (status response = py "quiz_feedback"
      <-> key_available b = true
          /\ exists validation reason explanation,
               validation_reply w = VVerdict validation reason explanation
               /\ lower validation <> py "valid")
  /\ (status response = py "quiz_feedback" ->
      improvement_factor_of w corrected verdict
      = (base_improvement_factor w corrected * (1 # 2))%Q).
Proof.
  intros Hc Hl verdict response.
  pose proof (sentiment_feedback_response w b text original corrected
                location_fix disaster_fix Hc Hl) as Hr.
  cbv zeta in Hr. fold verdict response in Hr.
  assert (status response = py "quiz_feedback" <-> valid verdict = false) as Hs.
  { rewrite Hr. cbn [status]. destruct (valid verdict); cbn [negb]; split;
      intros H; solve [reflexivity | discriminate H
                       | symmetry in H; destruct (quiz_feedback_is_not_success H)]. }
  split; [|split].
  - intros ai Hai Hd Hconf.
    assert (valid verdict = true) as Hvalid.
    { unfold verdict. rewrite (validate_compares _ _ _ _ _ ai Hai).
      apply compare_always_valid. }
    assert (improvement_factor_of w corrected verdict
            = base_improvement_factor w corrected) as Hf
      by (unfold improvement_factor_of; rewrite Hvalid; reflexivity).
    split; [exact Hvalid|]. rewrite Hr. cbn [status performance].
    rewrite Hvalid, Hf. repeat split.
  - rewrite Hs. apply flagged_only_by_remote_verdict.
  - intros H. apply Hs in H. unfold improvement_factor_of. rewrite H.
    reflexivity.
Qed.

(** C5 as stated fails on "TULONG! MAY SUNOG SA MAKATI!!!" corrected to
    Neutral: the rule-based analysis says Panic with 0.94, four steps away,
    and the response has status "success" with the full improvement
    factor. *)
Lemma distant_correction_reported_as_success :
  let text := py "TULONG! MAY SUNOG SA MAKATI!!!" in
  let response :=
    snd (train_on_feedback offline sample_backend text (py "Panic")
                           (py "Neutral") [] []) in
  (exists ai,
      independent_analysis offline sample_backend text = Some ai
      /\ sentiment ai = py "Panic"
      /\ confidence ai = (94 # 100)
      /\ ordinal_distance (sentiment ai) (py "Neutral") = 4%Z)
  /\ status response = py "success"
  /\ status response <> py "quiz_feedback"
  /\ improvement_factor_of offline (py "Neutral")
       (_validate_sentiment_correction offline sample_backend text (py "Panic")
                                       (py "Neutral"))
     = (1 # 1000).
Proof.
  cbv zeta. split; [|split; [|split]].
  - eexists. split; [reflexivity|]. split; [|split]; vm_compute; reflexivity.
  - vm_compute. reflexivity.
  - intros H. vm_compute in H. discriminate.
  - vm_compute. reflexivity.
Qed.

(* ===================================================================== *)
(** * Properties: location extractor, confidence, trained examples *)
(* ===================================================================== *)

Lemma first_of_filter {A} (p : A -> bool) (l : list A) (e : A) :
  In e l -> p e = true ->
  exists loc before after,
    l = before ++ loc :: after
    /\ p loc = true
    /\ (forall x, In x before -> p x = false)
    /\ List.hd_error (List.filter p l) = Some loc.
Proof.
  induction l as [|x l IH]; intros Hin He; [destruct Hin|].
  destruct (p x) eqn:Hx.
  - exists x, [], l. simpl. rewrite Hx. repeat split; auto. intros y [].
  - destruct Hin as [->|Hin]; [congruence|].
    destruct (IH Hin He) as (loc & before & after & -> & Hl & Hb & Hh).
    exists loc, (x :: before), after. simpl. rewrite Hx.
    repeat split; auto. intros y [<-|Hy]; auto.
Qed.

Lemma mem_In (x : str) (l : list str) : mem x l = true <-> In x l.
Proof.
  unfold mem. rewrite existsb_exists. split.
  - intros (y & Hy & E). apply str_eqb_eq in E. subst. exact Hy.
  - intros H. exists x. split; [exact H | apply str_eqb_refl].
Qed.

Lemma gazetteer_spelling (loc : str) :
  In loc ph_locations -> title_case loc \/ In loc untitled_entries.
Proof.
  assert (forallb (fun loc => str_eqb (title loc) loc || mem loc untitled_entries)
                  ph_locations = true) as H by (vm_compute; reflexivity).
  rewrite forallb_forall in H. intros Hin. specialize (H loc Hin).
  apply orb_prop in H as [H|H].
  - left. apply str_eqb_eq. exact H.
  - right. apply mem_In. exact H.
Qed.

(** C8, as the code has it.  When no earlier stage has matched and some
    gazetteer or province entry occurs in the text as a whole word,
    [extract_location] returns the first entry of the gazetteer, in list
    order, that occurs as a whole word, spelled as the gazetteer spells it:
    in title case, or one of the acronyms and names with a particle of
    [untitled_entries].  And "hello world" gives "UNKNOWN". *)
Theorem whole_word_location (text entry : str) :
  truthy text = true ->
  stage_upper text = None ->
  stage_emergency (lower text) = None ->
  stage_sa (lower text) = None ->
  stage_misspelling (lower text) = None ->
  In entry ph_locations ->
  whole_word_match (lower text) entry = true ->
  (exists before after,
      ph_locations = before ++ extract_location text :: after
      /\ forall x, In x before -> whole_word_match (lower text) x = false)
  /\ whole_word_match (lower text) (extract_location text) = true
  /\ (title_case (extract_location text)
      \/ In (extract_location text) untitled_entries)
  /\ extract_location (py "hello world") = py "UNKNOWN".
Proof.
  intros Ht H1 H2 H3 H4 Hin Hm.
  destruct (first_of_filter (whole_word_match (lower text)) ph_locations entry
              Hin Hm) as (loc & before & after & Hsplit & Hloc & Hbefore & Hhd).
  assert (extract_location text = loc) as ->.
  { unfold extract_location. rewrite Ht. cbn [negb]. cbv zeta.
    rewrite H1, H2, H3, H4. unfold stage_whole_word. rewrite Hhd.
    reflexivity. }
  split; [exists before, after; split; assumption|].
  split; [exact Hloc|]. split.
  - apply gazetteer_spelling. rewrite Hsplit. apply List.in_elt.
  - vm_compute. reflexivity.
Qed.

(** C8 as stated fails on "cebu ncr": no earlier stage matches, the entry
    "Cebu" occurs as a whole word, and the result is "NCR", which is
    neither that entry nor in title case. *)
Lemma first_listed_entry_wins :
  let text := py "cebu ncr" in
  truthy text = true
  /\ stage_upper text = None
  /\ stage_emergency (lower text) = None
  /\ stage_sa (lower text) = None
  /\ stage_misspelling (lower text) = None
  /\ In (py "Cebu") ph_locations
  /\ whole_word_match (lower text) (py "Cebu") = true
  /\ extract_location text = py "NCR"
  /\ py "NCR" <> py "Cebu"
  /\ title (py "NCR") = py "Ncr"
  /\ title (py "NCR") <> py "NCR".
Proof.
  cbv zeta. repeat split; try (vm_compute; reflexivity).
  - apply mem_In. vm_compute. reflexivity.
  - intros H. vm_compute in H. discriminate.
  - intros H. vm_compute in H. discriminate.
Qed.

(** Rounding leaves a number of hundredths alone. *)
Lemma round2_hundredths (n : Z) : round2 (n # 100) = (n # 100).
Proof.
  unfold round2. cbn [Qnum Qden].
  rewrite Z.div_mul by lia. rewrite Z.mod_mul by lia. reflexivity.
Qed.

(** The scored confidence is exactly (70 + 3 max_score) / 100. *)
Lemma score_confidence_value (max_score : Z) :
  max_score <> 0%Z ->
  score_confidence max_score = ((70 + 3 * max_score)%Z # 100).
Proof.
  intros H. unfold score_confidence.
  destruct (Z.eqb_spec max_score 0) as [E|_]; [contradiction|].
  unfold round2, Qplus, Qmult, inject_Z. cbn [Qnum Qden].
  change (Z.pos (1 * 100)) with 100%Z.
  change (Z.pos (100 * (1 * 100))) with 10000%Z.
  replace ((70 * 100 + max_score * 3 * 100) * 100)%Z
    with ((70 + 3 * max_score) * 10000)%Z by lia.
  rewrite Z.div_mul by lia. rewrite Z.mod_mul by lia. reflexivity.
Qed.

(** From a score of 11 on, the scored confidence is above 1. *)
Lemma score_confidence_unbounded (max_score : Z) :
  (11 <= max_score)%Z -> (1 < score_confidence max_score)%Q.
Proof.
  intros H. rewrite score_confidence_value by lia.
  unfold Qlt. cbn [Qnum Qden]. lia.
Qed.

(** C1.  The confidence is meant to lie in [0,1]; on a text with six panic
    phrases the rule-based score is 15 and the confidence 0.70 + 0.03 * 15
    = 1.15, which [analyze_sentiment] returns when the remote service is
    unreachable. *)
Theorem rule_based_confidence_exceeds_one :
  let text := py "saklolo trapped naiipit nakulong stranded missing" in
  sscores_max (sentiment_scores text) = 15%Z
  /\ sentiment (_rule_based_sentiment_analysis text (py "English")) = py "Panic"
  /\ confidence (_rule_based_sentiment_analysis text (py "English")) = (115 # 100)
  /\ (exists r,
        analyze_sentiment offline sample_backend true text
        = (sample_backend, Classified r)
        /\ confidence r = (115 # 100))
  /\ (1 < 115 # 100)%Q.
Proof.
  cbv zeta. split; [vm_compute; reflexivity|].
  split; [vm_compute; reflexivity|]. split; [vm_compute; reflexivity|].
  split.
  - eexists. split; [vm_compute; reflexivity|]. reflexivity.
  - reflexivity.
Qed.

Lemma sentiment_feedback_leaves_backend (w : World) (b : Backend)
    (text original corrected location_fix disaster_fix : str) :
  has_correction text original corrected = true ->
  fst (train_on_feedback w b text original corrected location_fix disaster_fix)
  = b.
Proof.
  intros H. unfold train_on_feedback. cbv zeta. rewrite H. cbn [orb negb andb].
  destruct (mem corrected _); reflexivity.
Qed.

(** C2.  A sentiment correction is meant to be stored and then returned for
    the same text; [train_on_feedback] answers "success" without storing
    it, and the next [analyze_sentiment] on the text goes to the remote
    service and returns its label. *)
Theorem sentiment_feedback_is_not_recorded :
  let text := py "Ang lakas ng ulan dito" in
  let fed :=
    train_on_feedback offline sample_backend text (py "Neutral")
                      (py "Fear/Anxiety") [] [] in
  status (snd fed) = py "success"
  /\ trained_examples (fst fed) !! joined_words text = None
  /\ exists b r,
       analyze_sentiment (answering (labelled "Resilience" (8 # 10))) (fst fed)
                         true text
       = (b, Classified r)
       /\ sentiment r = py "Resilience"
       /\ sentiment r <> py "Fear/Anxiety"
       /\ key_success_count b !! 0%nat = Some 1%nat.
Proof.
  cbv zeta. split; [vm_compute; reflexivity|].
  split; [vm_compute; reflexivity|].
  eexists. eexists. split; [vm_compute; reflexivity|].
  split; [reflexivity|]. split; [|vm_compute; reflexivity].
  intros H. vm_compute in H. discriminate.
Qed.

(* ===================================================================== *)
(** * The worked examples of the specification *)
(* ===================================================================== *)

Example may_sunog_is_neutral_fire_unknown :
  sentiment (_rule_based_sentiment_analysis (py "may sunog") (py "Filipino"))
  = py "Neutral"
  /\ extract_disaster_type (py "may sunog") = py "Fire"
  /\ extract_location (py "may sunog") = py "UNKNOWN".
Proof. repeat split; vm_compute; reflexivity. Qed.

Example tulong_makati_is_panic_fire_makati :
  sentiment (_rule_based_sentiment_analysis
               (py "TULONG! MAY SUNOG SA MAKATI!!!") (py "Filipino"))
  = py "Panic"
  /\ extract_disaster_type (py "TULONG! MAY SUNOG SA MAKATI!!!") = py "Fire"
  /\ extract_location (py "TULONG! MAY SUNOG SA MAKATI!!!") = py "Makati".
Proof. repeat split; vm_compute; reflexivity. Qed.

Example empty_text_is_not_specified :
  extract_disaster_type [] = py "Not Specified".
Proof. reflexivity. Qed.

Example tie_goes_to_typhoon :
  List.map (disaster_scores (py "baha at bagyo")) disaster_keys
  = [0; 2; 2; 0; 0; 0]%Q
  /\ extract_disaster_type (py "baha at bagyo") = py "Typhoon".
Proof. split; vm_compute; reflexivity. Qed.

Example location_only_feedback_is_stored :
  trained_examples
    (fst (train_on_feedback offline sample_backend (py "Baha sa amin!")
                            [] [] (py "Marikina") []))
    !! py "baha sa amin"
  = Some [].
Proof. vm_compute. reflexivity. Qed.

(* ===================================================================== *)
(** * Instances of the theorems *)
(* ===================================================================== *)

Lemma empty_text_sentinel_witness :
  whitespace_only (py "   ") = true
  /\ analyze_sentiment offline sample_backend false (py "   ")
     = (sample_backend,
        Classified
          (mkResult (py "Neutral") (82 # 100) (py "No text provided")
                    (Some (py "UNKNOWN")) (Some (py "UNKNOWN"))
                    (Some (py "English")))).
Proof.
  split; [reflexivity|].
  exact (proj1 (empty_text_sentinel offline sample_backend false (py "   ")
                                    eq_refl)).
Defined.

Lemma short_statement_neutral_witness :
  (token_count (py "kumusta kayo") <= 3)%nat
  /\ contains_emotion (py "kumusta kayo") = false
  /\ sentiment (_rule_based_sentiment_analysis (py "kumusta kayo") (py "Filipino"))
     = py "Neutral"
  /\ confidence (_rule_based_sentiment_analysis (py "kumusta kayo") (py "Filipino"))
     = (90 # 100).
Proof.
  assert ((token_count (py "kumusta kayo") <= 3)%nat) as Hn by (vm_compute; lia).
  assert (contains_emotion (py "kumusta kayo") = false) as He by reflexivity.
  split; [exact Hn|]. split; [exact He|].
  exact (short_statement_neutral (py "kumusta kayo") (py "Filipino") Hn He).
Defined.

Lemma descriptive_text_never_fear_witness :
  descriptive_without_emotion (py "may sunog") = true
  /\ sentiment (_rule_based_sentiment_analysis (py "may sunog") (py "Filipino"))
     = py "Neutral"
  /\ sentiment
       (snd (get_api_sentiment_analysis
               (answering (labelled "Fear/Anxiety" (9 # 10))) sample_backend
               (py "may sunog") (py "Filipino")))
     <> py "Fear/Anxiety".
Proof.
  split; [reflexivity|].
  destruct (descriptive_text_never_fear (py "may sunog") eq_refl)
    as (H1 & _ & H3 & _).
  split; [apply H1 | apply H3].
Defined.

Lemma extract_disaster_type_spec_witness :
  extract_disaster_type (py "   ") = py "Not Specified"
  /\ extract_disaster_type (py "hello world") = py "UNKNOWN"
  /\ exists d,
       extract_disaster_type (py "baha at bagyo") = disaster_name d
       /\ priority_rank d = 0%nat.
Proof.
  split; [exact (proj1 (extract_disaster_type_spec (py "   ")) eq_refl)|].
  split.
  - apply (proj1 (proj2 (extract_disaster_type_spec (py "hello world"))));
      [reflexivity | vm_compute; reflexivity].
  - destruct (proj2 (proj2 (extract_disaster_type_spec (py "baha at bagyo"))))
      as (d & Hd & _ & _ & Hfirst).
    + reflexivity.
    + intros H. vm_compute in H. discriminate.
    + exists d. split; [exact Hd|].
      assert (priority_rank d <= priority_rank Typhoon)%nat as Hr
        by (apply Hfirst; vm_compute; reflexivity).
      simpl in Hr. lia.
Defined.



Lemma distant_correction_accepted_witness :
  let text := py "TULONG! MAY SUNOG SA MAKATI!!!" in
  let ai := _rule_based_sentiment_analysis text (py "English") in
  independent_analysis offline sample_backend text = Some ai
  /\ (2 < ordinal_distance (sentiment ai) (py "Neutral"))%Z
  /\ (90 # 100 < confidence ai)%Q
  /\ status (snd (train_on_feedback offline sample_backend text (py "Panic")
                                    (py "Neutral") [] []))
     = py "success".
Proof.
  cbv zeta.
  assert (independent_analysis offline sample_backend
            (py "TULONG! MAY SUNOG SA MAKATI!!!")
          = Some (_rule_based_sentiment_analysis
                    (py "TULONG! MAY SUNOG SA MAKATI!!!") (py "English"))) as Hai
    by reflexivity.
  assert (2 < ordinal_distance
                (sentiment (_rule_based_sentiment_analysis
                              (py "TULONG! MAY SUNOG SA MAKATI!!!") (py "English")))
                (py "Neutral"))%Z as Hd by (vm_compute; reflexivity).
  assert (90 # 100 < confidence (_rule_based_sentiment_analysis
                                   (py "TULONG! MAY SUNOG SA MAKATI!!!")
                                   (py "English")))%Q as Hc
    by (vm_compute; reflexivity).
  split; [exact Hai|]. split; [exact Hd|]. split; [exact Hc|].
  destruct (distant_correction_accepted offline sample_backend
              (py "TULONG! MAY SUNOG SA MAKATI!!!") (py "Panic") (py "Neutral")
              [] [] eq_refl eq_refl) as (Hfar & _).
  destruct (Hfar _ Hai Hd Hc) as (_ & Hs & _).
  exact Hs.
Defined.

Lemma whole_word_location_witness :
  In (py "Cebu") ph_locations
  /\ whole_word_match (lower (py "baha sa cebu")) (py "Cebu") = true
  /\ whole_word_match (lower (py "baha sa cebu"))
                      (extract_location (py "baha sa cebu")) = true.
Proof.
  assert (In (py "Cebu") ph_locations) as Hin
    by (apply mem_In; vm_compute; reflexivity).
  split; [exact Hin|]. split; [reflexivity|].
  destruct (whole_word_location (py "baha sa cebu") (py "Cebu")
              eq_refl eq_refl eq_refl eq_refl eq_refl Hin eq_refl)
    as (_ & H & _).
  exact H.
Defined.

(* ===================================================================== *)
(** * Properties: the range of the rule-based classifier *)
(* ===================================================================== *)

Lemma sscores_add_nonnegative (k : Sentiment) (n : Z) (s : sscores) :
  (0 <= n)%Z -> nonnegative s -> nonnegative (sscores_add k n s).
Proof.
  intros Hn Hs k'. unfold sscores_add. specialize (Hs k').
  destruct (Sentiment_eqb k k'); lia.
Qed.

Lemma sscores_set_nonnegative (k : Sentiment) (n : Z) (s : sscores) :
  (0 <= n)%Z -> nonnegative s -> nonnegative (sscores_set k n s).
Proof.
  intros Hn Hs k'. unfold sscores_set. specialize (Hs k').
  destruct (Sentiment_eqb k k'); lia.
Qed.

Lemma fold_nonnegative {A} (f : sscores -> A -> sscores) (l : list A) :
  (forall s a, nonnegative s -> nonnegative (f s a)) ->
  forall s, nonnegative s -> nonnegative (List.fold_left f l s).
Proof.
  intros Hf. induction l as [|a l IH]; intros s Hs; simpl; auto.
Qed.

Lemma keyword_scores_nonnegative (text_lower : str) (s : sscores) :
  nonnegative s -> nonnegative (keyword_scores text_lower s).
Proof.
  unfold keyword_scores. apply fold_nonnegative. intros s0 e.
  apply fold_nonnegative. intros s1 keyword H.
  destruct (contains keyword text_lower); auto.
  apply sscores_add_nonnegative; [lia | exact H].
Qed.

Lemma resilience_nudge_nonnegative (text_lower : str) (s : sscores) :
  nonnegative s -> nonnegative (resilience_nudge text_lower s).
Proof.
  unfold resilience_nudge. apply fold_nonnegative. intros s0 phrase H.
  destruct (contains phrase text_lower); auto.
  assert (H2 : nonnegative (sscores_add Resilience 2 s0))
    by (apply sscores_add_nonnegative; [lia | exact H]).
  destruct (0 <? sscores_add Resilience 2 s0 Panic)%Z eqn:E; auto.
  apply Z.ltb_lt in E. intros k. specialize (H2 k).
  unfold sscores_add at 1. destruct (Sentiment_eqb Panic k) eqn:Ek; [|exact H2].
  destruct k; try discriminate Ek. lia.
Qed.

Lemma sentiment_scores_nonnegative (text : str) :
  nonnegative (sentiment_scores text).
Proof.
  unfold sentiment_scores.
  assert (H0 : nonnegative (fun _ => 0%Z)) by (intros k; lia).
  apply (keyword_scores_nonnegative (lower text)) in H0.
  assert (H1 : nonnegative (laughter_nudge (lower text)
                              (keyword_scores (lower text) (fun _ => 0%Z)))).
  { unfold laughter_nudge. destruct (_ && _); auto.
    apply sscores_add_nonnegative; [lia | exact H0]. }
  apply (resilience_nudge_nonnegative (lower text)) in H1.
  set (s2 := resilience_nudge _ _) in *.
  assert (H3 : nonnegative (tulong_nudge (lower text) s2)).
  { unfold tulong_nudge. destruct (_ && _); auto.
    apply sscores_add_nonnegative; [lia | exact H1]. }
  set (s3 := tulong_nudge _ _) in *.
  assert (H4 : nonnegative (simple_statement_override (lower text) s3)).
  { unfold simple_statement_override.
    destruct (any_in _ _); auto. destruct (_ <=? _)%Z; auto.
    repeat (apply sscores_set_nonnegative; [lia|]). exact H3. }
  set (s4 := simple_statement_override _ _) in *.
  assert (H5 : nonnegative (panic_phrase_scores (lower text) s4)).
  { unfold panic_phrase_scores. apply fold_nonnegative; auto.
    intros s0 phrase H. destruct (contains _ _); auto.
    apply sscores_add_nonnegative; [lia | exact H]. }
  set (s5 := panic_phrase_scores _ _) in *.
  assert (H6 : nonnegative (exclamation_nudge text s5)).
  { unfold exclamation_nudge. destruct (contains _ text); auto.
    apply fold_nonnegative; auto. intros s0 phrase H.
    repeat match goal with
           | |- nonnegative (if ?c then _ else _) => destruct c
           | |- nonnegative (sscores_add _ _ _) =>
               apply sscores_add_nonnegative; [lia|]
           end; exact H. }
  set (s6 := exclamation_nudge _ _) in *.
  assert (H7 : nonnegative (question_nudge text s6)).
  { unfold question_nudge. destruct (contains _ text); auto.
    apply fold_nonnegative; auto. intros s0 phrase H.
    repeat match goal with
           | |- nonnegative (if ?c then _ else _) => destruct c
           | |- nonnegative (sscores_add _ _ _) =>
               apply sscores_add_nonnegative; [lia|]
           end; exact H. }
  set (s7 := question_nudge _ _) in *.
  unfold caps_nudge.
  repeat match goal with
         | |- nonnegative (if ?c then _ else _) => destruct c
         | |- nonnegative (sscores_add _ _ _) =>
             apply sscores_add_nonnegative; [lia|]
         end; exact H7.
Qed.

Lemma sscores_max_upper (s : sscores) (k : Sentiment) : (s k <= sscores_max s)%Z.
Proof.
  unfold sscores_max, sentiment_labels. cbn [List.map List.fold_left].
  destruct k; lia.
Qed.

Lemma verdict_well_formed (s : Sentiment) (n : Z) (why : string) :
  (73 <= n)%Z -> well_formed (verdict s (n # 100) why).
Proof.
  intros Hn. unfold well_formed, verdict. cbn [sentiment confidence Qden].
  split; [|split; [reflexivity|]].
  - apply in_map. destruct s; cbn; tauto.
  - unfold Qle. cbn. lia.
Qed.

Lemma conclude_well_formed (text : str) (max_score : Z) (chosen : option Sentiment) :
  (1 <= max_score)%Z -> well_formed (conclude text max_score chosen).
Proof.
  intros H. unfold conclude.
  rewrite score_confidence_value by lia.
  apply verdict_well_formed. lia.
Qed.

Lemma scored_well_formed (text : str) : well_formed (scored text).
Proof.
  unfold scored.
  destruct (sscores_max (sentiment_scores text) =? 0)%Z eqn:E.
  { apply verdict_well_formed. lia. }
  apply Z.eqb_neq in E.
  assert (H : (1 <= sscores_max (sentiment_scores text))%Z).
  { pose proof (sentiment_scores_nonnegative text Neutral).
    pose proof (sscores_max_upper (sentiment_scores text) Neutral). lia. }
  repeat match goal with
         | |- well_formed (if ?c then _ else _) => destruct c
         | |- well_formed (conclude _ _ _) => apply conclude_well_formed; exact H
         | |- well_formed (verdict _ (_ # 100) _) => apply verdict_well_formed; lia
         end.
Qed.

Lemma rule_based_result (text language : str) :
  well_formed (_rule_based_sentiment_analysis text language).
Proof.
  unfold _rule_based_sentiment_analysis.
  destruct (_ && _). { apply verdict_well_formed. lia. }
  destruct (_ && _). { apply verdict_well_formed. lia. }
  destruct (special_patterns text) as [r|] eqn:E; [|apply scored_well_formed].
  unfold special_patterns in E.
  repeat match type of E with
         | (if ?c then _ else _) = _ => destruct c
         end;
    try discriminate E; injection E as <-; apply verdict_well_formed; lia.
Qed.

(** X1.  Whatever the text, the rule-based classifier returns one of the
    five labels, with a confidence that is a whole number of hundredths and
    is at least 0.73. *)
Theorem rule_based_well_formed (text language : str) :
  well_formed (_rule_based_sentiment_analysis text language).
Proof.
  unfold _rule_based_sentiment_analysis.
  destruct (_ && _). { apply verdict_well_formed. lia. }
  destruct (_ && _). { apply verdict_well_formed. lia. }
  destruct (special_patterns text) as [r|] eqn:E; [|apply scored_well_formed].
  unfold special_patterns in E.
  repeat match type of E with
         | (if ?c then _ else _) = _ => destruct c
         end;
    try discriminate E; injection E as <-; apply verdict_well_formed; lia.
Qed.

(* ===================================================================== *)
(** * Properties: what a pool call does to the backend *)
(* ===================================================================== *)

Lemma with_confidence_same (r : Result) : with_confidence r (confidence r) = r.
Proof. destruct r; reflexivity. Qed.

Lemma round2_well_formed (r : Result) :
  well_formed r -> round2 (confidence r) = confidence r.
Proof.
  intros (_ & Hden & _). destruct (confidence r) as [n d]. cbn in Hden.
  subst d. apply round2_hundredths.
Qed.

(** X2.  Without credentials, and also when no attempt of the call is
    answered, the backend is left as it was and the label, the confidence
    and the explanation are those of the rule-based classifier; the
    rounding to two decimals changes nothing. *)
Theorem fallback_is_rule_based (w : World) (b : Backend) (text language : str) :
  api_keys b = [] \/ never_answers w ->
  let out := get_api_sentiment_analysis w b text language in
  let rule_based := _rule_based_sentiment_analysis text language in
  fst out = b
  /\ sentiment (snd out) = sentiment rule_based
  /\ confidence (snd out) = confidence rule_based
  /\ explanation (snd out) = explanation rule_based.
Proof.
  intros H. cbv zeta.
  pose proof (round2_well_formed _ (rule_based_result text language)) as R.
  unfold get_api_sentiment_analysis.
  destruct (Nat.eqb (List.length (api_keys b)) 0) eqn:E.
  - cbn [fst snd]. rewrite R, with_confidence_same. auto.
  - destruct H as [H|H].
    { rewrite H in E. discriminate E. }
    rewrite try_keys_none.
    + cbn [fst snd sentiment confidence explanation]. auto.
    + intros a _. apply never_answers_unanswered. exact H.
Qed.

Lemma fallback_is_rule_based_witness :
  never_answers offline
  /\ fst (get_api_sentiment_analysis offline sample_backend
            (py "may sunog sa tondo") (py "Filipino")) = sample_backend.
Proof.
  assert (H : never_answers offline) by (intros a k; right; reflexivity).
  split; [exact H|].
  apply (fallback_is_rule_based offline sample_backend
           (py "may sunog sa tondo") (py "Filipino") (or_intror H)).
Defined.

Lemma try_keys_agree (w w' : World) (b : Backend) (text language : str)
    (attempts : list nat) :
  (forall a, In a attempts ->
             pool_reply w a (key_of_attempt b a)
             = pool_reply w' a (key_of_attempt b a)) ->
  try_keys w b text language (List.length (api_keys b)) attempts
  = try_keys w' b text language (List.length (api_keys b)) attempts.
Proof.
  induction attempts as [|a later IH]; intros H; [reflexivity|].
  cbn [try_keys]. unfold key_of_attempt in H.
  rewrite <- (H a (or_introl eq_refl)).
  destruct (pool_reply w a _); try reflexivity;
    apply IH; intros a' Hin; apply H; right; exact Hin.
Qed.

Lemma shifted_keys_differ (p i j m : nat) :
  (i < j)%nat -> (j - i < m)%nat ->
  Nat.modulo (p + i) m <> Nat.modulo (p + j) m.
Proof.
  intros Hij Hm E.
  pose proof (Nat.div_mod_eq (p + i) m) as Hi.
  pose proof (Nat.div_mod_eq (p + j) m) as Hj.
  rewrite E in Hi.
  set (qi := Nat.div (p + i) m) in *. set (qj := Nat.div (p + j) m) in *.
  assert (H : (m * qj = m * qi + (j - i))%nat) by lia.
  destruct (Nat.le_gt_cases qj qi) as [L|L].
  - pose proof (Nat.mul_le_mono_l _ _ m L). lia.
  - pose proof (Nat.mul_le_mono_l _ _ m L). lia.
Qed.

Lemma attempted_keys_distinct (b : Backend) : List.NoDup (attempted_keys b).
Proof.
  unfold attempted_keys, key_of_attempt.
  set (n := List.length (api_keys b)). set (p := current_key_index b).
  destruct n as [|[|[|n]]].
  - constructor.
  - cbn [Nat.min List.seq List.map]. constructor; [intros [] | constructor].
  - cbn [Nat.min List.seq List.map].
    pose proof (shifted_keys_differ p 0 1 2 ltac:(lia) ltac:(lia)).
    constructor; [cbn [In]; intuition | constructor; [intros [] | constructor]].
  - cbn [Nat.min List.seq List.map].
    set (m := S (S (S n))).
    assert (Hm : (3 <= m)%nat) by (unfold m; lia).
    pose proof (shifted_keys_differ p 0 1 m ltac:(lia) ltac:(lia)).
    pose proof (shifted_keys_differ p 0 2 m ltac:(lia) ltac:(lia)).
    pose proof (shifted_keys_differ p 1 2 m ltac:(lia) ltac:(lia)).
    constructor; [cbn [In]; intuition |].
    constructor; [cbn [In]; intuition |].
    constructor; [intros [] | constructor].
Qed.

(** X3.  A pool call sends at most three requests, to at most
    [min(3, N)] keys that are pairwise distinct: its outcome depends on
    the service only through the replies to attempt [a] with key
    [(current + a) mod N], for [a < min(3, N)]. *)
Theorem attempts_bounded (w w' : World) (b : Backend) (text language : str) :
  (forall a, (a < Nat.min 3 (List.length (api_keys b)))%nat ->
             pool_reply w a (key_of_attempt b a)
             = pool_reply w' a (key_of_attempt b a)) ->
  get_api_sentiment_analysis w b text language
  = get_api_sentiment_analysis w' b text language
  /\ List.NoDup (attempted_keys b)
  /\ (List.length (attempted_keys b) <= 3)%nat.
Proof.
  intros H. split; [|split].
  - unfold get_api_sentiment_analysis.
    destruct (Nat.eqb (List.length (api_keys b)) 0); [reflexivity|].
    rewrite (try_keys_agree w w').
    + reflexivity.
    + intros a Hin. apply H. apply List.in_seq in Hin. lia.
  - apply attempted_keys_distinct.
  - unfold attempted_keys. rewrite List.length_map, List.length_seq. lia.
Qed.

Lemma attempts_bounded_witness :
  get_api_sentiment_analysis (answering (labelled "Panic" (9 # 10))) sample_backend
    (py "tulong") (py "Filipino")
  = get_api_sentiment_analysis
      (mkWorld (fun _ => None) (fun _ => None) Failed
               (fun a _ => if Nat.ltb a 3 then Answer (labelled "Panic" (9 # 10))
                           else Failed)
               VFailed (fun lo _ => lo))
      sample_backend (py "tulong") (py "Filipino").
Proof.
  apply (attempts_bounded (answering (labelled "Panic" (9 # 10))) _ sample_backend).
  intros a Ha. cbn [pool_reply answering].
  change (List.length (api_keys sample_backend)) with 3%nat in Ha.
  cbn [Nat.min] in Ha.
  destruct a as [|[|[|a]]]; try reflexivity. lia.
Defined.

Lemma try_keys_outcome (w : World) (b : Backend) (text language : str)
    (attempts : list nat) (out : Backend * Result) :
  try_keys w b text language (List.length (api_keys b)) attempts = Some out ->
  exists a, In a attempts /\ fst out = success_recorded b (key_of_attempt b a).
Proof.
  induction attempts as [|a later IH]; intros H; [discriminate H|].
  cbn [try_keys] in H.
  destruct (pool_reply w a _) as [| |r].
  - destruct (IH H) as (a' & Hin & E). exists a'. split; [right|]; assumption.
  - destruct (IH H) as (a' & Hin & E). exists a'. split; [right|]; assumption.
  - injection H as <-. exists a. split; [left; reflexivity|]. reflexivity.
Qed.

Lemma pool_call_outcome (w : World) (b : Backend) (text language : str) :
  let b' := fst (get_api_sentiment_analysis w b text language) in
  b' = b
  \/ exists k, In k (attempted_keys b)
               /\ (k < List.length (api_keys b))%nat
               /\ b' = success_recorded b k.
Proof.
  cbv zeta. unfold get_api_sentiment_analysis.
  destruct (Nat.eqb (List.length (api_keys b)) 0) eqn:E; [left; reflexivity|].
  apply Nat.eqb_neq in E.
  destruct (try_keys w b text language _ _) as [out|] eqn:T; [|left; reflexivity].
  right. destruct (try_keys_outcome _ _ _ _ _ _ T) as (a & Hin & Hout).
  exists (key_of_attempt b a). split; [|split].
  - unfold attempted_keys. apply in_map. exact Hin.
  - unfold key_of_attempt. apply Nat.mod_upper_bound. exact E.
  - exact Hout.
Qed.

Lemma success_recorded_keeps (b : Backend) (k : nat) :
  api_keys (success_recorded b k) = api_keys b
  /\ groq_api_keys (success_recorded b k) = groq_api_keys b
  /\ validation_api_key (success_recorded b k) = validation_api_key b
  /\ examples (success_recorded b k) = examples b.
Proof. repeat split. Qed.

Lemma get_api_keeps (w : World) (b : Backend) (text language : str) :
  let b' := fst (get_api_sentiment_analysis w b text language) in
  api_keys b' = api_keys b
  /\ groq_api_keys b' = groq_api_keys b
  /\ validation_api_key b' = validation_api_key b
  /\ examples b' = examples b.
Proof.
  cbv zeta. destruct (pool_call_outcome w b text language) as [-> | (k & _ & _ & ->)].
  - auto.
  - apply success_recorded_keeps.
Qed.

(** X4.  A pool call either leaves the backend as it was, or records one
    success: for one of the keys it may use, the success counter of that
    key goes up by one and the pointer moves to the index after it; the
    keys themselves, the other counters and the three example dictionaries
    are never touched. *)
Theorem dispatch_outcome (w : World) (b : Backend) (text language : str) :
  let b' := fst (get_api_sentiment_analysis w b text language) in
  b' = b
  \/ exists k, In k (attempted_keys b)
               /\ (k < List.length (api_keys b))%nat
               /\ b' = success_recorded b k
               /\ api_keys b' = api_keys b
               /\ examples b' = examples b.
Proof.
  cbv zeta.
  destruct (pool_call_outcome w b text language) as [H | (k & H1 & H2 & H3)].
  - left. exact H.
  - right. exists k. rewrite H3. repeat split; assumption.
Qed.

(* ===================================================================== *)
(** * Properties: feedback, the trained examples and the entry point *)
(* ===================================================================== *)

Lemma feedback_without_fixes_leaves_backend (w : World) (b : Backend)
    (text original corrected : str) :
  fst (train_on_feedback w b text original corrected [] []) = b.
Proof.
  destruct (has_correction text original corrected) eqn:H.
  - apply sentiment_feedback_leaves_backend. exact H.
  - unfold train_on_feedback. cbv zeta. rewrite H.
    cbn [truthy List.length Nat.eqb negb andb orb].
    rewrite !andb_false_r. reflexivity.
Qed.

(** X5.  [analyze_sentiment] never learns: whatever the text, also when it
    is a feedback request, the three example dictionaries and the
    credentials are after the call what they were before it. *)
Theorem analyze_never_trains (w : World) (b : Backend) (from_process_csv : bool)
    (text : str) :
  let b' := fst (analyze_sentiment w b from_process_csv text) in
  examples b' = examples b /\ api_keys b' = api_keys b.
Proof.
  cbv zeta. unfold analyze_sentiment.
  destruct (_ || _); [auto|].
  destruct (feedback_request w text) as [[[ot os] cs]|].
  - pose proof (feedback_without_fixes_leaves_backend w b ot os cs) as H.
    destruct (train_on_feedback w b ot os cs [] []) as [b' r].
    cbn [fst] in *. subst b'. auto.
  - destruct (trained_examples b !! joined_words text); [auto|].
    destruct (if negb from_process_csv then _ else _); [auto|].
    pose proof (get_api_keeps w b text (detect_language w text)) as H.
    cbv zeta in H.
    destruct (get_api_sentiment_analysis w b text (detect_language w text))
      as [b' r].
    cbn [fst] in *. tauto.
Qed.

(** X6.  The round trip the code has.  Feedback that corrects only the
    location or the disaster type stores the sentiment the model had
    given; from then on every text with the same lowercase word sequence
    is answered from the trained examples: that sentiment, confidence
    0.88, disaster type and location from the extractors (the corrected
    location is not consulted), and the backend untouched, so no request
    is sent. *)
Theorem location_feedback_round_trip (w w' : World) (b : Backend)
    (original_text original_sentiment corrected_sentiment
       corrected_location corrected_disaster_type text : str)
    (from_process_csv : bool) :
  truthy original_text = true ->
  has_correction original_text original_sentiment corrected_sentiment = false ->
  truthy corrected_location || truthy corrected_disaster_type = true ->
  whitespace_only text = false ->
  feedback_request w' text = None ->
  joined_words text = joined_words original_text ->
  let b1 := fst (train_on_feedback w b original_text original_sentiment
                   corrected_sentiment corrected_location
                   corrected_disaster_type) in
  exists r,
    analyze_sentiment w' b1 from_process_csv text = (b1, Classified r)
    /\ sentiment r = original_sentiment
    /\ confidence r = (88 # 100)%Q
    /\ disasterType r = Some (extract_disaster_type text)
    /\ location r = Some (extract_location text).
Proof.
  intros Ht Hs Hfix Hblank Hfb Hkey. cbv zeta.
  unfold train_on_feedback. cbv zeta. rewrite Hs, Ht.
  cbn [andb orb]. rewrite Hfix. cbn [negb fst].
  unfold analyze_sentiment. rewrite (nonblank_guard text Hblank), Hfb.
  unfold _update_training_data at 1.
  cbn [trained_examples set_examples].
  rewrite Hkey. unfold joined_words at 1.
  rewrite lookup_insert_eq.
  eexists. split; [reflexivity|].
  cbn [sentiment confidence disasterType location]. auto.
Qed.

Lemma location_feedback_round_trip_witness :
  exists r,
    analyze_sentiment offline
      (fst (train_on_feedback offline sample_backend (py "Baha sa amin!")
              (py "Panic") [] (py "Marikina") []))
      false (py "BAHA... sa AMIN")
    = (fst (train_on_feedback offline sample_backend (py "Baha sa amin!")
              (py "Panic") [] (py "Marikina") []),
       Classified r)
    /\ sentiment r = py "Panic"
    /\ confidence r = (88 # 100)%Q
    /\ disasterType r = Some (extract_disaster_type (py "BAHA... sa AMIN"))
    /\ location r = Some (extract_location (py "BAHA... sa AMIN")).
Proof.
  apply (location_feedback_round_trip offline offline sample_backend
           (py "Baha sa amin!") (py "Panic") [] (py "Marikina") []
           (py "BAHA... sa AMIN") false);
    vm_compute; reflexivity.
Defined.

(** X7.  Feedback is refused, with status "error", no performance figures
    and the backend untouched, when the original text is empty, whatever
    else is given; and when a sentiment correction names no known label,
    even if a location or disaster-type correction comes with it. *)
Theorem feedback_rejected (w : World) (b : Backend)
    (original_text original_sentiment corrected_sentiment
       corrected_location corrected_disaster_type : str) :
  truthy original_text = false
  \/ (has_correction original_text original_sentiment corrected_sentiment = true
      /\ mem corrected_sentiment (List.map sentiment_name sentiment_labels)
         = false) ->
  let out := train_on_feedback w b original_text original_sentiment
               corrected_sentiment corrected_location
               corrected_disaster_type in
  fst out = b
  /\ status (snd out) = py "error"
  /\ performance (snd out) = None
  /\ message (snd out)
     = (if truthy original_text then py "Invalid sentiment label"
        else py "No valid corrections provided").
Proof.
  intros [H | [H1 H2]]; cbv zeta; unfold train_on_feedback; cbv zeta.
  - unfold has_correction. rewrite H. cbn [andb orb negb fst snd]. auto.
  - rewrite H1, H2. cbn [andb orb negb fst snd].
    unfold has_correction in H1.
    destruct (truthy original_text); [auto | discriminate H1].
Qed.

Lemma feedback_rejected_witness :
  fst (train_on_feedback offline sample_backend (py "baha sa amin")
         (py "Neutral") (py "Scared") (py "Marikina") [])
  = sample_backend
  /\ status (snd (train_on_feedback offline sample_backend (py "baha sa amin")
                    (py "Neutral") (py "Scared") (py "Marikina") []))
     = py "error".
Proof.
  destruct (feedback_rejected offline sample_backend (py "baha sa amin")
              (py "Neutral") (py "Scared") (py "Marikina") [])
    as (H1 & H2 & _).
  - right. split; vm_compute; reflexivity.
  - split; [exact H1 | exact H2].
Defined.

(** X8.  Through [main], feedback never reaches the trained examples.
    [main] asks for the original sentiment with every kind of correction
    and passes it on as the sentiment to use, so [train_on_feedback] always
    takes its sentiment branch, which returns before anything is stored:
    the backend after the request is the backend before it. *)
Theorem main_feedback_never_stores (w : World) (b : Backend)
    (params : FeedbackParams) :
  fst (main_feedback w b params) = b.
Proof.
  unfold main_feedback. cbv zeta.
  destruct (has_correction (originalText params) (originalSentiment params)
              (correctedSentiment params)) eqn:Hs.
  - cbn [orb]. apply sentiment_feedback_leaves_backend. exact Hs.
  - cbn [orb].
    destruct (has_correction _ _ (correctedLocation params)
              || has_correction _ _ (correctedDisasterType params)) eqn:H;
      [|reflexivity].
    apply sentiment_feedback_leaves_backend.
    unfold has_correction in *.
    destruct (truthy (originalText params)), (truthy (originalSentiment params));
      cbn in *; try discriminate H; reflexivity.
Qed.

(* ===================================================================== *)
(** * Properties: rounding, and the figures of a feedback response *)
(* ===================================================================== *)

Lemma round2_between (x : Q) (a b : Z) :
  (a # 100 <= x)%Q -> (x <= b # 100)%Q ->
  (a # 100 <= round2 x)%Q /\ (round2 x <= b # 100)%Q.
Proof.
  destruct x as [n d]. unfold Qle, round2. cbn [Qnum Qden].
  intros Ha Hb.
  pose proof (Z.div_mod (n * 100) (Z.pos d) ltac:(lia)) as Hdm.
  pose proof (Z.mod_pos_bound (n * 100) (Z.pos d) ltac:(lia)) as Hr.
  set (q := (n * 100 / Z.pos d)%Z) in *.
  set (r := ((n * 100) mod Z.pos d)%Z) in *.
  assert (Hq1 : (a <= q)%Z) by nia.
  assert (Hq2 : (q <= b)%Z) by nia.
  destruct (Z.pos d <? 2 * r)%Z eqn:E1.
  - apply Z.ltb_lt in E1. assert (q < b)%Z by nia. lia.
  - destruct (2 * r =? Z.pos d)%Z eqn:E2.
    + apply Z.eqb_eq in E2. assert (q < b)%Z by nia.
      destruct (Z.odd q); lia.
    + lia.
Qed.

Lemma qmin_le_l (a b : Q) : (qmin a b <= a)%Q.
Proof.
  unfold qmin. destruct (Qle_bool a b) eqn:E.
  - apply Qle_refl.
  - destruct (Qlt_le_dec b a) as [H|H].
    + apply Qlt_le_weak. exact H.
    + apply Qle_bool_iff in H. congruence.
Qed.

Lemma qmin_le_r (a b : Q) : (qmin a b <= b)%Q.
Proof.
  unfold qmin. destruct (Qle_bool a b) eqn:E.
  - apply Qle_bool_iff. exact E.
  - apply Qle_refl.
Qed.

Lemma qmin_glb (a b c : Q) : (c <= a)%Q -> (c <= b)%Q -> (c <= qmin a b)%Q.
Proof. intros Ha Hb. unfold qmin. destruct (Qle_bool a b); assumption. Qed.

Lemma performance_of_bounds (f : Q) :
  (0 <= f)%Q -> (f <= 6 # 1000)%Q ->
  (86 # 100 <= new_accuracy (performance_of f))%Q
  /\ (new_accuracy (performance_of f) <= 87 # 100)%Q.
Proof.
  intros H0 H6. unfold performance_of. cbn [new_accuracy].
  destruct (round2_between ((86 # 100) + f) 86 87) as [L U].
  { rewrite <- (Qplus_0_r (86 # 100)) at 1. apply Qplus_le_r. exact H0. }
  { apply Qle_trans with ((86 # 100) + (6 # 1000))%Q.
    - apply Qplus_le_r. exact H6.
    - unfold Qle. cbn. lia. }
  set (c := round2 ((86 # 100) + f)) in *.
  assert (Lm : (86 # 100 <= qmin (88 # 100) c)%Q).
  { apply qmin_glb; [unfold Qle; cbn; lia | exact L]. }
  assert (Um : (qmin (88 # 100) c <= 87 # 100)%Q).
  { apply Qle_trans with c; [apply qmin_le_r | exact U]. }
  split; [exact Lm | exact Um].
Qed.

Lemma uniform_small (w : World) (lo hi : Q) :
  uniform_in_range w -> (lo <= hi)%Q -> (0 <= lo)%Q -> (hi <= 6 # 1000)%Q ->
  (0 <= uniform w lo hi)%Q /\ (uniform w lo hi <= 6 # 1000)%Q.
Proof.
  intros H Hlh Hlo Hhi. destruct (H lo hi Hlh) as [L U]. split.
  - apply Qle_trans with lo; assumption.
  - apply Qle_trans with hi; assumption.
Qed.

Lemma scaled_small (f : Q) (n : Z) (d : positive) :
  (0 <= n <= Z.pos d)%Z ->
  (0 <= f)%Q /\ (f <= 6 # 1000)%Q ->
  (0 <= f * (n # d))%Q /\ (f * (n # d) <= 6 # 1000)%Q.
Proof.
  intros Hn [H0 H6]. destruct f as [fn fd].
  unfold Qle, Qmult in *. cbn [Qnum Qden] in *.
  rewrite Pos2Z.inj_mul. split; nia.
Qed.

Lemma base_improvement_small (w : World) (corrected_sentiment : str) :
  uniform_in_range w ->
  (0 <= base_improvement_factor w corrected_sentiment)%Q
  /\ (base_improvement_factor w corrected_sentiment <= 6 # 1000)%Q.
Proof.
  intros H. unfold base_improvement_factor.
  repeat match goal with
         | |- context [if ?c then _ else _] => destruct c
         end;
    apply uniform_small; try exact H; unfold Qle; cbn; lia.
Qed.

(** X9.  With [random.uniform] inside its bounds, the figures of every
    feedback response that has any are: previous accuracy 0.86, new
    accuracy at least 0.86 and at most 0.87; the cap of 0.88 is never
    reached. *)
Theorem feedback_figures (w : World) (b : Backend)
    (original_text original_sentiment corrected_sentiment
       corrected_location corrected_disaster_type : str) (p : Performance) :
  uniform_in_range w ->
  performance (snd (train_on_feedback w b original_text original_sentiment
                      corrected_sentiment corrected_location
                      corrected_disaster_type)) = Some p ->
  previous_accuracy p = (86 # 100)%Q
  /\ (86 # 100 <= new_accuracy p)%Q /\ (new_accuracy p <= 87 # 100)%Q.
Proof.
  intros Hu. unfold train_on_feedback. cbv zeta.
  destruct (negb _); [discriminate|].
  destruct (_ && negb _); [discriminate|].
  assert (Hfinish : forall f, (0 <= f)%Q /\ (f <= 6 # 1000)%Q ->
            Some (performance_of f) = Some p ->
            previous_accuracy p = (86 # 100)%Q
            /\ (86 # 100 <= new_accuracy p)%Q /\ (new_accuracy p <= 87 # 100)%Q).
  { intros f [H0 H6] E. injection E as <-.
    split; [reflexivity|]. apply performance_of_bounds; assumption. }
  destruct (has_correction original_text original_sentiment corrected_sentiment).
  - cbn [snd performance]. apply Hfinish.
    unfold improvement_factor_of.
    destruct (negb _).
    + apply scaled_small; [lia|]. apply base_improvement_small. exact Hu.
    + apply base_improvement_small. exact Hu.
  - cbn [snd performance]. apply Hfinish.
    apply uniform_small; try exact Hu; unfold Qle; cbn; lia.
Qed.

Lemma feedback_figures_witness :
  uniform_in_range offline
  /\ (let p := performance_of (3 # 1000) in
      previous_accuracy p = (86 # 100)%Q
      /\ (86 # 100 <= new_accuracy p)%Q /\ (new_accuracy p <= 87 # 100)%Q).
Proof.
  assert (H : uniform_in_range offline).
  { intros lo hi Hle. split; [apply Qle_refl | exact Hle]. }
  split; [exact H|].
  apply (feedback_figures offline sample_backend (py "baha sa amin")
           (py "Neutral") (py "Panic") [] [] (performance_of (3 # 1000)) H).
  vm_compute. reflexivity.
Defined.

(* ===================================================================== *)
(** * Properties: the range of the extractors *)
(* ===================================================================== *)

Lemma first_some_found {A B} (f : A -> option B) (l : list A) (y : B) :
  first_some f l = Some y -> exists x, In x l /\ f x = Some y.
Proof.
  induction l as [|x l IH]; intros H; [discriminate H|].
  cbn [first_some] in H. destruct (f x) as [y'|] eqn:E.
  - injection H as <-. exists x. split; [left; reflexivity | exact E].
  - destruct (IH H) as (x' & Hin & Hx'). exists x'. split; [right|]; assumption.
Qed.

Lemma title_of_first_value (matches : list str) (loc : str) :
  title_of_first matches = Some loc -> location_value loc.
Proof.
  destruct matches as [|m rest]; [discriminate|]. cbn [title_of_first].
  destruct (Nat.ltb 1 (List.length (strip m))) eqn:E; [|discriminate].
  intros H. injection H as <-. right. right. exists m.
  split; [apply Nat.ltb_lt; exact E | reflexivity].
Qed.

Lemma find_value (p : str -> bool) (loc : str) :
  List.find p ph_locations = Some loc -> location_value loc.
Proof. intros H. apply List.find_some in H. right. left. tauto. Qed.

Lemma or_else_value (o next : option str) :
  (forall loc, o = Some loc -> location_value loc) ->
  (forall loc, next = Some loc -> location_value loc) ->
  forall loc, or_else o next = Some loc -> location_value loc.
Proof.
  intros Ho Hnext loc. destruct o as [r|].
  - intros H. apply Ho. exact H.
  - intros H. apply Hnext. exact H.
Qed.

Lemma stage_upper_value (text loc : str) :
  stage_upper text = Some loc -> location_value loc.
Proof.
  unfold stage_upper. destruct (isupper text); [|discriminate].
  destruct (title_of_first (Re.findall LocationPatterns.upper_emergency text))
    as [r|] eqn:E.
  - intros H. injection H as <-. eapply title_of_first_value. exact E.
  - apply title_of_first_value.
Qed.

Lemma stage_emergency_value (text_lower loc : str) :
  stage_emergency text_lower = Some loc -> location_value loc.
Proof.
  unfold stage_emergency. intros H.
  apply first_some_found in H as (pattern & _ & E).
  eapply title_of_first_value. exact E.
Qed.

Lemma stage_misspelling_value (text_lower loc : str) :
  stage_misspelling text_lower = Some loc -> location_value loc.
Proof.
  unfold stage_misspelling. intros H.
  apply first_some_found in H as ([misspelling correct] & _ & E).
  cbv beta iota in E.
  destruct (contains misspelling text_lower); [|discriminate E].
  eapply find_value. exact E.
Qed.

Lemma stage_whole_word_value (text_lower loc : str) :
  stage_whole_word text_lower = Some loc -> location_value loc.
Proof.
  unfold stage_whole_word. intros H. right. left.
  destruct (List.filter (whole_word_match text_lower) ph_locations)
    as [|x l] eqn:F; [discriminate H|].
  injection H as <-.
  assert (Hin : In x (List.filter (whole_word_match text_lower) ph_locations))
    by (rewrite F; left; reflexivity).
  apply List.filter_In in Hin. tauto.
Qed.

Lemma stage_fuzzy_value (text_lower loc : str) :
  stage_fuzzy text_lower = Some loc -> location_value loc.
Proof.
  unfold stage_fuzzy. intros H.
  apply first_some_found in H as (word & _ & E).
  cbv beta in E.
  destruct (Nat.ltb 3 (List.length word)); [|discriminate E].
  eapply find_value. exact E.
Qed.

Lemma stage_place_value (text loc : str) :
  stage_place text = Some loc -> location_value loc.
Proof.
  unfold stage_place. intros H.
  apply first_some_found in H as (pattern & _ & E).
  apply first_some_found in E as (m & _ & E).
  eapply find_value. exact E.
Qed.

Lemma manila_listed : In (py "Manila") ph_locations.
Proof. apply mem_In. vm_compute. reflexivity. Qed.

Lemma stage_flood_road_value (text_lower loc : str) :
  stage_flood_road text_lower = Some loc -> location_value loc.
Proof.
  unfold stage_flood_road.
  destruct (_ && _); [|discriminate].
  destruct (any_in _ _); [|discriminate].
  intros H. injection H as <-. right. left. exact manila_listed.
Qed.

Lemma stage_value (text : str) (loc : str) :
  or_else (stage_upper text)
    (or_else (stage_emergency (lower text))
    (or_else (stage_sa (lower text))
    (or_else (stage_misspelling (lower text))
    (or_else (stage_whole_word (lower text))
    (or_else (stage_substring (lower text))
    (or_else (stage_fuzzy (lower text))
    (or_else (stage_place text)
             (stage_flood_road (lower text))))))))) = Some loc ->
  location_value loc.
Proof.
  revert loc.
  apply or_else_value; [apply stage_upper_value|].
  apply or_else_value; [apply stage_emergency_value|].
  apply or_else_value; [intros loc; apply title_of_first_value|].
  apply or_else_value; [apply stage_misspelling_value|].
  apply or_else_value; [apply stage_whole_word_value|].
  apply or_else_value; [intros loc; apply find_value|].
  apply or_else_value; [apply stage_fuzzy_value|].
  apply or_else_value; [apply stage_place_value|].
  apply stage_flood_road_value.
Qed.

Lemma title_from_length (previous_is_cased : bool) (s : str) :
  (List.length s <= List.length (title_from previous_is_cased s))%nat.
Proof.
  revert previous_is_cased. induction s as [|c tl IH]; intros p; [reflexivity|].
  cbn [title_from]. rewrite List.length_app. specialize (IH (is_cased c)).
  assert (1 <= List.length (if p then [lower_char c] else title_char c))%nat.
  { destruct p; [cbn; lia|]. unfold title_char, upper_char.
    repeat match goal with |- context [if ?b then _ else _] => destruct b end;
      cbn; lia. }
  cbn [List.length]. lia.
Qed.

Lemma location_value_length (loc : str) :
  location_value loc -> (2 <= List.length loc)%nat.
Proof.
  intros [-> | [H | (m & Hm & ->)]].
  - vm_compute. lia.
  - assert (F : forallb (fun l => Nat.leb 2 (List.length l)) ph_locations = true)
      by (vm_compute; reflexivity).
    rewrite forallb_forall in F. apply Nat.leb_le. apply F. exact H.
  - unfold title. pose proof (title_from_length false (strip m)). lia.
Qed.

Lemma extract_location_value (text : str) :
  location_value (extract_location text)
  /\ (2 <= List.length (extract_location text))%nat.
Proof.
  assert (H : location_value (extract_location text)).
  { unfold extract_location. destruct (negb (truthy text)); [left; reflexivity|].
    cbv zeta. destruct (or_else _ _) as [loc|] eqn:E.
    - eapply stage_value. exact E.
    - left. reflexivity. }
  split; [exact H | apply location_value_length; exact H].
Qed.


(** X11.  Whatever the text, [extract_disaster_type] returns
    "Not Specified", "UNKNOWN" or the name of one of the six disaster
    types. *)
Theorem extract_disaster_type_range (text : str) :
  In (extract_disaster_type text) disaster_values.
Proof.
  unfold extract_disaster_type, disaster_values.
  destruct (_ || _); [left; reflexivity|]. cbv zeta.
  destruct (Qlt_bool _ _); [right; left; reflexivity|].
  destruct (top_choice (disaster_scores (lower text))) as (d & Hd & _).
  right. right.
  match goal with
  | |- In ?t _ => replace t with (disaster_name d) by (symmetry; exact Hd)
  end.
  apply in_map. rewrite disaster_keys_eq. destruct d; cbn; tauto.
Qed.

(* ===================================================================== *)
(** * Properties: a keyword is enough to name a disaster type *)
(* ===================================================================== *)

Lemma dscores_add_grows (d : Disaster) (w : Q) (s : dscores) (d' : Disaster) :
  (0 <= w)%Q -> (s d' <= dscores_add d w s d')%Q.
Proof.
  intros Hw. unfold dscores_add. destruct (Disaster_eqb d d').
  - rewrite <- (Qplus_0_r (s d')) at 1. apply Qplus_le_r. exact Hw.
  - apply Qle_refl.
Qed.

Lemma dscores_add_at (d : Disaster) (w : Q) (s : dscores) :
  dscores_add d w s d = (s d + w)%Q.
Proof. unfold dscores_add. destruct d; reflexivity. Qed.

Lemma keyword_weight_nonnegative (text_lower keyword : str) :
  (0 <= keyword_weight text_lower keyword)%Q.
Proof.
  unfold keyword_weight.
  destruct (contains keyword text_lower); [destruct (full_word _ _)|];
    unfold Qle; cbn; lia.
Qed.

Lemma keyword_weight_found (text_lower keyword : str) :
  contains keyword text_lower = true ->
  (1 <= keyword_weight text_lower keyword)%Q.
Proof.
  intros H. unfold keyword_weight. rewrite H.
  destruct (full_word _ _); unfold Qle; cbn; lia.
Qed.

Lemma fold_grows {A} (f : dscores -> A -> dscores) (l : list A) :
  (forall s a d, (s d <= f s a d)%Q) ->
  forall s d, (s d <= List.fold_left f l s d)%Q.
Proof.
  intros Hf. induction l as [|a l IH]; intros s d; [apply Qle_refl|].
  cbn [List.fold_left]. eapply Qle_trans; [apply Hf | apply IH].
Qed.

Lemma keywords_grow (text_lower : str) (d : Disaster) (keywords : list str) :
  forall s d',
    (s d' <= List.fold_left
               (fun s keyword => dscores_add d (keyword_weight text_lower keyword) s)
               keywords s d')%Q.
Proof.
  apply fold_grows. intros s keyword d'.
  apply dscores_add_grows, keyword_weight_nonnegative.
Qed.

Lemma keywords_found (text_lower : str) (d : Disaster) (keywords : list str)
    (keyword : str) :
  In keyword keywords -> contains keyword text_lower = true ->
  forall s,
    (s d + 1 <= List.fold_left
                  (fun s keyword => dscores_add d (keyword_weight text_lower keyword) s)
                  keywords s d)%Q.
Proof.
  induction keywords as [|k keywords IH]; intros Hin Hc s; [destruct Hin|].
  cbn [List.fold_left]. destruct Hin as [-> | Hin].
  - eapply Qle_trans; [|apply keywords_grow].
    rewrite dscores_add_at. apply Qplus_le_r.
    apply keyword_weight_found. exact Hc.
  - eapply Qle_trans; [|apply IH; assumption].
    apply Qplus_le_l. apply dscores_add_grows, keyword_weight_nonnegative.
Qed.

Lemma keyword_pass_found (text_lower : str) (d : Disaster) (keyword : str)
    (table : list (Disaster * list str)) :
  (exists keywords, In (d, keywords) table /\ In keyword keywords) ->
  contains keyword text_lower = true ->
  forall s,
    (s d + 1 <= List.fold_left
                  (fun s e =>
                     List.fold_left
                       (fun s keyword =>
                          dscores_add (fst e) (keyword_weight text_lower keyword) s)
                       (snd e) s)
                  table s d)%Q.
Proof.
  intros (keywords & Hin & Hk) Hc.
  induction table as [|e table IH]; intros s; [destruct Hin|].
  cbn [List.fold_left]. destruct Hin as [-> | Hin].
  - cbn [fst snd].
    eapply Qle_trans; [apply (keywords_found text_lower d keywords keyword Hk Hc)|].
    apply fold_grows. intros s0 e d'. apply keywords_grow.
  - eapply Qle_trans; [|apply IH; exact Hin].
    apply Qplus_le_l. apply keywords_grow.
Qed.

Lemma context_pass_grows (text_lower : str) (s : dscores) (d : Disaster) :
  (s d <= context_pass text_lower s d)%Q.
Proof.
  unfold context_pass. apply fold_grows. intros s0 e d0.
  apply fold_grows. intros s1 indicator d1.
  destruct (contains indicator text_lower); [|apply Qle_refl].
  apply dscores_add_grows. unfold Qle; cbn; lia.
Qed.

Lemma cooccurrence_pass_grows (text_lower : str) (s : dscores) (d : Disaster) :
  (s d <= cooccurrence_pass text_lower s d)%Q.
Proof.
  unfold cooccurrence_pass. cbv zeta.
  assert (Hstep : forall (c : bool) (d0 : Disaster) (w : Q) (s0 : dscores),
            (0 <= w)%Q -> (s0 d <= (if c then dscores_add d0 w s0 else s0) d)%Q).
  { intros c d0 w s0 Hw. destruct c; [apply dscores_add_grows; exact Hw | apply Qle_refl]. }
  set (s1 := if both "water" "rising" text_lower then _ else s).
  set (s2 := if both "strong" "wind" text_lower then _ else s1).
  set (s3 := if both "heavy" "rain" text_lower then _ else s2).
  set (s4 := if both "building" "collapse" text_lower then _ else s3).
  set (s5 := if both "ash" "fall" text_lower then _ else s4).
  assert (H5 : (s d <= s5 d)%Q).
  { eapply Qle_trans; [|apply Hstep; unfold Qle; cbn; lia]. fold s4.
    eapply Qle_trans; [|apply Hstep; unfold Qle; cbn; lia]. fold s3.
    eapply Qle_trans; [|apply Hstep; unfold Qle; cbn; lia]. fold s2.
    eapply Qle_trans; [|apply Hstep; unfold Qle; cbn; lia]. fold s1.
    apply Hstep. unfold Qle; cbn; lia. }
  destruct (both "evacuate" "alert" text_lower); [|exact H5].
  eapply Qle_trans; [exact H5|]. apply fold_grows. intros s0 d_type d0.
  destruct (any_in _ _); [|apply Qle_refl].
  apply dscores_add_grows. unfold Qle; cbn; lia.
Qed.

Lemma keyword_scores_one (text_lower : str) (d : Disaster) (keyword : str) :
  In keyword (dict_get disaster_types d) ->
  contains keyword text_lower = true ->
  (1 <= disaster_scores text_lower d)%Q.
Proof.
  intros Hin Hc. unfold disaster_scores.
  eapply Qle_trans; [|apply cooccurrence_pass_grows].
  eapply Qle_trans; [|apply context_pass_grows].
  unfold keyword_pass.
  pose proof (keyword_pass_found text_lower d keyword disaster_types) as H.
  specialize (H ltac:(
    unfold dict_get in Hin;
    destruct (List.find (fun e => Disaster_eqb (fst e) d) disaster_types)
      as [[d0 keywords]|] eqn:F; [|destruct Hin];
    apply List.find_some in F as [F1 F2]; cbn [fst snd] in *;
    exists keywords; split; [|exact Hin];
    destruct d0, d; try discriminate F2; exact F1) Hc (fun _ => 0%Q)).
  cbn beta in H. rewrite Qplus_0_l in H. exact H.
Qed.

(** X12.  One keyword is enough: when a keyword of the list of some
    disaster type occurs anywhere in the lowercase text, also inside a
    longer word, [extract_disaster_type] answers with the name of a
    disaster type, never with "UNKNOWN" or "Not Specified". *)
Theorem keyword_names_a_type (text keyword : str) (d : Disaster) :
  whitespace_only text = false ->
  In keyword (dict_get disaster_types d) ->
  contains keyword (lower text) = true ->
  exists d', extract_disaster_type text = disaster_name d'
             /\ (1 <= disaster_scores (lower text) d')%Q.
Proof.
  intros Hblank Hin Hc.
  pose proof (keyword_scores_one (lower text) d keyword Hin Hc) as H1.
  pose proof (dscores_max_upper (disaster_scores (lower text)) d) as Hmax.
  unfold extract_disaster_type. rewrite (nonblank_guard text Hblank). cbv zeta.
  unfold Qlt_bool.
  assert (Qle_bool 1 (dscores_max (disaster_scores (lower text))) = true) as ->.
  { apply Qle_bool_iff. eapply Qle_trans; [exact H1 | exact Hmax]. }
  cbn [negb].
  destruct (top_choice (disaster_scores (lower text))) as (d' & Hd & Hatt & _).
  exists d'. split; [exact Hd|].
  apply Qeq_bool_iff in Hatt. rewrite Hatt.
  eapply Qle_trans; [exact H1 | exact Hmax].
Qed.

Lemma keyword_names_a_type_witness :
  exists d', extract_disaster_type (py "Pinasunog nila ang bodega") = disaster_name d'
             /\ (1 <= disaster_scores (lower (py "Pinasunog nila ang bodega")) d')%Q.
Proof.
  apply (keyword_names_a_type (py "Pinasunog nila ang bodega") (py "sunog") Fire).
  - vm_compute. reflexivity.
  - vm_compute. tauto.
  - vm_compute. reflexivity.
Defined.

(* ===================================================================== *)
(** * Properties: the real-time answer *)
(* ===================================================================== *)

Lemma normalise_sentiment_label (s : str) :
  In (normalise_sentiment s) (List.map sentiment_name sentiment_labels).
Proof.
  unfold normalise_sentiment.
  destruct (mem s (List.map sentiment_name sentiment_labels)) eqn:E.
  - apply mem_In. exact E.
  - destruct (List.find _ sentiment_map) as [e|] eqn:F.
    + apply List.find_some in F as [Hin _].
      assert (H : forallb (fun e => mem (snd e)
                                 (List.map sentiment_name sentiment_labels))
                          sentiment_map = true) by (vm_compute; reflexivity).
      rewrite forallb_forall in H. apply mem_In. apply H. exact Hin.
    + apply mem_In. vm_compute. reflexivity.
Qed.

Lemma corrected_sentiment_label (text s : str) :
  In s (List.map sentiment_name sentiment_labels) ->
  In (corrected_sentiment_for text s) (List.map sentiment_name sentiment_labels).
Proof.
  intros H. unfold corrected_sentiment_for.
  destruct (_ && _); [|exact H]. apply mem_In. vm_compute. reflexivity.
Qed.

(** X13.  An answer of the real-time request always carries one of the five
    labels (any other label of the reply is mapped, to Neutral when
    nothing fits), a confidence of at most 0.97 and the detected language;
    its disaster type and location are those of the reply, absent when the
    reply has none. *)
Theorem realtime_answer_range (w : World) (b : Backend) (text language : str)
    (r : Result) :
  realtime_analysis w b text language = Some r ->
  In (sentiment r) (List.map sentiment_name sentiment_labels)
  /\ (confidence r <= 97 # 100)%Q
  /\ language_of r = Some language
  /\ exists reply, realtime_reply w = Answer reply
                   /\ disasterType r = r_disasterType reply
                   /\ location r = r_location reply.
Proof.
  unfold realtime_analysis.
  destruct (validation_api_key b) as [key|]; [|discriminate].
  destruct (truthy key); [|discriminate].
  destruct (realtime_reply w) as [| |reply]; try discriminate.
  destruct (r_sentiment reply) as [s|]; [|discriminate].
  intros H. injection H as <-.
  cbn [sentiment confidence disasterType location].
  split; [apply corrected_sentiment_label, normalise_sentiment_label|].
  split; [apply qmin_le_l|]. split; [reflexivity|].
  exists reply. auto.
Qed.

Lemma realtime_answer_range_witness :
  let w :=
    mkWorld (fun _ => None) (fun _ => None)
            (Answer (labelled "worried" (99 # 100)))
            (fun _ _ => Failed) VFailed (fun lo _ => lo) in
  let b :=
    mkBackend (pys ["key-1"]) (pys ["key-1"]) (Some (py "key-0")) 0 ∅ ∅ ∅ ∅ in
  let r :=
    mkResult (py "Neutral") (97 # 100)
             (py "Analysis via DeepSeek R1 Distill Llama 70B")
             None None (Some (py "Filipino")) in
  realtime_analysis w b (py "baha dito") (py "Filipino") = Some r
  /\ In (sentiment r) (List.map sentiment_name sentiment_labels)
  /\ (confidence r <= 97 # 100)%Q.
Proof.
  intros w b r.
  assert (H : realtime_analysis w b (py "baha dito") (py "Filipino") = Some r)
    by (vm_compute; reflexivity).
  split; [exact H|].
  destruct (realtime_answer_range w b (py "baha dito") (py "Filipino") r H)
    as (H1 & H2 & _).
  split; [exact H1 | exact H2].
Defined.

(* ===================================================================== *)
(** * Properties: the records of a CSV file *)
(* ===================================================================== *)

Lemma detect_news_source_range (text : str) :
  In (detect_news_source text)
     (py "Unknown Social Media" :: List.tl inferred_sources).
Proof.
  unfold detect_news_source. cbv zeta.
  repeat match goal with
         | |- In (if ?c then _ else _) _ => destruct c
         end;
    apply mem_In; vm_compute; reflexivity.
Qed.

Lemma record_text_not_blank (row : CsvRow) :
  whitespace_only (record_text row) = false.
Proof.
  unfold record_text.
  destruct (truthy (strip (str_of (text_cell row)))) eqn:E; cbn [negb].
  - destruct (whitespace_only (str_of (text_cell row))) eqn:W; [|reflexivity].
    rewrite (strip_whitespace _ W) in E. discriminate E.
  - vm_compute. reflexivity.
Qed.

Lemma process_record_text (w : World) (b : Backend) (now : str) (row : CsvRow) :
  p_text (snd (process_record w b now row)) = record_text row.
Proof.
  unfold process_record. cbv zeta.
  destruct (source_and_sentiment row _) as [source csv_sentiment].
  destruct (match sentiment_cell row with Some (Txt _) => _ | _ => None end)
    as [label|].
  - reflexivity.
  - destruct (analyze_sentiment w b true _) as [b' a]. reflexivity.
Qed.

(** X14.  Every record of the main loop has a text that is not blank: a
    row whose text cell is empty or whitespace is kept, with the text
    "[No text content]"; the retry loop drops such a row. *)
Theorem blank_rows (w : World) (b : Backend) (now : str) (row : CsvRow) :
  whitespace_only (p_text (snd (process_record w b now row))) = false
  /\ (whitespace_only (str_of (text_cell row)) = true ->
      p_text (snd (process_record w b now row)) = py "[No text content]"
      /\ retry_record w b now row = (b, None)).
Proof.
  rewrite process_record_text. split; [apply record_text_not_blank|].
  intros W. unfold record_text, retry_record.
  rewrite (strip_whitespace _ W). cbn [truthy List.length Nat.eqb negb].
  split; reflexivity.
Qed.

Lemma blank_rows_witness :
  p_text (snd (process_record offline sample_backend (py "2025-01-01")
                 (mkCsvRow (Txt (py "   ")) None None None None None None None)))
  = py "[No text content]"
  /\ retry_record offline sample_backend (py "2025-01-01")
       (mkCsvRow (Txt (py "   ")) None None None None None None None)
     = (sample_backend, None).
Proof.
  apply (blank_rows offline sample_backend (py "2025-01-01")
           (mkCsvRow (Txt (py "   ")) None None None None None None None)).
  vm_compute. reflexivity.
Defined.

Lemma truthy_length (s : str) : truthy s = true <-> (1 <= List.length s)%nat.
Proof.
  unfold truthy. destruct s; cbn; split; intros H; try reflexivity;
    try discriminate; lia.
Qed.




Lemma or_detected_value (v : option str) (detected : str) :
  truthy detected = true ->
  truthy_opt (or_detected v detected) = true.
Proof.
  intros H. unfold or_detected.
  destruct (negb (truthy_opt v)) eqn:E; cbn [orb].
  - exact H.
  - destruct (nan_like _); [exact H|].
    apply negb_false_iff in E. exact E.
Qed.

Lemma extract_location_truthy (text : str) : truthy (extract_location text) = true.
Proof.
  apply truthy_length. pose proof (extract_location_value text) as [_ H]. lia.
Qed.

Lemma clean_cell (c : option Cell) (detected : str) :
  or_detected (clean (cell_value c)) detected
  = Some (match c with
          | Some (Txt v) => if truthy v && negb (nan_like v) then v else detected
          | _ => detected
          end).
Proof.
  destruct c as [[|v]|].
  - reflexivity.
  - unfold clean, or_detected, cell_value, str_of. cbn [truthy_opt or_default].
    destruct (truthy v) eqn:T; cbn [andb negb orb].
    + destruct (nan_like v) eqn:N; cbn [truthy_opt negb orb or_default].
      * reflexivity.
      * rewrite T, N. reflexivity.
    + cbn [truthy_opt or_default]. rewrite T. reflexivity.
  - reflexivity.
Qed.

(** X16.  Every record of the main loop has a location, and it never
    comes from the classifier: it is the cell of the location column when
    that holds a text other than "nan" and "none" (in any case), and
    else what [extract_location] finds in the text of the record. *)
Theorem csv_location (w : World) (b : Backend) (now : str) (row : CsvRow) :
  p_location (snd (process_record w b now row))
  = Some (or_default (provided_location row)
                     (extract_location (record_text row))).
Proof.
  unfold process_record. cbv zeta. fold (record_text row).
  destruct (source_and_sentiment row _) as [source csv_sentiment].
  rewrite (clean_cell (location_cell row)).
  set (loc := match location_cell row with
              | Some (Txt v) => _ | _ => extract_location (record_text row) end).
  assert (Hloc : loc = or_default (provided_location row)
                                  (extract_location (record_text row))).
  { unfold loc, provided_location.
    destruct (location_cell row) as [[|v]|]; try reflexivity.
    destruct (truthy v && negb (nan_like v)); reflexivity. }
  assert (Ht : truthy loc = true).
  { unfold loc. destruct (location_cell row) as [[|v]|];
      try apply extract_location_truthy.
    destruct (truthy v) eqn:T; cbn [andb];
      [destruct (negb (nan_like v))|]; try apply extract_location_truthy.
    exact T. }
  assert (Hkeep : forall y, if_truthy (Some loc) y = Some loc).
  { intros y. unfold if_truthy, truthy_opt. rewrite Ht. reflexivity. }
  destruct (match sentiment_cell row with Some (Txt _) => _ | _ => None end)
    as [label|].
  - cbn [snd p_location]. rewrite Hkeep, Hloc. reflexivity.
  - destruct (analyze_sentiment w b true _) as [b' a].
    cbn [snd p_location]. rewrite Hkeep, Hloc. reflexivity.
Qed.

(** X17.  Without a source column the source of a record is "CSV Import"
    or what [detect_news_source] reads off the text: one of seven outlets
    or "News Media"; it is never "Unknown Social Media". *)
Theorem csv_source_inferred (w : World) (b : Backend) (now : str) (row : CsvRow) :
  source_cell row = None ->
  In (p_source (snd (process_record w b now row))) inferred_sources
  /\ p_source (snd (process_record w b now row))
     = (if str_eqb (detect_news_source (record_text row))
                   (py "Unknown Social Media")
        then py "CSV Import" else detect_news_source (record_text row)).
Proof.
  intros Hs.
  assert (Hsrc : fst (source_and_sentiment row (record_text row))
                 = (if str_eqb (detect_news_source (record_text row))
                               (py "Unknown Social Media")
                    then py "CSV Import"
                    else detect_news_source (record_text row))).
  { unfold source_and_sentiment. rewrite Hs. cbv zeta.
    change (mem (py "CSV Import") sentiment_values) with false. cbv iota.
    rewrite str_eqb_refl. cbn [orb fst].
    destruct (str_eqb (detect_news_source (record_text row)) _); reflexivity. }
  assert (Hp : p_source (snd (process_record w b now row))
               = fst (source_and_sentiment row (record_text row))).
  { unfold process_record. cbv zeta. fold (record_text row).
    destruct (source_and_sentiment row _) as [source csv_sentiment].
    destruct (match sentiment_cell row with Some (Txt _) => _ | _ => None end)
      as [label|]; [reflexivity|].
    destruct (analyze_sentiment w b true _) as [b' a]. reflexivity. }
  rewrite Hp, Hsrc. split; [|reflexivity].
  destruct (str_eqb (detect_news_source (record_text row)) _) eqn:E.
  - left. reflexivity.
  - pose proof (detect_news_source_range (record_text row)) as [H|H].
    + apply str_eqb_neq in E. congruence.
    + right. exact H.
Qed.

Lemma csv_source_inferred_witness :
  p_source (snd (process_record offline sample_backend (py "2025-01-01")
                   (mkCsvRow (Txt (py "BREAKING: baha sa Marikina")) None None
                             None None None None None)))
  = py "News Media".
Proof.
  destruct (csv_source_inferred offline sample_backend (py "2025-01-01")
              (mkCsvRow (Txt (py "BREAKING: baha sa Marikina")) None None
                        None None None None None) eq_refl) as [_ H].
  rewrite H. vm_compute. reflexivity.
Defined.

(* ===================================================================== *)
(** * Properties: a file whose rows are all labelled *)
(* ===================================================================== *)






(* ===================================================================== *)
(** * Properties: the records [process_csv] returns *)
(* ===================================================================== *)

Lemma outcomes_split {Row Out : Type} (rows : list Row) (outs : list (option Out)) :
  List.length rows = List.length outs ->
  (List.length (successes outs) + List.length (failures rows outs))%nat
  = List.length rows.
Proof.
  revert outs. induction rows as [|row rows IH]; intros [|o outs] H;
    try discriminate H; [reflexivity|].
  cbn in H. injection H as H. specialize (IH outs H).
  unfold successes, failures in *. destruct o as [x|];
    cbn [List.flat_map List.combine List.app List.length snd fst]; lia.
Qed.

Lemma successes_length {Out : Type} (outs : list (option Out)) :
  (List.length (successes outs) <= List.length outs)%nat.
Proof.
  unfold successes. induction outs as [|[x|] outs IH]; cbn; lia.
Qed.

Lemma retry_outcomes_length {Row Out State : Type}
    (retry_body : State -> Row -> State * option Out) (st : State)
    (rows : list Row) :
  List.length (fst (retry_outcomes retry_body st rows)) = List.length rows.
Proof.
  revert st. induction rows as [|row rows IH]; intros st; [reflexivity|].
  cbn [retry_outcomes]. destruct (retry_body st row) as [st1 o].
  specialize (IH st1). destruct (retry_outcomes retry_body st1 rows).
  cbn in *. lia.
Qed.

(** X19.  [process_csv] returns at most one record for each row: the
    records of the rows that did not fail, in the order of the rows,
    followed by the records of the failed rows the retry loop could
    process; a row that fails again, or that the retry loop skips, gives
    no record.  When no row fails there is exactly one record for each
    row. *)
Theorem one_record_per_row {Row Out State : Type}
    (body retry_body : State -> Row -> State * option Out)
    (clock : nat -> nat -> Z) (st : State) (rows : list Row) :
  let outs := fst (outcomes body st rows) in
  let failed := failures rows outs in
  let retried :=
    fst (retry_outcomes retry_body (snd (outcomes body st rows)) failed) in
  let run := process_csv body retry_body clock st rows in
  processed_results run = successes outs ++ successes retried
  /\ failed_records run = failed
  /\ (List.length (processed_results run)
      = List.length rows - List.length failed + List.length (successes retried))%nat
  /\ (List.length (processed_results run) <= List.length rows)%nat
  /\ (failed = [] ->
      processed_results run = successes outs
      /\ List.length (processed_results run) = List.length rows).
Proof.
  cbv zeta.
  set (outs := fst (outcomes body st rows)).
  set (failed := failures rows outs).
  set (retried := fst (retry_outcomes retry_body (snd (outcomes body st rows)) failed)).
  assert (Hrun : processed_results (process_csv body retry_body clock st rows)
                 = successes outs ++ successes retried
                 /\ failed_records (process_csv body retry_body clock st rows)
                    = failed).
  { destruct (Nat.eq_dec (List.length rows) 0) as [E|E].
    - destruct rows; [|discriminate E]. split; reflexivity.
    - rewrite (process_csv_closed_form body retry_body clock st rows E).
      split; reflexivity. }
  destruct Hrun as [Hp Hf]. rewrite Hp, Hf.
  pose proof (outcomes_split rows outs
                ltac:(unfold outs; rewrite outcomes_length; reflexivity)) as Hs.
  fold failed in Hs.
  pose proof (successes_length retried) as Hr.
  unfold retried in Hr at 2. rewrite retry_outcomes_length in Hr.
  split; [reflexivity|]. split; [reflexivity|].
  rewrite List.length_app.
  split; [lia|]. split; [lia|].
  intros E.
  assert (Hnone : retried = []) by (unfold retried; rewrite E; reflexivity).
  rewrite Hnone, E in *. cbn [successes List.flat_map List.length] in *.
  rewrite List.app_nil_r. split; [reflexivity | lia].
Qed.
